(** * Business discovery engine (backend/api_server.py): a shallow embedding

    The development follows the layout of the Python module: the string
    primitives of the Python runtime that the module calls, the candidate
    validators, the enrichment fetcher, the places client, the discovery
    engine with its accumulated state, the final ordering of results and
    the job loop.  Definitions come first, then sample data, then the
    theorems.

    Strings are [String.string]; a character is a code point below 256
    (Latin-1).  On that range [str.lower], [str.strip] and the regular
    expression classes [\s] and [\d] are given exactly as CPython defines
    them, and so is [str.upper] but for the two characters whose capital
    is not in Latin-1.

    Input and output are explicit.  Every request and every sleep is
    appended to the trace of the engine state.  Replies to details
    lookups and page fetches come from an [Internet], which may answer
    the same request differently at different times.  Replies to nearby
    searches come from a finite script, one per request, after which the
    transport fails; a script can be as long as one likes, so every run
    of the program that ends is a run of the model, and the search loop
    is a structural recursion on the script. *)

From Stdlib Require Import ZArith Lia List.
From Stdlib Require Import Strings.String Strings.Ascii.
From Stdlib Require Import Sorting.Sorted Sorting.Permutation.
From stdpp Require Import gmap strings.

Import ListNotations.
Open Scope string_scope.

(* ===================================================================== *)
(** * Python string primitives                                            *)
(* ===================================================================== *)

Module Py.

Definition code (c : ascii) : nat := nat_of_ascii c.

Definition in_range (lo hi : nat) (c : ascii) : bool :=
  (lo <=? code c)%nat && (code c <=? hi)%nat.

(** [str.isspace] on one character, which is also the class [\s] of a
    str pattern: TAB..CR, FS..US, SPACE, NEL (0x85) and NBSP (0xA0). *)
Definition isspace (c : ascii) : bool :=
  in_range 9 13 c || in_range 28 32 c || (code c =? 133)%nat || (code c =? 160)%nat.

(** [\d] of a str pattern: on Latin-1 only the ASCII digits are decimal
    digits. *)
Definition isdigit (c : ascii) : bool := in_range 48 57 c.

Definition is_upper_az (c : ascii) : bool := in_range 65 90 c.
Definition is_lower_az (c : ascii) : bool := in_range 97 122 c.
Definition is_alpha_az (c : ascii) : bool := is_upper_az c || is_lower_az c.

(** [str.lower] on one character: A-Z, and the Latin-1 capitals
    0xC0..0xDE except the multiplication sign 0xD7, move up by 32. *)
Definition lower_char (c : ascii) : ascii :=
  if is_upper_az c || (in_range 192 222 c && negb (code c =? 215)%nat)
  then ascii_of_nat (code c + 32) else c.

(** [str.upper] on one character: a-z, and the Latin-1 small letters
    0xE0..0xFE except the division sign 0xF7, move down by 32; the sharp
    s (0xDF) becomes the two letters SS. *)
Definition upper_char (c : ascii) : string :=
  if (code c =? 223)%nat then String "S" (String "S" EmptyString)
  else if is_lower_az c || (in_range 224 254 c && negb (code c =? 247)%nat)
  then String (ascii_of_nat (code c - 32)) EmptyString
  else String c EmptyString.

Fixpoint map_chars (f : ascii -> ascii) (s : string) : string :=
  match s with
  | EmptyString => EmptyString
  | String c s' => String (f c) (map_chars f s')
  end.

Definition lower : string -> string := map_chars lower_char.

Fixpoint upper (s : string) : string :=
  match s with
  | EmptyString => EmptyString
  | String c s' => append (upper_char c) (upper s')
  end.


(** Truth value of a str: [if s:] holds for every non-empty string. *)
Definition truthy (s : string) : bool :=
  match s with EmptyString => false | String _ _ => true end.

Definition startswith (s p : string) : bool := String.prefix p s.

Fixpoint drop (n : nat) (s : string) : string :=
  match n, s with
  | O, _ => s
  | S _, EmptyString => EmptyString
  | S k, String _ s' => drop k s'
  end.

Definition endswith (s p : string) : bool :=
  (String.length p <=? String.length s)%nat
  && String.eqb (drop (String.length s - String.length p) s) p.

(** [sub in s] for strings. *)
Fixpoint contains (sub s : string) : bool :=
  String.prefix sub s ||
  match s with
  | EmptyString => false
  | String _ s' => contains sub s'
  end.

Fixpoint filter_chars (p : ascii -> bool) (s : string) : string :=
  match s with
  | EmptyString => EmptyString
  | String c s' => if p c then String c (filter_chars p s') else filter_chars p s'
  end.

Fixpoint forall_chars (p : ascii -> bool) (s : string) : bool :=
  match s with
  | EmptyString => true
  | String c s' => p c && forall_chars p s'
  end.


Fixpoint lstrip_by (p : ascii -> bool) (s : string) : string :=
  match s with
  | EmptyString => EmptyString
  | String c s' => if p c then lstrip_by p s' else s
  end.

(** Characters are dropped from the right end while [p] holds. *)
Fixpoint rstrip_by (p : ascii -> bool) (s : string) : string :=
  match s with
  | EmptyString => EmptyString
  | String c s' =>
      match rstrip_by p s' with
      | EmptyString => if p c then EmptyString else String c EmptyString
      | r => String c r
      end
  end.

(** [s.strip()]: whitespace removed at both ends. *)
Definition strip (s : string) : string := rstrip_by isspace (lstrip_by isspace s).

(** [s.rstrip(ch)] for a one-character argument. *)
Definition rstrip_char (ch : ascii) (s : string) : string :=
  rstrip_by (Ascii.eqb ch) s.

(** [s.replace(old, new)] for a non-empty [old]: every occurrence of
    [old], found from left to right without overlap, becomes [new].
    [skip] counts the characters of an occurrence still to pass over. *)
Fixpoint replace_from (old new : string) (skip : nat) (s : string) : string :=
  match s with
  | EmptyString => EmptyString
  | String c s' =>
      match skip with
      | S k => replace_from old new k s'
      | O =>
          if String.prefix old s
          then new ++ replace_from old new (String.length old - 1) s'
          else String c (replace_from old new O s')
      end
  end.

Definition replace (s old new : string) : string := replace_from old new O s.

(** [len(set(s)) == 1]: the string is non-empty and all its characters
    are the same. *)
Definition one_distinct_char (s : string) : bool :=
  match s with
  | EmptyString => false
  | String c s' => forall_chars (Ascii.eqb c) s'
  end.

End Py.

(* ===================================================================== *)
(** * Library calls whose result the module only consumes                 *)
(* ===================================================================== *)

(** The three regular expressions of the module. *)
Inductive pattern : Type :=
| EmailToken      (** [[a-zA-Z0-9._%+-]+@[a-zA-Z0-9.-]+\.[a-zA-Z]{2,}] *)
| CityStateZip    (** [,\s*([^,]+),\s*([A-Z]{2})\s*\d{5}] *)
| CityStateEnd.   (** [,\s*([^,]+),\s*([A-Z]{2})\s*$] *)

(** What the engine takes from the Python runtime without looking inside:
    the regular-expression engine on the patterns above, the iteration
    order of a [set] of strings, and [urllib.parse.urlparse].  The
    theorems about the engine hold for every runtime; [cpython] below
    gives the CPython behaviour of these calls. *)
Class Runtime : Type := {
  (** [re.findall(p, text)] for a pattern without groups. *)
  re_findall : pattern -> string -> list string;
  (** [re.search(p, text)]: groups 1 and 2 of the leftmost match. *)
  re_search : pattern -> string -> option (string * string);
  (** [list(set(l))]: the elements of [l] in the order the set yields
      them, which depends on the hash seed of the process. *)
  set_iter : list string -> list string;
  (** [urlparse(url).netloc], or [None] when [urlparse] raises. *)
  urlparse_netloc : string -> option string
}.

(** ** The CPython behaviour of these calls *)

Module Re.

Fixpoint take_while (p : ascii -> bool) (s : string) : string :=
  match s with
  | EmptyString => EmptyString
  | String c s' => if p c then String c (take_while p s') else EmptyString
  end.

Definition one_of (set : string) (c : ascii) : bool :=
  Py.contains (String c EmptyString) set.

Definition local_char (c : ascii) : bool :=
  Py.is_alpha_az c || Py.isdigit c || one_of "._%+-" c.

Definition domain_char (c : ascii) : bool :=
  Py.is_alpha_az c || Py.isdigit c || one_of ".-" c.

(** [\.[a-zA-Z]{2,}] at the head of [b]. *)
Definition tld_at (b : string) : option string :=
  match b with
  | String "." r =>
      let letters := take_while Py.is_alpha_az r in
      if (2 <=? String.length letters)%nat then Some (String "." letters) else None
  | _ => None
  end.

(** [[a-zA-Z0-9.-]+\.[a-zA-Z]{2,}] on the run [b] of domain characters.
    The greedy [+] gives characters back one at a time, so the dot that
    is used is the last one of the run that has two letters after it;
    with [at_head] unset the dot may not be the first character. *)
Fixpoint domain_match (at_head : bool) (b : string) : option string :=
  match b with
  | EmptyString => None
  | String c b' =>
      match domain_match true b' with
      | Some m => Some (String c m)
      | None => if at_head then tld_at b else None
      end
  end.

(** The match of [EmailToken] that starts at the first character. *)
Definition email_at (s : string) : option string :=
  let a := take_while local_char s in
  match a, Py.lstrip_by local_char s with
  | String _ _, String "@" r =>
      match domain_match false (take_while domain_char r) with
      | Some d => Some (a ++ String "@" d)
      | None => None
      end
  | _, _ => None
  end.

(** [re.findall]: leftmost matches, the search resuming where the
    previous match ended. *)
Fixpoint findall_email_from (skip : nat) (s : string) : list string :=
  match s with
  | EmptyString => []
  | String _ s' =>
      match skip with
      | S k => findall_email_from k s'
      | O =>
          match email_at s with
          | Some m => m :: findall_email_from (String.length m - 1) s'
          | None => findall_email_from O s'
          end
      end
  end.

Definition not_comma (c : ascii) : bool := negb (Ascii.eqb c ",").

Fixpoint last_char (s : string) : string :=
  match s with
  | EmptyString => EmptyString
  | String c EmptyString => s
  | String _ s' => last_char s'
  end.

(** Group 1 of [\s*([^,]+)] on the text [seg] between two commas: the
    greedy [\s*] keeps the leading whitespace unless that leaves the
    group empty, in which case it gives one character back. *)
Definition group1 (seg : string) : string :=
  match Py.lstrip_by Py.isspace seg with
  | EmptyString => last_char seg
  | g => g
  end.

Definition five_digits (s : string) : bool :=
  match s with
  | String a (String b (String c (String d (String e _)))) =>
      Py.isdigit a && Py.isdigit b && Py.isdigit c && Py.isdigit d && Py.isdigit e
  | _ => false
  end.

(** The match of a city/state pattern whose leading comma has just been
    read; [zip] selects [\d{5}] over [$] as the final item. *)
Definition city_at (zip : bool) (r : string) : option (string * string) :=
  match take_while not_comma r, Py.lstrip_by not_comma r with
  | String _ _ as seg, String "," r2 =>
      match Py.lstrip_by Py.isspace r2 with
      | String c1 (String c2 r4) =>
          let tail := Py.lstrip_by Py.isspace r4 in
          if Py.is_upper_az c1 && Py.is_upper_az c2
             && (if zip then five_digits tail else negb (Py.truthy tail))
          then Some (group1 seg, String c1 (String c2 EmptyString))
          else None
      | _ => None
      end
  | _, _ => None
  end.

(** [re.search]: the first comma from which the pattern matches. *)
Fixpoint search_city (zip : bool) (s : string) : option (string * string) :=
  match s with
  | EmptyString => None
  | String c s' =>
      if Ascii.eqb c ","
      then match city_at zip s' with
           | Some g => Some g
           | None => search_city zip s'
           end
      else search_city zip s'
  end.

End Re.

Module Url.

Definition c0_or_space (c : ascii) : bool := (Py.code c <=? 32)%nat.

Definition tab_cr_lf (c : ascii) : bool :=
  (Py.code c =? 9)%nat || (Py.code c =? 10)%nat || (Py.code c =? 13)%nat.

Definition scheme_char (c : ascii) : bool :=
  Py.is_alpha_az c || Py.isdigit c || Re.one_of "+-." c.

Definition not_colon (c : ascii) : bool := negb (Ascii.eqb c ":").

(** The text after the scheme, when the URL has one. *)
Definition drop_scheme (url : string) : string :=
  let head := Re.take_while not_colon url in
  match url, Py.lstrip_by not_colon url with
  | String c0 _, String ":" rest =>
      if Py.truthy head && Py.is_alpha_az c0 && Py.forall_chars scheme_char head
      then rest else url
  | _, _ => url
  end.

Definition not_delim (c : ascii) : bool := negb (Re.one_of "/?#" c).

(** [urlsplit(url).netloc] as CPython 3.12 computes it, or [None] where
    [urlsplit] raises [ValueError].  An opening bracket without a closing
    one, or the reverse, raises.  A netloc with both is tested further
    (for an IP literal between them, by rules that have changed from
    release to release): that test is the parameter [brackets_ok], which
    is given the netloc. *)
Definition netloc (brackets_ok : string -> bool) (url : string) : option string :=
  let url := Py.filter_chars (fun c => negb (tab_cr_lf c)) (Py.lstrip_by c0_or_space url) in
  match drop_scheme url with
  | String "/" (String "/" r) =>
      let n := Re.take_while not_delim r in
      match Py.contains "[" n, Py.contains "]" n with
      | false, false => Some n
      | true, true => if brackets_ok n then Some n else None
      | _, _ => None
      end
  | _ => Some EmptyString
  end.

End Url.

(** What differs from one CPython to the next: the test [urlsplit] makes
    of a bracketed netloc, which depends on the version, and the order
    in which a [set] of strings yields its elements, which depends on
    the hash seed of the process. *)
Class Flavour : Type := {
  brackets_ok : string -> bool;
  set_order : list string -> list string;
  set_order_perm : forall l : list string, Permutation (set_order l) l
}.

(** The flavour the examples run on: every netloc with both brackets
    passes, and a set yields its elements in the order of their first
    insertion.  No example has a bracket in a URL. *)
#[export] Instance plain : Flavour :=
  {| brackets_ok := fun _ => true;
     set_order := fun l => l;
     set_order_perm := fun l => Permutation_refl l |}.

(** The CPython runtime of a flavour.  Each pattern is given for the one
    call the module makes with it. *)
#[export] Instance cpython `{Flavour} : Runtime := {|
  re_findall p text :=
    match p with
    | EmailToken => Re.findall_email_from O text
    | _ => []
    end;
  re_search p text :=
    match p with
    | CityStateZip => Re.search_city true text
    | CityStateEnd => Re.search_city false text
    | EmailToken => None
    end;
  set_iter l := set_order (remove_dups l);
  urlparse_netloc := Url.netloc brackets_ok
|}.

(* ===================================================================== *)
(** * Constants and records of the module                                 *)
(* ===================================================================== *)

Definition DEFAULT_MIN_BUSINESSES : Z := 500.

(** Delays are kept in milliseconds: [PAGINATION_DELAY = 2.0],
    [REQUEST_DELAY = 0.1], and the 60 second quota cool-down. *)
Definition PAGINATION_DELAY : Z := 2000.
Definition REQUEST_DELAY : Z := 100.
Definition QUOTA_COOLDOWN : Z := 60000.

(** None of these patterns holds a regular-expression operator, so
    [re.search(p, phone)] is a substring test. *)
Definition FAKE_PHONE_PATTERNS : list string :=
  ["555"; "123-456"; "000-000"; "111-111"].

Definition FAKE_EMAIL_DOMAINS : list string :=
  ["example.com"; "test.com"; "demo.com"; "fake.com"; "sample.com"; "domain.com"].

Definition FAKE_EMAIL_PREFIXES : list string :=
  ["test@"; "demo@"; "example@"; "fake@"; "noreply@"].

Record Business : Type := {
  business_name : string;
  phone_number : string;
  email : string;
  website : string;
  address : string;
  city : string;
  state : string;
  search_keyword : string;
  google_place_id : string;
  email_source : string;
  data_completeness_score : Z
}.

(* ===================================================================== *)
(** * Candidate validators                                                *)
(* ===================================================================== *)

Definition is_fake_phone (phone : string) : bool :=
  if negb (Py.truthy phone) then false
  else
    let norm := Py.filter_chars Py.isdigit phone in
    if Py.contains "555" norm then true
    else if (7 <=? String.length norm)%nat && Py.one_distinct_char norm then true
    else existsb (fun p => Py.contains p phone) FAKE_PHONE_PATTERNS.

Definition is_fake_email (email : string) : bool :=
  if negb (Py.truthy email) then false
  else
    let e := Py.lower email in
    existsb (fun d => Py.endswith e ("@" ++ d)) FAKE_EMAIL_DOMAINS
    || existsb (fun p => Py.startswith e p) FAKE_EMAIL_PREFIXES.

(** One term of the sum in [calc_completeness]: [f and f.strip()]. *)
Definition present (f : string) : bool := Py.truthy f && Py.truthy (Py.strip f).

Definition calc_completeness (b : Business) : Z :=
  Z.of_nat (List.length
    (List.filter present [phone_number b; email b; website b; address b])).

(** [b.data_completeness_score = score]. *)
Definition set_score (score : Z) (b : Business) : Business :=
  {| business_name := business_name b; phone_number := phone_number b;
     email := email b; website := website b; address := address b;
     city := city b; state := state b; search_keyword := search_keyword b;
     google_place_id := google_place_id b; email_source := email_source b;
     data_completeness_score := score |}.

(** The four contact fields that [calc_completeness] counts. *)
Inductive contact_field : Type := Phone | Email | Website | Address.

Definition get_field (fld : contact_field) (b : Business) : string :=
  match fld with
  | Phone => phone_number b
  | Email => email b
  | Website => website b
  | Address => address b
  end.

(** [b.<fld> = v]. *)
Definition set_field (fld : contact_field) (v : string) (b : Business) : Business :=
  {| business_name := business_name b;
     phone_number := match fld with Phone => v | _ => phone_number b end;
     email := match fld with Email => v | _ => email b end;
     website := match fld with Website => v | _ => website b end;
     address := match fld with Address => v | _ => address b end;
     city := city b; state := state b; search_keyword := search_keyword b;
     google_place_id := google_place_id b; email_source := email_source b;
     data_completeness_score := data_completeness_score b |}.

(** A field is blank when nothing is left of it after trimming. *)
Definition blank (f : string) : bool := negb (Py.truthy (Py.strip f)).

(** The number of fields among [fs] that are not blank. *)
Definition count_filled (fs : list string) : Z :=
  Z.of_nat (List.length (List.filter (fun f => negb (blank f)) fs)).

Section Extractors.
Context `{Runtime}.

Definition extract_city_state (address : string) : string * string :=
  if negb (Py.truthy address) then ("", "")
  else
    match re_search CityStateZip address with
    | Some (g1, g2) => (Py.strip g1, g2)
    | None =>
        match re_search CityStateEnd address with
        | Some (g1, g2) => (Py.strip g1, g2)
        | None => ("", "")
        end
    end.

Definition extract_emails (text : string) : list string :=
  if negb (Py.truthy text) then []
  else
    List.filter (fun e => negb (is_fake_email e))
      (set_iter (re_findall EmailToken (Py.lower text))).

End Extractors.

(** ** The validators on any argument

    A caller may hand any Python object to a validator.  The objects that
    matter are [None], a str and, as a stand-in for everything else, an
    int.  Here the validators are written out once more, statement by
    statement, over such objects: every operation is applied the way
    Python applies it and raises where Python raises, and an exception
    ends the call. *)

Inductive pyobj : Type :=
| PyNone
| PyStr (s : string)
| PyInt (n : Z).

Inductive exn : Type := TypeError | AttributeError.

Inductive outcome (A : Type) : Type :=
| Returns (a : A)
| Raises (e : exn).
Arguments Returns {A} a.
Arguments Raises {A} e.

(** One statement after the other; an exception is passed on. *)
Definition and_then {A B : Type} (x : outcome A) (k : A -> outcome B) : outcome B :=
  match x with
  | Returns a => k a
  | Raises e => Raises e
  end.

(** [not o]. *)
Definition py_not (o : pyobj) : bool :=
  match o with
  | PyNone => true
  | PyStr s => negb (Py.truthy s)
  | PyInt n => Z.eqb n 0
  end.

(** [re.sub(r'[^\d]', '', o)]: [TypeError] unless [o] is a str. *)
Definition re_sub_non_digits (o : pyobj) : outcome string :=
  match o with
  | PyStr s => Returns (Py.filter_chars Py.isdigit s)
  | _ => Raises TypeError
  end.

(** The truth of [re.search(p, o)] for a pattern [p] without operators:
    [TypeError] unless [o] is a str. *)
Definition re_search_literal (p : string) (o : pyobj) : outcome bool :=
  match o with
  | PyStr s => Returns (Py.contains p s)
  | _ => Raises TypeError
  end.

(** [o.lower()]: [None] and an int have no such method. *)
Definition str_lower (o : pyobj) : outcome string :=
  match o with
  | PyStr s => Returns (Py.lower s)
  | _ => Raises AttributeError
  end.

(** [o.strip()]. *)
Definition str_strip (o : pyobj) : outcome string :=
  match o with
  | PyStr s => Returns (Py.strip s)
  | _ => Raises AttributeError
  end.

(** [any(test(x) for x in l)]: the tests are made in order, up to the
    first that holds. *)
Fixpoint py_any {A : Type} (test : A -> outcome bool) (l : list A) : outcome bool :=
  match l with
  | [] => Returns false
  | x :: rest =>
      and_then (test x) (fun b =>
      if b then Returns true else py_any test rest)
  end.

(** [is_fake_phone], lines 133-138. *)
Definition call_is_fake_phone (phone : pyobj) : outcome bool :=
  if py_not phone then Returns false
  else
    and_then (re_sub_non_digits phone) (fun norm =>
    if Py.contains "555" norm then Returns true
    else if (7 <=? String.length norm)%nat && Py.one_distinct_char norm then Returns true
    else py_any (fun p => re_search_literal p phone) FAKE_PHONE_PATTERNS).

(** [is_fake_email], lines 140-143.  From [e] on every value is a str. *)
Definition call_is_fake_email (email : pyobj) : outcome bool :=
  if py_not email then Returns false
  else
    and_then (str_lower email) (fun e =>
    Returns (existsb (fun d => Py.endswith e ("@" ++ d)) FAKE_EMAIL_DOMAINS
             || existsb (fun p => Py.startswith e p) FAKE_EMAIL_PREFIXES)).

(** [f and f.strip()] as a condition. *)
Definition call_present (f : pyobj) : outcome bool :=
  if py_not f then Returns false
  else
    and_then (str_strip f) (fun stripped =>
    Returns (Py.truthy stripped)).

(** [sum(1 for f in fields if f and f.strip())]. *)
Fixpoint call_count_present (fields : list pyobj) : outcome Z :=
  match fields with
  | [] => Returns 0%Z
  | f :: rest =>
      and_then (call_present f) (fun here =>
      and_then (call_count_present rest) (fun n =>
      Returns (if here then 1 + n else n)%Z))
  end.

(** [calc_completeness], lines 152-153, on a record whose four fields
    are any objects. *)
Definition call_calc_completeness (phone email website address : pyobj) : outcome Z :=
  call_count_present [phone; email; website; address].

Section ExtractorCalls.
Context `{Runtime}.

(** [re.search(p, o)] with the two groups of a match; both groups take
    part in every match of the two patterns, so neither is [None]. *)
Definition re_search_groups (p : pattern) (o : pyobj) : outcome (option (string * string)) :=
  match o with
  | PyStr s => Returns (re_search p s)
  | _ => Raises TypeError
  end.

(** The loop of [extract_city_state] over the patterns still to try. *)
Fixpoint first_match (ps : list pattern) (address : pyobj) : outcome (string * string) :=
  match ps with
  | [] => Returns ("", "")
  | p :: rest =>
      and_then (re_search_groups p address) (fun m =>
      match m with
      | Some (g1, g2) => Returns (Py.strip g1, g2)
      | None => first_match rest address
      end)
  end.

(** [extract_city_state], lines 145-150. *)
Definition call_extract_city_state (address : pyobj) : outcome (string * string) :=
  if py_not address then Returns ("", "")
  else first_match [CityStateZip; CityStateEnd] address.

(** [[e for e in found if not is_fake_email(e)]]. *)
Fixpoint keep_real (found : list string) : outcome (list string) :=
  match found with
  | [] => Returns []
  | e :: rest =>
      and_then (call_is_fake_email (PyStr e)) (fun fake =>
      and_then (keep_real rest) (fun kept =>
      Returns (if fake then kept else e :: kept)))
  end.

(** [extract_emails], lines 155-157. *)
Definition call_extract_emails (text : pyobj) : outcome (list string) :=
  if py_not text then Returns []
  else
    and_then (str_lower text) (fun lowered =>
    keep_real (set_iter (re_findall EmailToken lowered))).

End ExtractorCalls.

(* ===================================================================== *)
(** * Reference data                                                      *)
(* ===================================================================== *)

(** A city of the reference tables or of the request.  Coordinates are
    only forwarded to the provider; the literals of the tables have at
    most four decimals and are held in units of 1e-4 degree.  A city of
    the request without [lat] or [lng] makes [run] raise [KeyError]; the
    record leaves such requests out. *)
Record Location : Type := {
  loc_city : option string;
  lat : Z;
  lng : Z
}.

Definition loc (name : string) (la ln : Z) : Location :=
  {| loc_city := Some name; lat := la; lng := ln |}.

Definition STATE_CITIES : list (string * list Location) :=
  [ ("TX", [loc "Houston" 297604 (-953698); loc "San Antonio" 294241 (-984936);
           loc "Dallas" 327767 (-967970); loc "Austin" 302672 (-977431);
           loc "Fort Worth" 327555 (-973308); loc "El Paso" 317619 (-1064850);
           loc "Arlington" 327357 (-971081); loc "Corpus Christi" 278006 (-973964);
           loc "Plano" 330198 (-966989); loc "Lubbock" 335779 (-1018552)]);
   ("CA", [loc "Los Angeles" 340522 (-1182437); loc "San Diego" 327157 (-1171611);
           loc "San Jose" 373382 (-1218863); loc "San Francisco" 377749 (-1224194);
           loc "Fresno" 367378 (-1197871); loc "Sacramento" 385816 (-1214944);
           loc "Oakland" 378044 (-1222712)]);
   ("FL", [loc "Miami" 257617 (-801918); loc "Orlando" 285383 (-813792);
           loc "Tampa" 279506 (-824572); loc "Jacksonville" 303322 (-816557);
           loc "Fort Lauderdale" 261224 (-801373)]);
   ("NY", [loc "New York City" 407128 (-740060); loc "Buffalo" 428864 (-788784);
           loc "Rochester" 431566 (-776088); loc "Albany" 426526 (-737562)]);
   ("GA", [loc "Atlanta" 337490 (-843880); loc "Savannah" 320809 (-810912);
           loc "Augusta" 334735 (-820105)]);
   ("NC", [loc "Charlotte" 352271 (-808431); loc "Raleigh" 357796 (-786382);
           loc "Greensboro" 360726 (-797920)]);
   ("AZ", [loc "Phoenix" 334484 (-1120740); loc "Tucson" 322226 (-1109747);
           loc "Mesa" 334152 (-1118315)]);
   ("IL", [loc "Chicago" 418781 (-876298); loc "Aurora" 417606 (-883201);
           loc "Rockford" 422711 (-890940)]);
   ("PA", [loc "Philadelphia" 399526 (-751652); loc "Pittsburgh" 404406 (-799959)]);
   ("OH", [loc "Columbus" 399612 (-829988); loc "Cleveland" 414993 (-816944);
           loc "Cincinnati" 391031 (-845120)]);
   ("CO", [loc "Denver" 397392 (-1049903); loc "Colorado Springs" 388339 (-1048214)]);
   ("WA", [loc "Seattle" 476062 (-1223321); loc "Spokane" 476588 (-1174260)]);
   ("TN", [loc "Nashville" 361627 (-867816); loc "Memphis" 351495 (-900490)]);
   ("NV", [loc "Las Vegas" 361699 (-1151398); loc "Reno" 395296 (-1198138)]) ].

Definition DEFAULT_CITIES : list (string * list Location) :=
  [ ("AL", [loc "Birmingham" 335207 (-868025)]);
   ("AK", [loc "Anchorage" 612181 (-1499003)]);
   ("AR", [loc "Little Rock" 347465 (-922896)]);
   ("CT", [loc "Hartford" 417658 (-726734)]);
   ("DE", [loc "Wilmington" 397391 (-755398)]);
   ("HI", [loc "Honolulu" 213069 (-1578583)]);
   ("ID", [loc "Boise" 436150 (-1162023)]);
   ("IN", [loc "Indianapolis" 397684 (-861581)]);
   ("IA", [loc "Des Moines" 415868 (-936250)]);
   ("KS", [loc "Wichita" 376872 (-973301)]);
   ("KY", [loc "Louisville" 382527 (-857585)]);
   ("LA", [loc "New Orleans" 299511 (-900715)]);
   ("ME", [loc "Portland" 436591 (-702568)]);
   ("MD", [loc "Baltimore" 392904 (-766122)]);
   ("MA", [loc "Boston" 423601 (-710589)]);
   ("MI", [loc "Detroit" 423314 (-830458)]);
   ("MN", [loc "Minneapolis" 449778 (-932650)]);
   ("MS", [loc "Jackson" 322988 (-901848)]);
   ("MO", [loc "Kansas City" 390997 (-945786)]);
   ("MT", [loc "Billings" 457833 (-1085007)]);
   ("NE", [loc "Omaha" 412565 (-959345)]);
   ("NH", [loc "Manchester" 429956 (-714548)]);
   ("NJ", [loc "Newark" 407357 (-741724)]);
   ("NM", [loc "Albuquerque" 350844 (-1066504)]);
   ("ND", [loc "Fargo" 468772 (-967898)]);
   ("OK", [loc "Oklahoma City" 354676 (-975164)]);
   ("OR", [loc "Portland" 455152 (-1226784)]);
   ("RI", [loc "Providence" 418240 (-714128)]);
   ("SC", [loc "Charleston" 327765 (-799311)]);
   ("SD", [loc "Sioux Falls" 435446 (-967311)]);
   ("UT", [loc "Salt Lake City" 407608 (-1118910)]);
   ("VT", [loc "Burlington" 444759 (-732121)]);
   ("VA", [loc "Virginia Beach" 368529 (-759780)]);
   ("WV", [loc "Charleston" 383498 (-816326)]);
   ("WI", [loc "Milwaukee" 430389 (-879065)]);
   ("WY", [loc "Cheyenne" 411400 (-1048202)]);
   ("DC", [loc "Washington" 389072 (-770369)]) ].

(** [d.get(key)] on a dict written as its list of items. *)
Fixpoint dict_get {V : Type} (d : list (string * V)) (key : string) : option V :=
  match d with
  | [] => None
  | (k, v) :: rest => if String.eqb k key then Some v else dict_get rest key
  end.

(** [key in d]. *)
Definition dict_has {V : Type} (d : list (string * V)) (key : string) : bool :=
  match dict_get d key with Some _ => true | None => false end.

(** [d[key] = v]: a known key keeps its place, a new one goes last, so
    the list is the insertion order that [d.values()] follows. *)
Fixpoint dict_set {V : Type} (d : list (string * V)) (key : string) (v : V)
  : list (string * V) :=
  match d with
  | [] => [(key, v)]
  | (k, v0) :: rest =>
      if String.eqb k key then (k, v) :: rest else (k, v0) :: dict_set rest key v
  end.

Definition dict_values {V : Type} (d : list (string * V)) : list V := map snd d.

(** [STATE_CITIES.get(state, DEFAULT_CITIES.get(state, []))]. *)
Definition cities_of_state (st : string) : list Location :=
  match dict_get STATE_CITIES st with
  | Some cs => cs
  | None =>
      match dict_get DEFAULT_CITIES st with
      | Some cs => cs
      | None => []
      end
  end.

Definition get_stop_reason_detail (reason : string) : string :=
  if String.eqb reason "Target reached"
  then "Found enough valid businesses to meet your target."
  else if String.eqb reason "All locations exhausted"
  then "All cities searched. Try different keywords or state."
  else if String.eqb reason "API quota exceeded"
  then "Google API rate limit reached. Wait and retry."
  else if String.eqb reason "" then "Search completed."
  else "Search ended: " ++ reason.

(* ===================================================================== *)
(** * The outside world                                                   *)
(* ===================================================================== *)

(** Replies are taken in the shape the provider documents: a body that
    parses is an object whose keys, when present, hold strings (and a
    list of places).  A body of another shape makes [run] raise, and the
    job then ends as failed without a result list.

    One item of a nearby-search page. *)
Record Place : Type := {
  place_id : option string;
  place_name : option string;
  vicinity : option string
}.

(** The [result] object of a details reply; a missing key is [None]. *)
Record Details : Type := {
  d_name : option string;
  d_formatted_phone_number : option string;
  d_formatted_address : option string;
  d_website : option string
}.

Definition no_details : Details :=
  {| d_name := None; d_formatted_phone_number := None;
     d_formatted_address := None; d_website := None |}.

(** The body of a nearby-search reply. *)
Record Response : Type := {
  status : option string;
  results : list Place;
  next_page_token : option string
}.

Inductive nearby_reply : Type :=
| NearbyFailed                      (** [requests.get] or [r.json()] raised *)
| NearbyJson (body : Response).

Inductive details_reply : Type :=
| DetailsFailed                     (** [requests.get] raised *)
| DetailsUnreadable                 (** the reply came, [r.json()] raised *)
| DetailsJson (result : option Details).

Inductive http_reply : Type :=
| HttpFailed                        (** error or timeout *)
| HttpResponse (status_code : Z) (text : string).

(** What the process does to the outside, in the order it does it. *)
Inductive event : Type :=
| NearbySearch (la ln : Z) (keyword : string) (page_token : option string)
| DetailsLookup (pid : string)
| HttpGet (url : string)
| Sleep (ms : Z).

(** The replies to details lookups and page fetches.  The first argument
    is the number of events before the request, so the same request may
    be answered differently at different times.  Replies to nearby
    searches are a finite script handed to the search loop, consumed one
    per request; once it is used up every further request fails in
    transport. *)
Record Internet : Type := {
  details_at : nat -> string -> details_reply;
  http_at : nat -> string -> http_reply
}.

(* ===================================================================== *)
(** * Engine state                                                        *)
(* ===================================================================== *)

Record Stats : Type := {
  total_searched : nat;
  duplicates : nat;
  fake_phones : nat;
  fake_emails : nat;
  validation_failed : nat;
  emails_scraped : nat
}.

Definition no_stats : Stats :=
  {| total_searched := 0; duplicates := 0; fake_phones := 0; fake_emails := 0;
     validation_failed := 0; emails_scraped := 0 |}.

(** The [DiscoveryEngine] object with its [PlacesClient], and the log of
    the input and output performed so far. *)
Record Engine : Type := {
  businesses : list (string * Business);
  seen_domains : gmap string string;
  stats : Stats;
  quota_exceeded : bool;
  trace : list event
}.

Definition new_engine : Engine :=
  {| businesses := []; seen_domains := ∅; stats := no_stats;
     quota_exceeded := false; trace := [] |}.

(** The fields of [JobData] that [run] writes.  [progress], a value
    computed in floating point for display, is left out. *)
Record Job : Type := {
  stop_reason : string;
  stop_reason_detail : string;
  current_keyword : string;
  current_city : string;
  job_stats : option (Stats * nat)
}.

Definition new_job : Job :=
  {| stop_reason := ""; stop_reason_detail := ""; current_keyword := "";
     current_city := ""; job_stats := None |}.

Record Config : Type := {
  keywords : list string;
  geographyMode : option string;
  cfg_state : string;
  cities : option (list Location);
  minResults : option Z
}.

Definition emit (ev : event) (e : Engine) : Engine :=
  {| businesses := businesses e; seen_domains := seen_domains e; stats := stats e;
     quota_exceeded := quota_exceeded e; trace := trace e ++ [ev] |}.

Definition with_stats (f : Stats -> Stats) (e : Engine) : Engine :=
  {| businesses := businesses e; seen_domains := seen_domains e; stats := f (stats e);
     quota_exceeded := quota_exceeded e; trace := trace e |}.

Definition set_quota_exceeded (e : Engine) : Engine :=
  {| businesses := businesses e; seen_domains := seen_domains e; stats := stats e;
     quota_exceeded := true; trace := trace e |}.

Definition inc_total_searched (s : Stats) : Stats :=
  {| total_searched := S (total_searched s); duplicates := duplicates s;
     fake_phones := fake_phones s; fake_emails := fake_emails s;
     validation_failed := validation_failed s; emails_scraped := emails_scraped s |}.

Definition inc_duplicates (s : Stats) : Stats :=
  {| total_searched := total_searched s; duplicates := S (duplicates s);
     fake_phones := fake_phones s; fake_emails := fake_emails s;
     validation_failed := validation_failed s; emails_scraped := emails_scraped s |}.

Definition inc_fake_phones (s : Stats) : Stats :=
  {| total_searched := total_searched s; duplicates := duplicates s;
     fake_phones := S (fake_phones s); fake_emails := fake_emails s;
     validation_failed := validation_failed s; emails_scraped := emails_scraped s |}.

Definition inc_fake_emails (s : Stats) : Stats :=
  {| total_searched := total_searched s; duplicates := duplicates s;
     fake_phones := fake_phones s; fake_emails := S (fake_emails s);
     validation_failed := validation_failed s; emails_scraped := emails_scraped s |}.

Definition inc_validation_failed (s : Stats) : Stats :=
  {| total_searched := total_searched s; duplicates := duplicates s;
     fake_phones := fake_phones s; fake_emails := fake_emails s;
     validation_failed := S (validation_failed s); emails_scraped := emails_scraped s |}.

Definition inc_emails_scraped (s : Stats) : Stats :=
  {| total_searched := total_searched s; duplicates := duplicates s;
     fake_phones := fake_phones s; fake_emails := fake_emails s;
     validation_failed := validation_failed s; emails_scraped := S (emails_scraped s) |}.

(** [self.businesses[b.google_place_id] = b] and, when the business has a
    domain, [self.seen_domains[d] = b.google_place_id]. *)
Definition register (b : Business) (d : option string) (e : Engine) : Engine :=
  {| businesses := dict_set (businesses e) (google_place_id b) b;
     seen_domains :=
       match d with
       | Some dom => if Py.truthy dom then <[dom := google_place_id b]> (seen_domains e)
                     else seen_domains e
       | None => seen_domains e
       end;
     stats := stats e; quota_exceeded := quota_exceeded e; trace := trace e |}.

(* ===================================================================== *)
(** * Enrichment fetcher, places client, discovery engine                 *)
(* ===================================================================== *)

Section Discovery.
Context `{Runtime}.
Variable net : Internet.

(** [requests.get(page, ...)] of the fetcher. *)
Definition http_get (url : string) (e : Engine) : http_reply * Engine :=
  (http_at net (List.length (trace e)) url, emit (HttpGet url) e).

(** The loop of [scrape_email] over the pages still to try. *)
Fixpoint scrape_pages (pages : list string) (e : Engine) : option string * Engine :=
  match pages with
  | [] => (None, e)
  | page :: rest =>
      let '(r, e1) := http_get page e in
      match r with
      | HttpResponse code text =>
          if Z.eqb code 200
          then match extract_emails text with
               | first :: _ => (Some first, e1)
               | [] => scrape_pages rest e1
               end
          else scrape_pages rest e1
      | HttpFailed => scrape_pages rest e1
      end
  end.

Definition scrape_email (website : string) (e : Engine) : option string * Engine :=
  if negb (Py.truthy website) then (None, e)
  else
    let website :=
      if Py.startswith website "http://" || Py.startswith website "https://"
      then website else "https://" ++ website in
    scrape_pages
      [website;
       Py.rstrip_char "/" website ++ "/contact";
       Py.rstrip_char "/" website ++ "/about"] e.

(** [PlacesClient.nearby_search], given the reply the network has for
    this request. *)
Definition nearby_search (la ln : Z) (keyword : string) (page_token : option string)
    (reply : nearby_reply) (e : Engine) : Response * Engine :=
  let e1 := emit (NearbySearch la ln keyword page_token) e in
  match reply with
  | NearbyJson data =>
      match status data with
      | Some st =>
          if String.eqb st "OVER_QUERY_LIMIT" then (data, set_quota_exceeded e1)
          else (data, e1)
      | None => (data, e1)
      end
  | NearbyFailed =>
      ({| status := Some "ERROR"; results := []; next_page_token := None |}, e1)
  end.

(** [PlacesClient.get_details(place_id).get('result', {})]. *)
Definition get_details (pid : string) (e : Engine) : Details * Engine :=
  let reply := details_at net (List.length (trace e)) pid in
  let e1 := emit (DetailsLookup pid) e in
  match reply with
  | DetailsFailed => (no_details, e1)
  | DetailsUnreadable => (no_details, emit (Sleep REQUEST_DELAY) e1)
  | DetailsJson (Some d) => (d, emit (Sleep REQUEST_DELAY) e1)
  | DetailsJson None => (no_details, emit (Sleep REQUEST_DELAY) e1)
  end.

Definition _get_domain (url : string) : option string :=
  if negb (Py.truthy url) then None
  else
    match urlparse_netloc
            (if Py.startswith url "http" then url else "https://" ++ url) with
    | Some netloc => Some (Py.replace (Py.lower netloc) "www." "")
    | None => None
    end.

(** [domain and domain in self.seen_domains]. *)
Definition domain_seen (domain : option string) (e : Engine) : bool :=
  match domain with
  | Some d => Py.truthy d && bool_decide (is_Some (seen_domains e !! d))
  | None => false
  end.

(** Lines 236-241 of the module: the email and its source tag after the
    enrichment attempt. *)
Definition enrich (website : string) (e : Engine) : string * string * Engine :=
  if Py.truthy website
  then match scrape_email website e with
       | (Some found, e') =>
           if Py.truthy found
           then (found, "website_scrape", with_stats inc_emails_scraped e')
           else ("", "", e')
       | (None, e') => ("", "", e')
       end
  else ("", "", e).

(** Lines 224-246: the record built from the details of a candidate that
    passed both duplicate checks, with the fake phone and the fake email
    blanked; its score is still the default 0. *)
Definition assemble (place : Place) (keyword pid : string) (details : Details)
    (e : Engine) : Business * Engine :=
  let website := default "" (d_website details) in
  let name := default (default "" (place_name place)) (d_name details) in
  let phone := default "" (d_formatted_phone_number details) in
  let addr := default (default "" (vicinity place)) (d_formatted_address details) in
  let '(cty, ste) := extract_city_state addr in
  let '(phone, e) :=
    if is_fake_phone phone then ("", with_stats inc_fake_phones e) else (phone, e) in
  let '(mail, source, e) := enrich website e in
  let '(mail, source, e) :=
    if is_fake_email mail then ("", "", with_stats inc_fake_emails e)
    else (mail, source, e) in
  ({| business_name := name; phone_number := phone; email := mail;
      website := website; address := addr; city := cty; state := ste;
      search_keyword := keyword; google_place_id := pid;
      email_source := source; data_completeness_score := 0 |}, e).

Definition _process_place (place : Place) (keyword : string) (e : Engine)
  : option Business * Engine :=
  let pid := default "" (place_id place) in
  if negb (Py.truthy pid) || dict_has (businesses e) pid
  then (None, with_stats inc_duplicates e)
  else
    let '(details, e) := get_details pid e in
    let domain := _get_domain (default "" (d_website details)) in
    if domain_seen domain e
    then (None, with_stats inc_duplicates e)
    else
      let '(b, e) := assemble place keyword pid details e in
      let score := calc_completeness b in
      if (score <? 2)%Z
      then (None, with_stats inc_validation_failed e)
      else (Some (set_score score b), e).

(** The body of [for place in resp.get('results', [])]. *)
Definition process_result (keyword : string) (e : Engine) (place : Place) : Engine :=
  let e := with_stats inc_total_searched e in
  match _process_place place keyword e with
  | (Some b, e) => register b (_get_domain (website b)) e
  | (None, e) => e
  end.

(** How one turn of [while True] in [_search_location] ends. *)
Inductive turn : Type :=
| Left (e : Engine)                               (** [return] or [break] *)
| Again (page_token : option string) (e : Engine). (** next turn of the loop *)

Definition status_ok (st : string) : bool :=
  String.eqb st "OK" || String.eqb st "ZERO_RESULTS".

(** One turn of the loop, given the reply to its request. *)
Definition search_turn (city_data : Location) (keyword : string)
    (page_token : option string) (reply : nearby_reply) (e : Engine) : turn :=
  let '(resp, e) := nearby_search (lat city_data) (lng city_data) keyword page_token reply e in
  let st := default "ERROR" (status resp) in
  if String.eqb st "OVER_QUERY_LIMIT"
  then
    let e := emit (Sleep QUOTA_COOLDOWN) e in
    if quota_exceeded e then Left e else Again page_token e
  else if negb (status_ok st) then Left e
  else
    let e := fold_left (process_result keyword) (results resp) e in
    match next_page_token resp with
    | Some token =>
        if Py.truthy token then Again (Some token) (emit (Sleep PAGINATION_DELAY) e)
        else Left e
    | None => Left e
    end.

(** [_search_location]: the loop runs against the script of replies and
    hands back what is left of it.

    The source loops for as long as the provider sends a page token, so a
    provider that never stops sending one keeps it looping for ever.  The
    script describes a provider by the replies it gives until its
    transport fails for good: a request made with the script used up
    fails, which ends the loop.  Every run of the program that returns is
    the run on the script of the replies it has read, and on that run no
    request is made past the script; a run of the model that does make
    one stands for the program only if the transport did fail then.
    [answered] tells the two apart. *)
Fixpoint search_loop (city_data : Location) (keyword : string)
    (page_token : option string) (replies : list nearby_reply) (e : Engine)
  : list nearby_reply * Engine :=
  match replies with
  | [] =>
      match search_turn city_data keyword page_token NearbyFailed e with
      | Left e' => ([], e')
      | Again _ e' => ([], e')
      end
  | reply :: rest =>
      match search_turn city_data keyword page_token reply e with
      | Left e' => (rest, e')
      | Again token e' => search_loop city_data keyword token rest e'
      end
  end.

Definition _search_location (city_data : Location) (keyword : string)
    (replies : list nearby_reply) (e : Engine) : list nearby_reply * Engine :=
  search_loop city_data keyword None replies e.

End Discovery.

(* ===================================================================== *)
(** * Final ordering                                                      *)
(* ===================================================================== *)

(** The sort key [(-b.data_completeness_score, b.business_name.lower())]. *)
Definition sort_key (b : Business) : Z * string :=
  ((- data_completeness_score b)%Z, Py.lower (business_name b)).

(** Tuple comparison [k1 <= k2]: by the first components, and by the
    second ones (code point order of the strings) when those are equal. *)
Definition key_le (k1 k2 : Z * string) : bool :=
  (fst k1 <? fst k2)%Z || ((fst k1 =? fst k2)%Z && String.leb (snd k1) (snd k2)).

Definition key_lt (k1 k2 : Z * string) : bool := negb (key_le k2 k1).

(** [list.sort(key=...)] is a stable sort.  A stable sort is determined by
    its input and the order on keys, so it is written here in its
    simplest form: each element is put before the first element of the
    sorted rest whose key is not smaller. *)
Fixpoint insert_by_key (b : Business) (sorted : list Business) : list Business :=
  match sorted with
  | [] => [b]
  | c :: rest =>
      if key_le (sort_key b) (sort_key c) then b :: sorted
      else c :: insert_by_key b rest
  end.

Definition sort_by_key (l : list Business) : list Business :=
  fold_right insert_by_key [] l.

Definition _sorted (e : Engine) : list Business :=
  sort_by_key (dict_values (businesses e)).

(* ===================================================================== *)
(** * The job loop                                                        *)
(* ===================================================================== *)

(** What [run] works on: the replies the network still holds for nearby
    searches, the engine, and the job record it reports to. *)
Record Run : Type := {
  replies : list nearby_reply;
  engine : Engine;
  job : Job
}.

(** A loop body either falls through to the next iteration or executes
    [return]. *)
Inductive control : Type :=
| Next (r : Run)
| Return (r : Run).

Definition set_current_keyword (k : string) (j : Job) : Job :=
  {| stop_reason := stop_reason j; stop_reason_detail := stop_reason_detail j;
     current_keyword := k; current_city := current_city j; job_stats := job_stats j |}.

Definition set_current_city (c : string) (j : Job) : Job :=
  {| stop_reason := stop_reason j; stop_reason_detail := stop_reason_detail j;
     current_keyword := current_keyword j; current_city := c; job_stats := job_stats j |}.

Definition set_job_stats (s : Stats) (valid : nat) (j : Job) : Job :=
  {| stop_reason := stop_reason j; stop_reason_detail := stop_reason_detail j;
     current_keyword := current_keyword j; current_city := current_city j;
     job_stats := Some (s, valid) |}.

Definition set_stop (reason detail : string) (j : Job) : Job :=
  {| stop_reason := reason; stop_reason_detail := detail;
     current_keyword := current_keyword j; current_city := current_city j;
     job_stats := job_stats j |}.

Section Run.
Context `{Runtime}.
Variable net : Internet.

(** The body of [for city_data in cities]. *)
Definition visit (min_results : Z) (keyword : string) (city_data : Location) (r : Run)
  : control :=
  let j := set_current_city (default "Unknown" (loc_city city_data)) (job r) in
  let '(rest, e) := _search_location net city_data keyword (replies r) (engine r) in
  let valid := List.length (businesses e) in
  let j := set_job_stats (stats e) valid j in
  if (min_results <=? Z.of_nat valid)%Z
  then Return {| replies := rest; engine := e;
                 job := set_stop "Target reached"
                          (get_stop_reason_detail "Target reached") j |}
  else Next {| replies := rest; engine := e; job := j |}.

Fixpoint cities_loop (min_results : Z) (keyword : string) (cs : list Location) (r : Run)
  : control :=
  match cs with
  | [] => Next r
  | city_data :: rest =>
      match visit min_results keyword city_data r with
      | Return r' => Return r'
      | Next r' => cities_loop min_results keyword rest r'
      end
  end.

Fixpoint keywords_loop (min_results : Z) (ks : list string) (cs : list Location) (r : Run)
  : control :=
  match ks with
  | [] => Next r
  | keyword :: rest =>
      let r := {| replies := replies r; engine := engine r;
                  job := set_current_keyword keyword (job r) |} in
      match cities_loop min_results keyword cs r with
      | Return r' => Return r'
      | Next r' => keywords_loop min_results rest cs r'
      end
  end.

(** The cities a configuration resolves to. *)
Definition resolve_cities (config : Config) : list Location :=
  let st := Py.upper (cfg_state config) in
  let chosen :=
    match geographyMode config with
    | Some mode => if String.eqb mode "city" then cities config else None
    | None => None
    end in
  match chosen with
  | Some (c :: cs) => c :: cs
  | _ => cities_of_state st
  end.

Definition run (config : Config) (r : Run) : list Business * Run :=
  let st := Py.upper (cfg_state config) in
  let min_results := default DEFAULT_MIN_BUSINESSES (minResults config) in
  match resolve_cities config with
  | [] =>
      ([], {| replies := replies r; engine := engine r;
              job := set_stop "No cities configured"
                       ("No cities for state " ++ st ++ ".") (job r) |})
  | cs =>
      match keywords_loop min_results (keywords config) cs r with
      | Return r' => (_sorted (engine r'), r')
      | Next r' =>
          (_sorted (engine r'),
           {| replies := replies r'; engine := engine r';
              job := set_stop "All locations exhausted"
                       (get_stop_reason_detail "All locations exhausted") (job r') |})
      end
  end.

End Run.

(** A fresh job against a given network. *)
Definition start (script : list nearby_reply) : Run :=
  {| replies := script; engine := new_engine; job := new_job |}.

(* ===================================================================== *)
(** * Properties of the accumulated state                                 *)
(* ===================================================================== *)

(** Two engine states with the same accumulated businesses and the same
    domain index. *)
Definition same_store (e e' : Engine) : Prop :=
  businesses e' = businesses e /\ seen_domains e' = seen_domains e.

(** Two engine states with the same counts of duplicates, fake emails
    and validation failures. *)
Definition counted_alike (e e' : Engine) : Prop :=
  duplicates (stats e') = duplicates (stats e)
  /\ fake_emails (stats e') = fake_emails (stats e)
  /\ validation_failed (stats e') = validation_failed (stats e).

(** What a candidate that [_process_place] accepts is known to satisfy,
    relative to the state [e] it was processed in. *)
Record accepted `{Runtime} (place : Place) (e : Engine) (b : Business) : Prop := {
  acc_pid : google_place_id b = default "" (place_id place);
  acc_pid_given : Py.truthy (google_place_id b) = true;
  acc_pid_new : dict_has (businesses e) (google_place_id b) = false;
  acc_domain_new : domain_seen (_get_domain (website b)) e = false;
  acc_score : data_completeness_score b = calc_completeness b;
  acc_threshold : (2 <= calc_completeness b)%Z;
  acc_email : is_fake_email (email b) = false
}.

(** The dedup key of a stored business: the normalized domain of its
    website, when it has one.  An empty key counts as no domain, as in
    the tests [if domain and ...] and [if d:] of the module. *)
Definition domain_key `{Runtime} (b : Business) : option string :=
  match _get_domain (website b) with
  | Some d => if Py.truthy d then Some d else None
  | None => None
  end.

(** The website domain in the words of the specification: "lower-cased
    host, www. prefix stripped".  The host of a URL is its network
    location without user info and port; a website without http:// or
    https:// is read as if https:// stood before it. *)
Module Spec.

(** [s.rpartition(x)[2]]: what follows the last [x] of [s]. *)
Fixpoint after_last (x : ascii) (s : string) : string :=
  match s with
  | EmptyString => EmptyString
  | String c s' =>
      if Py.contains (String x EmptyString) s' then after_last x s'
      else if Ascii.eqb c x then s' else s
  end.

Definition host (netloc : string) : string :=
  Re.take_while Url.not_colon (after_last "@" netloc).

Definition strip_www (h : string) : string :=
  if Py.startswith h "www." then Py.drop 4 h else h.

Definition website_domain `{Flavour} (website : string) : option string :=
  let url :=
    if Py.startswith website "http://" || Py.startswith website "https://"
    then website else "https://" ++ website in
  match Url.netloc brackets_ok url with
  | Some n => if Py.truthy (host n) then Some (strip_www (Py.lower (host n))) else None
  | None => None
  end.

End Spec.

(** The domains of the businesses of a list that have one. *)
Definition domains_of `{Runtime} (l : list Business) : list string :=
  flat_map (fun b => match domain_key b with Some d => [d] | None => [] end) l.

(** The dedup invariant of the engine: every business is filed under its
    own place id, no place id and no domain occurs twice among the
    businesses, and every domain of a business is in the domain index. *)
Record dedup_kept `{Runtime} (e : Engine) : Prop := {
  dk_filed : Forall (fun kv => google_place_id (snd kv) = fst kv) (businesses e);
  dk_ids : NoDup (map google_place_id (dict_values (businesses e)));
  dk_domains : NoDup (domains_of (dict_values (businesses e)));
  dk_index : forall d, In d (domains_of (dict_values (businesses e))) ->
                       is_Some (seen_domains e !! d)
}.

(** A business that meets the completeness threshold, with its score
    field in step with its contact fields. *)
Definition above_threshold (b : Business) : Prop :=
  data_completeness_score b = calc_completeness b /\ (2 <= calc_completeness b)%Z.

Definition threshold_kept (e : Engine) : Prop :=
  Forall above_threshold (dict_values (businesses e)).

Definition email_not_fake (b : Business) : Prop := is_fake_email (email b) = false.

Definition no_fake_email_kept (e : Engine) : Prop :=
  fake_emails (stats e) = 0%nat /\ Forall email_not_fake (dict_values (businesses e)).

(** The order of the sort on businesses: [b1] may stand before [b2]. *)
Definition before_or_tied (b1 b2 : Business) : Prop :=
  key_le (sort_key b1) (sort_key b2) = true.

(** The businesses of [l] whose sort key is [k], in the order of [l]. *)
Definition with_key (k : Z * string) (l : list Business) : list Business :=
  List.filter (fun b => key_le (sort_key b) k && key_le k (sort_key b)) l.

(** The result ordering in the words of the specification: of two
    entries of the list the one with the greater score comes first, and
    with equal scores the first comes first exactly when its lower-cased
    name is less than or equal to that of the second. *)
Definition ordered_as_specified (l : list Business) : Prop :=
  forall (i j : nat) (A B : Business),
    l !! i = Some A -> l !! j = Some B -> i <> j ->
    ((data_completeness_score B < data_completeness_score A)%Z -> (i < j)%nat)
    /\ (data_completeness_score A = data_completeness_score B ->
        ((i < j)%nat <->
         String.leb (Py.lower (business_name A)) (Py.lower (business_name B)) = true)).

(* ===================================================================== *)
(** * The job loop as one sequence of pairs                               *)
(* ===================================================================== *)

(** The (keyword, location) pairs in the order the specification gives:
    keywords outermost, each with all the locations, both in input
    order. *)
Definition pairs_of (ks : list string) (cs : list Location) : list (string * Location) :=
  flat_map (fun k => map (pair k) cs) ks.

Section Sweep.
Context `{Runtime}.
Variable net : Internet.




End Sweep.



(* ===================================================================== *)
(** * Further properties of the accumulated state                         *)
(* ===================================================================== *)

(** [e'] is a later state of [e]: the trace has only grown and a quota
    flag that was set is still set. *)
Definition later (e e' : Engine) : Prop :=
  (exists evs, trace e' = (trace e ++ evs)%list)
  /\ (quota_exceeded e = true -> quota_exceeded e' = true).

(** The counters [s'] after one candidate has been assembled from the
    counters [s]: only the counts of fake phones and of scraped emails
    may have moved, each by at most one. *)
Record assembled (s s' : Stats) : Prop := {
  asm_total : total_searched s' = total_searched s;
  asm_duplicates : duplicates s' = duplicates s;
  asm_fake_emails : fake_emails s' = fake_emails s;
  asm_failed : validation_failed s' = validation_failed s;
  asm_phones : (fake_phones s <= fake_phones s' <= S (fake_phones s))%nat;
  asm_scraped : (emails_scraped s <= emails_scraped s' <= S (emails_scraped s))%nat
}.

(** The number of businesses of a list that carry an email. *)
Definition with_email (l : list Business) : nat :=
  List.length (List.filter (fun b => Py.truthy (email b)) l).

(** The counters add up: every candidate searched was counted as a
    duplicate, as a validation failure, or is in the store; fake phones
    and scraped emails were only counted for candidates that got past
    the duplicate checks; every stored email was counted as scraped. *)
Record accounted (e : Engine) : Prop := {
  acc_total :
    total_searched (stats e)
    = (duplicates (stats e) + validation_failed (stats e)
       + List.length (businesses e))%nat;
  acc_phones :
    (fake_phones (stats e)
     <= validation_failed (stats e) + List.length (businesses e))%nat;
  acc_scraped :
    (emails_scraped (stats e)
     <= validation_failed (stats e) + List.length (businesses e))%nat;
  acc_emails :
    (with_email (dict_values (businesses e)) <= emails_scraped (stats e))%nat
}.

(** What every record built by [assemble] for the keyword [kw] looks
    like, whatever the provider said. *)
Record well_formed `{Runtime} (kw : string) (b : Business) : Prop := {
  wf_keyword : search_keyword b = kw;
  wf_pid : Py.truthy (google_place_id b) = true;
  wf_phone : is_fake_phone (phone_number b) = false;
  wf_place : (city b, state b) = extract_city_state (address b);
  wf_email :
    (email b = "" /\ email_source b = "")
    \/ (Py.truthy (email b) = true /\ email_source b = "website_scrape"
        /\ Py.truthy (website b) = true)
}.

(** The domain index holds nothing but the domains of stored businesses,
    each under the place id of its business, and as many entries as
    there are stored businesses with a domain. *)
Record index_exact `{Runtime} (e : Engine) : Prop := {
  ix_sound : forall d pid,
      seen_domains e !! d = Some pid ->
      exists b, In (pid, b) (businesses e) /\ domain_key b = Some d;
  ix_size : size (seen_domains e) = List.length (domains_of (dict_values (businesses e)))
}.

(** The three ways a candidate can go. *)
Inductive outcome_of `{Runtime} (kw : string) (e : Engine) : option Business -> Engine -> Prop :=
| Duplicate e' :
    stats e' = inc_duplicates (stats e) -> outcome_of kw e None e'
| Rejected s e' :
    assembled (stats e) s -> stats e' = inc_validation_failed s ->
    outcome_of kw e None e'
| Accepted b e' :
    assembled (stats e) (stats e') -> well_formed kw b ->
    (Py.truthy (email b) = true ->
     emails_scraped (stats e') = S (emails_scraped (stats e))) ->
    outcome_of kw e (Some b) e'.


(** The pages [scrape_email] tries for a website, in the order it tries
    them. *)
Definition pages_of (website : string) : list string :=
  let website :=
    if Py.startswith website "http://" || Py.startswith website "https://"
    then website else "https://" ++ website in
  [website;
   Py.rstrip_char "/" website ++ "/contact";
   Py.rstrip_char "/" website ++ "/about"].

(** A reply to a nearby search that carries no usable page: a transport
    failure, or a status other than OK and ZERO_RESULTS. *)
Definition unusable (reply : nearby_reply) : Prop :=
  match reply with
  | NearbyFailed => True
  | NearbyJson body => status_ok (default "ERROR" (status body)) = false
  end.

(** The number of nearby-search requests in a trace. *)
Definition nearby_requests (t : list event) : nat :=
  List.length (List.filter (fun ev => match ev with NearbySearch _ _ _ _ => true | _ => false end) t).






(** An engine that has stored and counted nothing. *)
Definition untouched (e : Engine) : Prop :=
  businesses e = [] /\ stats e = no_stats.

(* ===================================================================== *)
(** * File-name slugs                                                     *)
(* ===================================================================== *)

(** The class [[a-z0-9]] of [slugify]. *)
Definition slug_char (c : ascii) : bool := Py.is_lower_az c || Py.isdigit c.

(** [re.sub(r'[^a-z0-9]+', '-', s)]: every maximal run of characters
    outside the class becomes one dash.  [in_run] tells that the dash of
    the current run has been written. *)
Fixpoint dash_runs (in_run : bool) (s : string) : string :=
  match s with
  | EmptyString => EmptyString
  | String c s' =>
      if slug_char c then String c (dash_runs false s')
      else if in_run then dash_runs true s'
      else String "-" (dash_runs true s')
  end.

Fixpoint take_chars (n : nat) (s : string) : string :=
  match n, s with
  | O, _ => EmptyString
  | S _, EmptyString => EmptyString
  | S k, String c s' => String c (take_chars k s')
  end.

(** The slice [s[:n]]: the first [n] characters, or for a negative [n]
    all but the last [-n]. *)
Definition slice_to (n : Z) (s : string) : string :=
  if (0 <=? n)%Z then take_chars (Z.to_nat n) s
  else take_chars (String.length s - Z.to_nat (- n)) s.

Definition is_dash (c : ascii) : bool := Ascii.eqb c "-".

(** [s.strip('-')]. *)
Definition strip_dashes (s : string) : string :=
  Py.rstrip_by is_dash (Py.lstrip_by is_dash s).

Definition slugify (text : string) (max_len : Z) : string :=
  if negb (Py.truthy text) then "search"
  else
    let slug := slice_to max_len (strip_dashes (dash_runs false (Py.lower text))) in
    if Py.truthy slug then slug else "search".

(** A character allowed in a slug. *)
Definition slug_or_dash (c : ascii) : bool := slug_char c || is_dash c.

(** No two dashes in a row. *)
Fixpoint single_dashes (s : string) : bool :=
  match s with
  | String a (String b _ as rest) => negb (is_dash a && is_dash b) && single_dashes rest
  | _ => true
  end.

(** The string does not begin with a dash. *)
Definition no_leading_dash (s : string) : bool :=
  match s with
  | String c _ => negb (is_dash c)
  | EmptyString => true
  end.

(** [re.sub(r'[^\d]', '', phone)]: the digits of a phone string. *)
Definition digits_of (phone : string) : string := Py.filter_chars Py.isdigit phone.

(* ===================================================================== *)
(** * Ordinary URLs                                                       *)
(* ===================================================================== *)

(** A character that may stand in the host part of an ordinary URL: not
    one that ends the host, not a bracket, not one that [urlsplit]
    removes. *)
Definition plain_host_char (c : ascii) : bool :=
  negb (Re.one_of "/?#[]" c) && negb (Url.tab_cr_lf c).

(** What may follow the host: nothing, or text that starts with one of
    the characters that end the host. *)
Definition path_like (p : string) : bool :=
  match p with
  | EmptyString => true
  | String c _ => Re.one_of "/?#" c
  end.

(** The dedup key that [_get_domain] makes of a host. *)
Definition key_of_host (host : string) : string :=
  Py.replace (Py.lower host) "www." "".

(* ===================================================================== *)
(** * The job registry and the HTTP handlers                              *)
(* ===================================================================== *)

From stdpp Require Import pretty.
Open Scope string_scope.

Definition PREVIEW_LIMIT : nat := 10.

Definition CSV_HEADERS : list string :=
  ["Business Name"; "Phone Number"; "Email"; "Website"; "Address"; "City"; "State";
   "Search Keyword"; "Google Place ID"; "Email Source"; "Data Completeness Score"].

Definition US_STATES : list (string * string) :=
  [ ("AL", "Alabama"); ("AK", "Alaska"); ("AZ", "Arizona"); ("AR", "Arkansas");
    ("CA", "California"); ("CO", "Colorado"); ("CT", "Connecticut"); ("DE", "Delaware");
    ("FL", "Florida"); ("GA", "Georgia"); ("HI", "Hawaii"); ("ID", "Idaho");
    ("IL", "Illinois"); ("IN", "Indiana"); ("IA", "Iowa"); ("KS", "Kansas");
    ("KY", "Kentucky"); ("LA", "Louisiana"); ("ME", "Maine"); ("MD", "Maryland");
    ("MA", "Massachusetts"); ("MI", "Michigan"); ("MN", "Minnesota");
    ("MS", "Mississippi"); ("MO", "Missouri"); ("MT", "Montana"); ("NE", "Nebraska");
    ("NV", "Nevada"); ("NH", "New Hampshire"); ("NJ", "New Jersey");
    ("NM", "New Mexico"); ("NY", "New York"); ("NC", "North Carolina");
    ("ND", "North Dakota"); ("OH", "Ohio"); ("OK", "Oklahoma"); ("OR", "Oregon");
    ("PA", "Pennsylvania"); ("RI", "Rhode Island"); ("SC", "South Carolina");
    ("SD", "South Dakota"); ("TN", "Tennessee"); ("TX", "Texas"); ("UT", "Utah");
    ("VT", "Vermont"); ("VA", "Virginia"); ("WA", "Washington");
    ("WV", "West Virginia"); ("WI", "Wisconsin"); ("WY", "Wyoming");
    ("DC", "District of Columbia") ].

Inductive GeographyMode : Type := STATE | CITY.

Definition mode_value (m : GeographyMode) : string :=
  match m with STATE => "state" | CITY => "city" end.

Inductive JobStatus : Type := PENDING | RUNNING | COMPLETED | FAILED.

Definition status_value (s : JobStatus) : string :=
  match s with
  | PENDING => "pending"
  | RUNNING => "running"
  | COMPLETED => "completed"
  | FAILED => "failed"
  end.

Definition is_completed (s : JobStatus) : bool :=
  match s with COMPLETED => true | _ => false end.

(** The body of a search request. *)
Record SearchRequest : Type := {
  req_keywords : list string;
  req_geographyMode : GeographyMode;
  req_state : string;
  req_cities : option (list Location);
  req_minResults : Z
}.


Record SearchResponse : Type := {
  resp_jobId : string;
  resp_status : string;
  resp_message : string
}.

(** [JobData] as the handlers see it.  [jd_config] is [None] for the
    empty dict a job is born with; [jd_stats] likewise, and otherwise
    holds the counters of the engine. *)
Record JobData : Type := {
  job_id : string;
  job_status : JobStatus;
  progress : Z;
  jd_config : option Config;
  jd_businesses : list Business;
  jd_stats : option Stats;
  jd_stop_reason : string;
  jd_stop_reason_detail : string;
  jd_current_keyword : string;
  jd_current_city : string
}.

(** [JobData(job_id=job_id, config=config)]. *)
Definition new_job_data (id : string) (config : Config) : JobData :=
  {| job_id := id; job_status := PENDING; progress := 0; jd_config := Some config;
     jd_businesses := []; jd_stats := None; jd_stop_reason := "";
     jd_stop_reason_detail := ""; jd_current_keyword := ""; jd_current_city := "" |}.

(** The answer of a handler: a body, or the [HTTPException] it raised. *)
Inductive http (A : Type) : Type :=
| Ok (body : A)
| HTTPException (status_code : Z) (detail : string).
Arguments Ok {A} body.
Arguments HTTPException {A} status_code detail.

(** The config dict that [start_search] builds from a request. *)
Definition config_of (q : SearchRequest) : Config :=
  {| keywords := req_keywords q;
     geographyMode := Some (mode_value (req_geographyMode q));
     cfg_state := Py.upper (req_state q);
     cities := req_cities q;
     minResults := Some (req_minResults q) |}.

(** [', '.join(l)]. *)
Definition join_comma (l : list string) : string := String.concat ", " l.

(** [start_search]; [id] is the eight characters taken from the fresh
    uuid.  The third component is the task handed to the background
    runner: the arguments of [run_job]. *)
Definition start_search (id : string) (q : SearchRequest) (jobs : gmap string JobData)
  : gmap string JobData * SearchResponse * (string * Config) :=
  let job := new_job_data id (config_of q) in
  (<[id := job]> jobs,
   {| resp_jobId := id; resp_status := "started";
      resp_message :=
        "Discovery started for " ++ join_comma (req_keywords q) ++ " in " ++ req_state q |},
   (id, config_of q)).

(** The part of a job record that [run] reads and writes. *)
Definition job_of (jd : JobData) : Job :=
  {| stop_reason := jd_stop_reason jd; stop_reason_detail := jd_stop_reason_detail jd;
     current_keyword := jd_current_keyword jd; current_city := jd_current_city jd;
     job_stats := None |}.

Definition fail_job (reason detail : string) (jd : JobData) : JobData :=
  {| job_id := job_id jd; job_status := FAILED; progress := progress jd;
     jd_config := jd_config jd; jd_businesses := jd_businesses jd;
     jd_stats := jd_stats jd; jd_stop_reason := reason;
     jd_stop_reason_detail := detail; jd_current_keyword := jd_current_keyword jd;
     jd_current_city := jd_current_city jd |}.

(** The job record when [run] has returned [found] and left the run in
    state [r]. *)
Definition complete_job (config : Config) (found : list Business) (r : Run)
    (jd : JobData) : JobData :=
  {| job_id := job_id jd; job_status := COMPLETED; progress := 100;
     jd_config := Some config; jd_businesses := found;
     jd_stats := Some (stats (engine r));
     jd_stop_reason := stop_reason (job r);
     jd_stop_reason_detail := stop_reason_detail (job r);
     jd_current_keyword := current_keyword (job r);
     jd_current_city := current_city (job r) |}.

Section Server.
Context `{Runtime}.

(** [run_job]: [api_key] is the value of the environment variable, [net]
    and [script] are the network the engine will meet.  The result is
    the registry afterwards and the engine, for the requests it sent.
    The handler of unexpected exceptions has no part here: on replies of
    the documented shape [run] raises none. *)
Definition run_job (api_key : option string) (net : Internet) (script : list nearby_reply)
    (id : string) (config : Config) (jobs : gmap string JobData)
  : gmap string JobData * Engine :=
  match jobs !! id with
  | None => (jobs, new_engine)
  | Some jd =>
      if Py.truthy (default "" api_key)
      then
        let '(found, r) :=
          run net config {| replies := script; engine := new_engine; job := job_of jd |} in
        (<[id := complete_job config found r jd]> jobs, engine r)
      else
        (<[id := fail_job "API key not configured"
                   "Set GOOGLE_PLACES_API_KEY environment variable." jd]> jobs,
         new_engine)
  end.

End Server.

Record Counts : Type := {
  withPhone : nat;
  withEmail : nat;
  withWebsite : nat;
  statesCovered : nat;
  totalSearched : nat;
  duplicatesRemoved : nat;
  fakePhonesFiltered : nat;
  fakeEmailsFiltered : nat;
  validationFailed : nat;
  emailsScraped : nat
}.

(** The body of a results reply; [lowResultWarning] tells whether the
    warning object is there. *)
Record Results : Type := {
  res_jobId : string;
  res_status : string;
  res_progress : Z;
  totalValid : nat;
  previewCount : nat;
  preview : list Business;
  counts : Counts;
  stopReason : string;
  stopReasonDetail : string;
  lowResultWarning : bool;
  currentKeyword : string;
  currentCity : string
}.

(** [sum(1 for b in l if f(b))]. *)
Definition count_if (f : Business -> bool) (l : list Business) : nat :=
  List.length (List.filter f l).

(** [job.stats.get(key, 0)]. *)
Definition stat (f : Stats -> nat) (s : option Stats) : nat :=
  match s with Some st => f st | None => 0%nat end.

(** [get_results]; the framework lets [preview_arg] through when it is
    between 1 and 100. *)
Definition get_results (id : string) (preview_arg : nat) (jobs : gmap string JobData)
  : http Results :=
  match jobs !! id with
  | None => HTTPException 404 "Job not found"
  | Some jd =>
      let total := List.length (jd_businesses jd) in
      let preview_count := Nat.min preview_arg total in
      Ok {| res_jobId := job_id jd;
            res_status := status_value (job_status jd);
            res_progress := progress jd;
            totalValid := total;
            previewCount := preview_count;
            preview := take preview_count (jd_businesses jd);
            counts :=
              {| withPhone := count_if (fun b => Py.truthy (phone_number b)) (jd_businesses jd);
                 withEmail := count_if (fun b => Py.truthy (email b)) (jd_businesses jd);
                 withWebsite := count_if (fun b => Py.truthy (website b)) (jd_businesses jd);
                 statesCovered :=
                   List.length
                     (remove_dups
                        (List.filter Py.truthy (map state (jd_businesses jd))));
                 totalSearched := stat total_searched (jd_stats jd);
                 duplicatesRemoved := stat duplicates (jd_stats jd);
                 fakePhonesFiltered := stat fake_phones (jd_stats jd);
                 fakeEmailsFiltered := stat fake_emails (jd_stats jd);
                 validationFailed := stat validation_failed (jd_stats jd);
                 emailsScraped := stat emails_scraped (jd_stats jd) |};
            stopReason := jd_stop_reason jd;
            stopReasonDetail := jd_stop_reason_detail jd;
            lowResultWarning := is_completed (job_status jd) && (total <? 10)%nat;
            currentKeyword := jd_current_keyword jd;
            currentCity := jd_current_city jd |}
  end.

(** The line of a business in the export, in the order of
    [CSV_HEADERS]: [to_csv_row] read through the writer's field names,
    the score written as [str] writes an int. *)
Definition to_csv_row (b : Business) : list (string * string) :=
  [("Business Name", business_name b); ("Phone Number", phone_number b);
   ("Email", email b); ("Website", website b); ("Address", address b);
   ("City", city b); ("State", state b); ("Search Keyword", search_keyword b);
   ("Google Place ID", google_place_id b); ("Email Source", email_source b);
   ("Data Completeness Score", pretty (data_completeness_score b))].

(** The cells [csv.DictWriter] writes for a row dict. *)
Definition csv_cells (row : list (string * string)) : list string :=
  map (fun h => default "" (dict_get row h)) CSV_HEADERS.

(** [generate_csv_filename]; [ts] is the formatted time of the call.
    [None] stands for the [IndexError] of taking the first keyword of an
    empty list. *)
Definition generate_csv_filename (ts : string) (jd : JobData) : option string :=
  let kws := match jd_config jd with Some c => keywords c | None => ["search"] end in
  match kws with
  | [] => None
  | first :: _ =>
      let kw := slugify first 30 in
      let st := match jd_config jd with Some c => cfg_state c | None => "US" end in
      let by_city :=
        match jd_config jd with
        | Some c => match geographyMode c with
                    | Some m => String.eqb m "city"
                    | None => false
                    end
        | None => false
        end in
      let geo := if by_city then (st ++ "_multi-city")%string else st in
      Some ("business_discovery_" ++ ts ++ "_" ++ kw ++ "_" ++ geo ++ "_"
            ++ pretty (List.length (jd_businesses jd)) ++ "rows.csv")%string
  end.

(** What [download_csv] hands to the CSV writer and to the response
    headers. *)
Record Export : Type := {
  header : list string;
  rows : list (list string);
  filename : string;
  total_rows : string
}.

(** The outcome of [download_csv]: the export, an [HTTPException], or
    the unhandled [IndexError] of [generate_csv_filename]. *)
Inductive download : Type :=
| Exported (x : Export)
| Refused (status_code : Z) (detail : string)
| Crashed.

Definition download_csv (ts : string) (id : string) (jobs : gmap string JobData)
  : download :=
  match jobs !! id with
  | None => Refused 404 "Job not found"
  | Some jd =>
      if negb (is_completed (job_status jd))
      then Refused 400 ("Job not completed (" ++ status_value (job_status jd) ++ ")")%string
      else
        match generate_csv_filename ts jd with
        | None => Crashed
        | Some name =>
            Exported {| header := CSV_HEADERS;
                        rows := map (fun b => csv_cells (to_csv_row b)) (jd_businesses jd);
                        filename := name;
                        total_rows := pretty (List.length (jd_businesses jd)) |}
        end
  end.

(** [get_cities]: the upper-cased state and the names of its cities
    (every city of the tables has one). *)
Definition get_cities (st : string) : string * list string :=
  (Py.upper st, map (fun c => default "" (loc_city c)) (cities_of_state (Py.upper st))).

(* ===================================================================== *)
(** * Sample data                                                         *)
(* ===================================================================== *)

Definition sample_listing : Business :=
  {| business_name := "Joe Plumbing"; phone_number := "(512) 867-5309";
     email := "  "; website := ""; address := "12 Main St, Austin, TX 78701";
     city := "Austin"; state := "TX"; search_keyword := "plumber";
     google_place_id := "p1"; email_source := "";
     data_completeness_score := 2 |}.


(** A transient rate limit: the first reply to a nearby search is
    [OVER_QUERY_LIMIT], the next one would be a page with one place. *)
Definition rate_limited : Response :=
  {| status := Some "OVER_QUERY_LIMIT"; results := []; next_page_token := None |}.

Definition joe_place : Place :=
  {| place_id := Some "p1"; place_name := Some "Joe"; vicinity := Some "Austin" |}.

Definition page_with_joe : Response :=
  {| status := Some "OK"; results := [joe_place]; next_page_token := None |}.

Definition joe_details : Details :=
  {| d_name := Some "Joe Plumbing";
     d_formatted_phone_number := Some "(512) 867-5309";
     d_formatted_address := Some "12 Main St, Austin, TX 78701, USA";
     d_website := None |}.

(** A network on which every details lookup tells of Joe and no page can
    be fetched. *)
Definition joe_net : Internet :=
  {| details_at := fun _ _ => DetailsJson (Some joe_details);
     http_at := fun _ _ => HttpFailed |}.

Definition austin : Location := loc "Austin" 302672 (-977431).

(** Two listings of one firm: distinct place ids, the same website. *)
Definition acme_details : Details :=
  {| d_name := Some "Acme Tools";
     d_formatted_phone_number := Some "(512) 867-5309";
     d_formatted_address := Some "4 Elm St, Austin, TX 78701, USA";
     d_website := Some "http://www.acme.com" |}.

Definition acme_net : Internet :=
  {| details_at := fun _ _ => DetailsJson (Some acme_details);
     http_at := fun _ _ => HttpFailed |}.

Definition acme_first : Place :=
  {| place_id := Some "id-1"; place_name := Some "Acme"; vicinity := None |}.

Definition acme_second : Place :=
  {| place_id := Some "id-2"; place_name := Some "Acme Tools Inc"; vicinity := None |}.

(** Two listings of one site, the second written with the port of
    https. *)
Definition port_details (pid : string) : Details :=
  {| d_name := Some "Acme Tools";
     d_formatted_phone_number := Some "(512) 867-5309";
     d_formatted_address := Some "4 Elm St, Austin, TX 78701, USA";
     d_website := Some (if String.eqb pid "id-1" then "https://acme.com"
                        else "https://acme.com:443") |}.

Definition port_net : Internet :=
  {| details_at := fun _ pid => DetailsJson (Some (port_details pid));
     http_at := fun _ _ => HttpFailed |}.

(** The engine after the first listing has been processed. *)
Definition after_acme_first : Engine :=
  process_result acme_net "tools" new_engine acme_first.

(** Two firms whose names differ only in case, with the same contact
    fields filled in; the provider lists [t1] before [t2]. *)
Definition twin_details (name : string) : Details :=
  {| d_name := Some name;
     d_formatted_phone_number := Some "(512) 867-5309";
     d_formatted_address := Some "4 Elm St, Austin, TX 78701, USA";
     d_website := None |}.

Definition twins_net : Internet :=
  {| details_at := fun _ pid =>
       DetailsJson (Some (twin_details (if String.eqb pid "t1" then "Acme" else "ACME")));
     http_at := fun _ _ => HttpFailed |}.

Definition twins_page : Response :=
  {| status := Some "OK";
     results := [ {| place_id := Some "t1"; place_name := None; vicinity := None |};
                  {| place_id := Some "t2"; place_name := None; vicinity := None |} ];
     next_page_token := None |}.

Definition twins_config : Config :=
  {| keywords := ["tools"]; geographyMode := Some "city"; cfg_state := "TX";
     cities := Some [austin]; minResults := Some 2%Z |}.

(** Two firms with the same score, listed by the provider against the
    alphabet: "Zed Tools" first, "acme" second. *)
Definition mixed_net : Internet :=
  {| details_at := fun _ pid =>
       DetailsJson (Some (twin_details (if String.eqb pid "z1" then "Zed Tools" else "acme")));
     http_at := fun _ _ => HttpFailed |}.

Definition mixed_page : Response :=
  {| status := Some "OK";
     results := [ {| place_id := Some "z1"; place_name := None; vicinity := None |};
                  {| place_id := Some "a1"; place_name := None; vicinity := None |} ];
     next_page_token := None |}.

Definition plumber_in_texas : Config :=
  {| keywords := ["plumber"]; geographyMode := Some "state"; cfg_state := "tx";
     cities := None; minResults := Some 1%Z |}.


(** A listing with a placeholder phone and nothing else. *)
Definition hollow_place : Place :=
  {| place_id := Some "h1"; place_name := Some "Hollow"; vicinity := None |}.

Definition hollow_details : Details :=
  {| d_name := Some "Hollow"; d_formatted_phone_number := Some "555-555-5555";
     d_formatted_address := None; d_website := None |}.

Definition hollow_net : Internet :=
  {| details_at := fun _ _ => DetailsJson (Some hollow_details);
     http_at := fun _ _ => HttpFailed |}.

(** A provider that has nothing for any search. *)
Definition nothing_found : Response :=
  {| status := Some "ZERO_RESULTS"; results := []; next_page_token := None |}.

Definition acme_page : Response :=
  {| status := Some "OK"; results := [acme_first; acme_second]; next_page_token := None |}.

Definition hollow_page : Response :=
  {| status := Some "OK"; results := [hollow_place]; next_page_token := None |}.

(** A job that starts with the quota flag already set. *)
Definition flagged_start : Run :=
  {| replies := [NearbyJson page_with_joe];
     engine := set_quota_exceeded new_engine;
     job := new_job |}.

(** A provider that refuses every search, as it does for a bad key. *)
Definition request_denied : Response :=
  {| status := Some "REQUEST_DENIED"; results := [joe_place]; next_page_token := None |}.

(** A site whose root page fails and whose contact page names an
    address. *)
Definition acme_site : Internet :=
  {| details_at := fun _ _ => DetailsFailed;
     http_at := fun _ url =>
       if String.eqb url "https://acme.com/contact"
       then HttpResponse 200 "Mail us: Info@Acme.com"
       else HttpFailed |}.

(** A provider whose details lookups all fail in transport. *)
Definition no_details_net : Internet :=
  {| details_at := fun _ _ => DetailsFailed; http_at := fun _ _ => HttpFailed |}.

(** A request for plumbers in Texas with a target of one. *)
Definition texas_request : SearchRequest :=
  {| req_keywords := ["plumber"]; req_geographyMode := STATE; req_state := "tx";
     req_cities := None; req_minResults := 1 |}.

(** The registry after that request has been accepted as job "ab12cd34"
    and run against the provider that knows Joe. *)
Definition served : gmap string JobData :=
  fst (run_job (Some "key") joe_net [NearbyJson page_with_joe] "ab12cd34"
         (config_of texas_request)
         (fst (fst (start_search "ab12cd34" texas_request ∅)))).

Example lower_mixed : Py.lower "Acme Plumbing & SONS" = "acme plumbing & sons".
Proof. reflexivity. Qed.

Example strip_both : Py.strip "  12 Main St " = "12 Main St".
Proof. reflexivity. Qed.

Example strip_blank : Py.strip "   " = "".
Proof. reflexivity. Qed.

Example replace_twice : Py.replace "www.a.www.b" "www." "" = "a.b".
Proof. reflexivity. Qed.

Example endswith_at : Py.endswith "bob@test.com" "@test.com" = true.
Proof. reflexivity. Qed.

Example findall_two :
  re_findall EmailToken "write to info@acme-tools.com or sales@acme.co.uk."
  = ["info@acme-tools.com"; "sales@acme.co.uk"].
Proof. reflexivity. Qed.

Example findall_backtracks :
  re_findall EmailToken "a@b.com.x1 and c@d" = ["a@b.com"].
Proof. reflexivity. Qed.

Example search_zip :
  re_search CityStateZip "12 Main St, Austin, TX 78701, USA" = Some ("Austin", "TX").
Proof. reflexivity. Qed.

Example search_end :
  re_search CityStateEnd "12 Main St, Austin, TX" = Some ("Austin", "TX").
Proof. reflexivity. Qed.

Example netloc_plain :
  urlparse_netloc "https://WWW.Acme.com:8080/shop?x=1" = Some "WWW.Acme.com:8080".
Proof. reflexivity. Qed.

Example netloc_bad_bracket : urlparse_netloc "https://[::1/x" = None.
Proof. reflexivity. Qed.

(* ===================================================================== *)
(** * Validators                                                          *)
(* ===================================================================== *)

Lemma strip_empty : Py.strip "" = "".
Proof. reflexivity. Qed.

Lemma present_not_blank (f : string) : present f = negb (blank f).
Proof.
  unfold present, blank. rewrite Bool.negb_involutive.
  destruct f as [|c f']; [reflexivity | apply Bool.andb_true_l].
Qed.

Lemma filter_present_not_blank (fs : list string) :
  List.filter present fs = List.filter (fun f => negb (blank f)) fs.
Proof.
  induction fs as [|f fs IH]; simpl; [reflexivity|].
  rewrite present_not_blank, IH. reflexivity.
Qed.

Lemma filter_length_le {A : Type} (p : A -> bool) (l : list A) :
  (List.length (List.filter p l) <= List.length l)%nat.
Proof.
  induction l as [|a l IH]; simpl; [lia|]. destruct (p a); simpl; lia.
Qed.

Lemma calc_completeness_cases (b : Business) :
  calc_completeness b =
  ((if present (phone_number b) then 1 else 0)
   + (if present (email b) then 1 else 0)
   + (if present (website b) then 1 else 0)
   + (if present (address b) then 1 else 0))%Z.
Proof.
  unfold calc_completeness. simpl.
  destruct (present (phone_number b)), (present (email b)),
    (present (website b)), (present (address b)); reflexivity.
Qed.

Lemma calc_completeness_range (b : Business) :
  (0 <= calc_completeness b <= 4)%Z.
Proof.
  rewrite calc_completeness_cases.
  destruct (present (phone_number b)), (present (email b)),
    (present (website b)), (present (address b)); lia.
Qed.

Lemma calc_completeness_set_score (z : Z) (b : Business) :
  calc_completeness (set_score z b) = calc_completeness b.
Proof. reflexivity. Qed.

(** C8.  [calc_completeness] is the number of the four fields phone,
    email, website, address that are non-empty after trimming; it lies
    between 0 and 4; and giving a non-empty value to one field that was
    empty (nothing left after trimming) never lowers it. *)
Theorem calc_completeness_counts_filled_fields (b : Business) :
  calc_completeness b
    = count_filled [phone_number b; email b; website b; address b]
  /\ (0 <= calc_completeness b <= 4)%Z
  /\ forall (fld : contact_field) (v : string),
       blank (get_field fld b) = true ->
       v <> "" ->
       (calc_completeness b <= calc_completeness (set_field fld v b))%Z.
Proof.
  split; [|split].
  - unfold calc_completeness, count_filled.
    now rewrite filter_present_not_blank.
  - apply calc_completeness_range.
  - intros fld v Hblank _.
    assert (Hp : present (get_field fld b) = false)
      by (rewrite present_not_blank, Hblank; reflexivity).
    rewrite !calc_completeness_cases.
    destruct fld; simpl in Hp |- *; rewrite Hp;
      repeat match goal with |- context [present ?x] => destruct (present x) end; lia.
Qed.

Lemma calc_completeness_counts_filled_fields_witness :
  blank (get_field Email sample_listing) = true
  /\ "joe@joeplumbing.io" <> ""
  /\ (calc_completeness sample_listing
      <= calc_completeness (set_field Email "joe@joeplumbing.io" sample_listing))%Z.
Proof.
  split; [reflexivity|]. split; [discriminate|].
  apply (calc_completeness_counts_filled_fields sample_listing);
    [reflexivity | discriminate].
Defined.

(** C6 as stated fails: an address may end in the text of a blocklisted
    domain without that domain following the [@]; the code compares with
    ["@" + domain], so such an address is not fake. *)
Lemma is_fake_email_suffix_counterexample :
  In "example.com" FAKE_EMAIL_DOMAINS
  /\ Py.endswith "info@mail.example.com" "example.com" = true
  /\ is_fake_email "info@mail.example.com" = false.
Proof. repeat split; simpl; auto. Qed.

(** C6, amended.  An address whose lower-cased form ends in [@] followed
    by a blocklisted domain, or starts with a blocklisted prefix, is
    fake; [user@realcompany.io] and the empty string are not. *)
Theorem is_fake_email_blocklisted :
  (forall email : string,
      (exists d, In d FAKE_EMAIL_DOMAINS
                 /\ Py.endswith (Py.lower email) ("@" ++ d) = true)
      \/ (exists p, In p FAKE_EMAIL_PREFIXES
                    /\ Py.startswith (Py.lower email) p = true) ->
      is_fake_email email = true)
  /\ is_fake_email "user@realcompany.io" = false
  /\ is_fake_email "" = false.
Proof.
  split; [|split; reflexivity].
  intros email Hhit. unfold is_fake_email.
  destruct email as [|c rest].
  - exfalso. destruct Hhit as [(d & Hin & He) | (p & Hin & Hs)].
    + unfold Py.endswith in He. simpl in He. discriminate He.
    + simpl in Hin.
      repeat (destruct Hin as [<- | Hin]; [discriminate Hs|]). contradiction.
  - change (negb (Py.truthy (String c rest))) with false. cbv iota.
    apply Bool.orb_true_iff.
    destruct Hhit as [(d & Hin & He) | (p & Hin & Hs)].
    + left. apply existsb_exists. exists d. split; assumption.
    + right. apply existsb_exists. exists p. split; assumption.
Qed.

Lemma is_fake_email_blocklisted_witness :
  is_fake_email "Sales@Example.COM" = true.
Proof.
  apply (proj1 is_fake_email_blocklisted).
  left. exists "example.com". split; [simpl; auto | reflexivity].
Defined.

Lemma py_any_returns {A : Type} (f : A -> bool) (l : list A) :
  py_any (fun x => Returns (f x)) l = Returns (existsb f l).
Proof.
  induction l as [|x l IH]; [reflexivity|]. cbn [py_any and_then existsb].
  destruct (f x); [reflexivity | exact IH].
Qed.

Lemma call_is_fake_phone_str (s : string) :
  call_is_fake_phone (PyStr s) = Returns (is_fake_phone s).
Proof.
  unfold call_is_fake_phone, is_fake_phone. cbn [py_not re_sub_non_digits and_then].
  destruct (negb (Py.truthy s)); [reflexivity|].
  destruct (Py.contains "555" (Py.filter_chars Py.isdigit s)); [reflexivity|].
  destruct ((7 <=? String.length (Py.filter_chars Py.isdigit s))%nat
            && Py.one_distinct_char (Py.filter_chars Py.isdigit s)); [reflexivity|].
  apply (py_any_returns (fun p => Py.contains p s)).
Qed.

Lemma call_is_fake_email_str (s : string) :
  call_is_fake_email (PyStr s) = Returns (is_fake_email s).
Proof.
  unfold call_is_fake_email, is_fake_email. cbn [py_not str_lower and_then].
  destruct (negb (Py.truthy s)); reflexivity.
Qed.

Lemma call_present_str (s : string) : call_present (PyStr s) = Returns (present s).
Proof. destruct s; reflexivity. Qed.

Lemma call_calc_completeness_str (b : Business) :
  call_calc_completeness (PyStr (phone_number b)) (PyStr (email b))
    (PyStr (website b)) (PyStr (address b))
  = Returns (calc_completeness b).
Proof.
  unfold call_calc_completeness. cbn [call_count_present].
  rewrite !call_present_str, calc_completeness_cases. cbn [and_then].
  destruct (present (phone_number b)), (present (email b)),
    (present (website b)), (present (address b)); reflexivity.
Qed.

(** The error channel is not idle: an argument that is neither [None]
    nor a str does raise, and so would [None] without the test that
    each validator begins with. *)
Example call_is_fake_phone_int : call_is_fake_phone (PyInt 5) = Raises TypeError.
Proof. reflexivity. Qed.

Example call_calc_completeness_int :
  call_calc_completeness (PyStr "1") (PyInt 7) (PyStr "") PyNone = Raises AttributeError.
Proof. reflexivity. Qed.

Example re_sub_on_none : re_sub_non_digits PyNone = Raises TypeError.
Proof. reflexivity. Qed.

Example lower_on_none : str_lower PyNone = Raises AttributeError.
Proof. reflexivity. Qed.

Section ValidatorCalls.
Context `{Runtime}.

Lemma keep_real_returns (found : list string) :
  keep_real found = Returns (List.filter (fun e => negb (is_fake_email e)) found).
Proof.
  induction found as [|e rest IH]; [reflexivity|].
  cbn [keep_real List.filter]. rewrite call_is_fake_email_str, IH. cbn [and_then].
  destruct (is_fake_email e); reflexivity.
Qed.

Lemma call_extract_emails_str (s : string) :
  call_extract_emails (PyStr s) = Returns (extract_emails s).
Proof.
  unfold call_extract_emails, extract_emails. cbn [py_not str_lower and_then].
  destruct (negb (Py.truthy s)); [reflexivity | apply keep_real_returns].
Qed.

Lemma call_extract_city_state_str (s : string) :
  call_extract_city_state (PyStr s) = Returns (extract_city_state s).
Proof.
  unfold call_extract_city_state, extract_city_state. cbn [py_not].
  destruct (negb (Py.truthy s)); [reflexivity|].
  cbn [first_match re_search_groups and_then].
  destruct (re_search CityStateZip s) as [[g1 g2]|]; [reflexivity|].
  destruct (re_search CityStateEnd s) as [[g1 g2]|]; reflexivity.
Qed.

(** C9.  On a str argument no validator raises: each call, followed
    statement by statement, returns the value of the function.  On the
    empty string and on [None] the two fake tests return false,
    [extract_emails] returns the empty list and [extract_city_state]
    returns a pair of empty strings. *)
Theorem validators_never_raise :
  (forall s : string,
      call_is_fake_phone (PyStr s) = Returns (is_fake_phone s)
      /\ call_is_fake_email (PyStr s) = Returns (is_fake_email s)
      /\ call_extract_emails (PyStr s) = Returns (extract_emails s)
      /\ call_extract_city_state (PyStr s) = Returns (extract_city_state s))
  /\ (forall b : Business,
        call_calc_completeness (PyStr (phone_number b)) (PyStr (email b))
          (PyStr (website b)) (PyStr (address b))
        = Returns (calc_completeness b))
  /\ (call_is_fake_phone (PyStr "") = Returns false
      /\ call_is_fake_phone PyNone = Returns false
      /\ call_is_fake_email (PyStr "") = Returns false
      /\ call_is_fake_email PyNone = Returns false)
  /\ (call_extract_emails (PyStr "") = Returns []
      /\ call_extract_emails PyNone = Returns [])
  /\ (call_extract_city_state (PyStr "") = Returns ("", "")
      /\ call_extract_city_state PyNone = Returns ("", "")).
Proof.
  split; [|split; [|repeat split; reflexivity]].
  - intros s. split; [apply call_is_fake_phone_str|].
    split; [apply call_is_fake_email_str|].
    split; [apply call_extract_emails_str | apply call_extract_city_state_str].
  - apply call_calc_completeness_str.
Qed.

End ValidatorCalls.

(* ===================================================================== *)
(** * Strings                                                             *)
(* ===================================================================== *)

Lemma prefix_split (p s : string) :
  String.prefix p s = true -> exists t, s = p ++ t.
Proof.
  revert s. induction p as [|c p IH]; intros s.
  - intros _. now exists s.
  - destruct s as [|d s]; simpl; [discriminate|].
    destruct (ascii_dec c d) as [<- | _]; [|discriminate].
    intros Hp. destruct (IH s Hp) as [t ->]. now exists t.
Qed.

Lemma replace_leading_www (x : string) :
  Py.replace ("www." ++ x) "www." "" = Py.replace x "www." "".
Proof. unfold Py.replace. destruct x; reflexivity. Qed.

Lemma replace_absent (old new s : string) :
  Py.contains old s = false -> Py.replace s old new = s.
Proof.
  unfold Py.replace. induction s as [|c s IH]; [reflexivity|].
  cbn [Py.contains Py.replace_from]. intros Hc.
  apply Bool.orb_false_iff in Hc as [Hp Hc]. rewrite Hp. now rewrite (IH Hc).
Qed.

(* ===================================================================== *)
(** * Domain key                                                          *)
(* ===================================================================== *)

Lemma get_domain_of_netloc `{Runtime} (url netloc : string) :
  urlparse_netloc (if Py.startswith url "http" then url else "https://" ++ url)
    = Some netloc ->
  url <> "" ->
  _get_domain url = Some (Py.replace (Py.lower netloc) "www." "").
Proof.
  intros Hn Hu. unfold _get_domain. destruct url; [contradiction|].
  simpl negb. cbv iota. now rewrite Hn.
Qed.

Section CPythonKey.
Context `{Flavour}.

(** C7, at an input on which the code departs from it (on the CPython
    runtime, where the netloc of the URL is its host).  The host
    [awww.example.com] has no leading [www.], so its key should be the
    host itself; [replace] also removes the [www.] inside it, and the key
    becomes that of the unrelated host [aexample.com]. *)
Theorem get_domain_removes_inner_www :
  _get_domain "https://awww.example.com/" = Some "aexample.com"
  /\ _get_domain "https://awww.example.com/" <> Some "awww.example.com"
  /\ _get_domain "https://aexample.com/" = _get_domain "https://awww.example.com/".
Proof. repeat split; try reflexivity. discriminate. Qed.

(** A leading [www.] is removed, as intended. *)
Example get_domain_leading_www :
  _get_domain "http://www.acme.com/shop" = Some "acme.com".
Proof. reflexivity. Qed.

End CPythonKey.

(* ===================================================================== *)
(** * Rate limit                                                          *)
(* ===================================================================== *)

Section RateLimit.
Context `{Runtime}.
Variable net : Internet.

Lemma nearby_search_over_limit la ln kw token body e :
  status body = Some "OVER_QUERY_LIMIT" ->
  nearby_search la ln kw token (NearbyJson body) e
  = (body, set_quota_exceeded (emit (NearbySearch la ln kw token) e)).
Proof. intros Hs. unfold nearby_search. rewrite Hs. reflexivity. Qed.

(** C4, what the code does on a rate-limit reply.  [nearby_search] has
    just set the quota flag and nothing clears it, so after the cool-down
    the loop returns: the trace gains the one request and the sleep, and
    the replies that would have answered a retry are left unread. *)
Theorem rate_limit_reply_ends_search (city_data : Location) (kw : string)
    (token : option string) (body : Response) (rest : list nearby_reply) (e : Engine) :
  status body = Some "OVER_QUERY_LIMIT" ->
  search_loop net city_data kw token (NearbyJson body :: rest) e
  = (rest,
     emit (Sleep QUOTA_COOLDOWN)
       (set_quota_exceeded
          (emit (NearbySearch (lat city_data) (lng city_data) kw token) e))).
Proof.
  intros Hs. simpl. unfold search_turn.
  rewrite (nearby_search_over_limit _ _ _ _ _ _ Hs), Hs. reflexivity.
Qed.

End RateLimit.

Lemma rate_limit_reply_ends_search_witness :
  status rate_limited = Some "OVER_QUERY_LIMIT"
  /\ _search_location joe_net austin "plumber"
       [NearbyJson rate_limited; NearbyJson page_with_joe] new_engine
     = ([NearbyJson page_with_joe],
        emit (Sleep QUOTA_COOLDOWN)
          (set_quota_exceeded
             (emit (NearbySearch (lat austin) (lng austin) "plumber" None) new_engine))).
Proof.
  split; [reflexivity|].
  apply (rate_limit_reply_ends_search joe_net austin "plumber" None rate_limited).
  reflexivity.
Defined.

(* ===================================================================== *)
(** * What each operation leaves alone                                    *)
(* ===================================================================== *)

Lemma same_store_refl (e : Engine) : same_store e e.
Proof. split; reflexivity. Qed.

Lemma same_store_trans (e1 e2 e3 : Engine) :
  same_store e1 e2 -> same_store e2 e3 -> same_store e1 e3.
Proof. intros [H1 H2] [H3 H4]. split; congruence. Qed.

Lemma same_store_emit (ev : event) (e : Engine) : same_store e (emit ev e).
Proof. split; reflexivity. Qed.

Lemma same_store_with_stats (f : Stats -> Stats) (e : Engine) :
  same_store e (with_stats f e).
Proof. split; reflexivity. Qed.

Lemma same_store_quota (e : Engine) : same_store e (set_quota_exceeded e).
Proof. split; reflexivity. Qed.

Lemma domain_seen_same_store `{Runtime} (d : option string) (e e' : Engine) :
  same_store e e' -> domain_seen d e' = domain_seen d e.
Proof. intros [_ Hs]. unfold domain_seen. now rewrite Hs. Qed.

Section Frames.
Context `{Runtime}.
Variable net : Internet.

Lemma extract_emails_not_fake (text x : string) :
  In x (extract_emails text) -> is_fake_email x = false.
Proof.
  unfold extract_emails. destruct (negb (Py.truthy text)); [intros []|].
  intros Hin. apply filter_In in Hin as [_ Hx].
  now apply Bool.negb_true_iff in Hx.
Qed.

Lemma scrape_pages_frame (pages : list string) (e : Engine) :
  same_store e (snd (scrape_pages net pages e))
  /\ stats (snd (scrape_pages net pages e)) = stats e.
Proof.
  revert e. induction pages as [|page rest IH]; intros e; simpl.
  - split; [apply same_store_refl | reflexivity].
  - destruct (http_at net (List.length (trace e)) page) as [|code text].
    + destruct (IH (emit (HttpGet page) e)) as [Hs Hst].
      split; [eapply same_store_trans; [apply same_store_emit | exact Hs] | exact Hst].
    + destruct (Z.eqb code 200).
      * destruct (extract_emails text) as [|first others]; simpl.
        -- destruct (IH (emit (HttpGet page) e)) as [Hs Hst].
           split; [eapply same_store_trans; [apply same_store_emit | exact Hs] | exact Hst].
        -- split; [apply same_store_emit | reflexivity].
      * destruct (IH (emit (HttpGet page) e)) as [Hs Hst].
        split; [eapply same_store_trans; [apply same_store_emit | exact Hs] | exact Hst].
Qed.

Lemma scrape_pages_not_fake (pages : list string) (e : Engine) (found : string) :
  fst (scrape_pages net pages e) = Some found -> is_fake_email found = false.
Proof.
  revert e. induction pages as [|page rest IH]; intros e; simpl; [discriminate|].
  destruct (http_at net (List.length (trace e)) page) as [|code text]; [apply IH|].
  destruct (Z.eqb code 200); [|apply IH].
  destruct (extract_emails text) as [|first others] eqn:Hx; [apply IH|].
  simpl. intros [= <-]. apply (extract_emails_not_fake text).
  rewrite Hx. now left.
Qed.

Lemma scrape_email_frame (site : string) (e : Engine) :
  same_store e (snd (scrape_email net site e))
  /\ stats (snd (scrape_email net site e)) = stats e.
Proof.
  unfold scrape_email. destruct (negb (Py.truthy site)).
  - split; [apply same_store_refl | reflexivity].
  - apply scrape_pages_frame.
Qed.

Lemma scrape_email_not_fake (site : string) (e : Engine) (found : string) :
  fst (scrape_email net site e) = Some found -> is_fake_email found = false.
Proof.
  unfold scrape_email. destruct (negb (Py.truthy site)); [discriminate|].
  apply scrape_pages_not_fake.
Qed.

(** The email that [enrich] hands on is never fake, and [enrich] does
    not count a fake email. *)
Lemma enrich_spec (site : string) (e : Engine) (mail source : string) (e' : Engine) :
  enrich net site e = (mail, source, e') ->
  is_fake_email mail = false
  /\ same_store e e'
  /\ counted_alike e e'.
Proof.
  unfold enrich. destruct (Py.truthy site).
  - pose proof (scrape_email_frame site e) as [Hs Hst].
    pose proof (scrape_email_not_fake site e) as Hnf.
    destruct (scrape_email net site e) as [[found|] e1]; simpl in *.
    + destruct (Py.truthy found).
      * intros [= <- <- <-]. split; [now apply Hnf|].
        split; [eapply same_store_trans; [exact Hs | apply same_store_with_stats]|].
        unfold counted_alike. simpl. now rewrite Hst.
      * intros [= <- <- <-]. split; [reflexivity|]. split; [exact Hs|].
        unfold counted_alike. now rewrite Hst.
    + intros [= <- <- <-]. split; [reflexivity|]. split; [exact Hs|].
      unfold counted_alike. now rewrite Hst.
  - intros [= <- <- <-]. repeat split.
Qed.

Lemma get_details_frame (pid : string) (e : Engine) :
  same_store e (snd (get_details net pid e))
  /\ stats (snd (get_details net pid e)) = stats e.
Proof.
  unfold get_details.
  destruct (details_at net (List.length (trace e)) pid) as [| |[d|]];
    split; try reflexivity; split; reflexivity.
Qed.

(** The record that [assemble] builds. *)
Lemma assemble_spec (place : Place) (kw pid : string) (details : Details)
    (e : Engine) (b : Business) (e' : Engine) :
  assemble net place kw pid details e = (b, e') ->
  google_place_id b = pid
  /\ website b = default "" (d_website details)
  /\ is_fake_email (email b) = false
  /\ same_store e e'
  /\ counted_alike e e'.
Proof.
  unfold assemble.
  destruct (extract_city_state _) as [cty ste].
  destruct (is_fake_phone _).
  - destruct (enrich net _ (with_stats inc_fake_phones e)) as [[mail source] e1] eqn:He.
    apply enrich_spec in He as (Hnf & Hs & Hc).
    rewrite Hnf. intros [= <- <-]. simpl.
    repeat split; try apply Hs; try apply Hc; auto.
  - destruct (enrich net _ e) as [[mail source] e1] eqn:He.
    apply enrich_spec in He as (Hnf & Hs & Hc).
    rewrite Hnf. intros [= <- <-]. simpl.
    repeat split; try apply Hs; try apply Hc; auto.
Qed.

(** The outcome of [_process_place]. *)
Lemma process_place_spec (place : Place) (kw : string) (e : Engine)
    (r : option Business) (e' : Engine) :
  _process_place net place kw e = (r, e') ->
  same_store e e'
  /\ fake_emails (stats e') = fake_emails (stats e)
  /\ match r with
     | Some b => accepted place e b
     | None => True
     end.
Proof.
  unfold _process_place.
  destruct (negb (Py.truthy (default "" (place_id place)))
            || dict_has (businesses e) (default "" (place_id place))) eqn:Hdup.
  { intros [= <- <-]. repeat split. }
  apply Bool.orb_false_iff in Hdup as [Hpid Hnew].
  apply Bool.negb_false_iff in Hpid.
  pose proof (get_details_frame (default "" (place_id place)) e) as [Hs1 Hst1].
  destruct (get_details net _ e) as [details e1]. simpl in Hs1, Hst1.
  destruct (domain_seen _ e1) eqn:Hseen.
  { intros [= <- <-]. split; [|split; [|exact I]].
    - eapply same_store_trans; [exact Hs1 | apply same_store_with_stats].
    - simpl. now rewrite Hst1. }
  destruct (assemble net place kw _ details e1) as [b e2] eqn:Ha.
  apply assemble_spec in Ha as (Hid & Hweb & Hnf & Hs2 & (_ & Hfe & _)).
  destruct (calc_completeness b <? 2)%Z eqn:Hlow.
  { intros [= <- <-]. split; [|split; [|exact I]].
    - eapply same_store_trans; [exact Hs1|].
      eapply same_store_trans; [exact Hs2 | apply same_store_with_stats].
    - simpl. rewrite Hfe. now rewrite Hst1. }
  intros [= <- <-]. split; [|split].
  - eapply same_store_trans; eassumption.
  - rewrite Hfe. now rewrite Hst1.
  - apply Z.ltb_ge in Hlow.
    constructor; simpl; try assumption.
    + now rewrite Hid.
    + now rewrite Hid.
    + rewrite Hweb, <- (domain_seen_same_store _ e e1 Hs1). exact Hseen.
    + symmetry. apply calc_completeness_set_score.
Qed.

End Frames.

Section Results.
Context `{Runtime}.
Variable net : Internet.

Lemma accepted_same_store (place : Place) (e e' : Engine) (b : Business) :
  same_store e e' -> accepted place e b -> accepted place e' b.
Proof.
  intros Hs [H1 H2 H3 H4 H5 H6 H7]. constructor; try assumption.
  - destruct Hs as [Hb _]. now rewrite Hb.
  - now rewrite (domain_seen_same_store _ e e' Hs).
Qed.

(** One search result either leaves the store as it is or registers one
    accepted business; the count of fake emails does not move. *)
Lemma process_result_spec (kw : string) (e : Engine) (place : Place) :
  fake_emails (stats (process_result net kw e place)) = fake_emails (stats e)
  /\ (same_store e (process_result net kw e place)
      \/ exists b e1,
           same_store e e1 /\ accepted place e1 b
           /\ fake_emails (stats e1) = fake_emails (stats e)
           /\ process_result net kw e place
              = register b (_get_domain (website b)) e1).
Proof.
  unfold process_result.
  destruct (_process_place net place kw (with_stats inc_total_searched e))
    as [[b|] e1] eqn:Hp;
    apply process_place_spec in Hp as (Hs & Hfe & Hacc); simpl in Hfe.
  - split; [exact Hfe|]. right. exists b, e1.
    split; [exact Hs|]. split; [|split; [exact Hfe | reflexivity]].
    eapply accepted_same_store; [exact Hs|].
    eapply accepted_same_store; [|exact Hacc].
    split; reflexivity.
  - split; [exact Hfe|]. left. exact Hs.
Qed.

End Results.

(* ===================================================================== *)
(** * Invariants of a run                                                 *)
(* ===================================================================== *)

Section Preserved.
Context `{Runtime}.
Variable net : Internet.
Variable Inv : Engine -> Prop.
Hypothesis Inv_emit : forall ev e, Inv e -> Inv (emit ev e).
Hypothesis Inv_quota : forall e, Inv e -> Inv (set_quota_exceeded e).
Hypothesis Inv_result : forall kw e place, Inv e -> Inv (process_result net kw e place).

Lemma nearby_search_preserves la ln kw token reply e :
  Inv e -> Inv (snd (nearby_search la ln kw token reply e)).
Proof.
  intros Hi. unfold nearby_search.
  destruct reply as [|data]; simpl; [now apply Inv_emit|].
  destruct (status data) as [st|]; [|now apply Inv_emit].
  destruct (String.eqb st "OVER_QUERY_LIMIT"); simpl;
    [apply Inv_quota|]; now apply Inv_emit.
Qed.

Lemma fold_results_preserves kw places e :
  Inv e -> Inv (fold_left (process_result net kw) places e).
Proof.
  revert e. induction places as [|p ps IH]; intros e Hi; simpl; [exact Hi|].
  apply IH. now apply Inv_result.
Qed.

Lemma search_turn_preserves city_data kw token reply e :
  Inv e ->
  match search_turn net city_data kw token reply e with
  | Left e' => Inv e'
  | Again _ e' => Inv e'
  end.
Proof.
  intros Hi. unfold search_turn.
  pose proof (nearby_search_preserves (lat city_data) (lng city_data) kw token reply e Hi)
    as Hn.
  destruct (nearby_search _ _ kw token reply e) as [resp e1]. simpl in Hn.
  destruct (String.eqb (default "ERROR" (status resp)) "OVER_QUERY_LIMIT").
  - destruct (quota_exceeded (emit (Sleep QUOTA_COOLDOWN) e1)); now apply Inv_emit.
  - destruct (negb (status_ok (default "ERROR" (status resp)))); [exact Hn|].
    pose proof (fold_results_preserves kw (results resp) e1 Hn) as Hf.
    destruct (next_page_token resp) as [tok|]; [|exact Hf].
    destruct (Py.truthy tok); [now apply Inv_emit | exact Hf].
Qed.

Lemma search_loop_preserves city_data kw token script e :
  Inv e -> Inv (snd (search_loop net city_data kw token script e)).
Proof.
  revert token e. induction script as [|reply rest IH]; intros token e Hi;
    cbn [search_loop].
  - pose proof (search_turn_preserves city_data kw token NearbyFailed e Hi) as Ht.
    destruct (search_turn net city_data kw token NearbyFailed e); exact Ht.
  - pose proof (search_turn_preserves city_data kw token reply e Hi) as Ht.
    destruct (search_turn net city_data kw token reply e); [exact Ht|].
    now apply IH.
Qed.

Lemma visit_preserves min_results kw city_data r :
  Inv (engine r) ->
  match visit net min_results kw city_data r with
  | Next r' => Inv (engine r')
  | Return r' => Inv (engine r')
  end.
Proof.
  intros Hi. unfold visit, _search_location.
  pose proof (search_loop_preserves city_data kw None (replies r) (engine r) Hi) as Hs.
  destruct (search_loop net city_data kw None (replies r) (engine r)) as [rest e].
  simpl in Hs. destruct (_ <=? _)%Z; exact Hs.
Qed.

Lemma cities_loop_preserves min_results kw cs r :
  Inv (engine r) ->
  match cities_loop net min_results kw cs r with
  | Next r' => Inv (engine r')
  | Return r' => Inv (engine r')
  end.
Proof.
  revert r. induction cs as [|c cs IH]; intros r Hi; simpl; [exact Hi|].
  pose proof (visit_preserves min_results kw c r Hi) as Hv.
  destruct (visit net min_results kw c r); [now apply IH | exact Hv].
Qed.

Lemma keywords_loop_preserves min_results ks cs r :
  Inv (engine r) ->
  match keywords_loop net min_results ks cs r with
  | Next r' => Inv (engine r')
  | Return r' => Inv (engine r')
  end.
Proof.
  revert r. induction ks as [|k ks IH]; intros r Hi; simpl; [exact Hi|].
  pose proof (cities_loop_preserves min_results k cs
                {| replies := replies r; engine := engine r;
                   job := set_current_keyword k (job r) |} Hi) as Hc.
  destruct (cities_loop net min_results k cs _); [now apply IH | exact Hc].
Qed.

(** An invariant of the engine state that its elementary updates keep
    holds when [run] returns. *)
Lemma run_preserves config r :
  Inv (engine r) -> Inv (engine (snd (run net config r))).
Proof.
  intros Hi. unfold run.
  destruct (resolve_cities config) as [|c cs]; [exact Hi|].
  pose proof (keywords_loop_preserves
                (default DEFAULT_MIN_BUSINESSES (minResults config))
                (keywords config) (c :: cs) r Hi) as Hk.
  destruct (keywords_loop net _ (keywords config) (c :: cs) r); exact Hk.
Qed.

(** The list that [run] returns is the sorted store, or is empty. *)
Lemma run_result config r :
  fst (run net config r) = _sorted (engine (snd (run net config r)))
  \/ (fst (run net config r) = [] /\ resolve_cities config = []).
Proof.
  unfold run. destruct (resolve_cities config) as [|c cs]; [right; now split|].
  left. destruct (keywords_loop net _ (keywords config) (c :: cs) r); reflexivity.
Qed.

End Preserved.

(* ===================================================================== *)
(** * Dict and sort lemmas                                                *)
(* ===================================================================== *)

Lemma dict_get_none_not_key {V : Type} (d : list (string * V)) (key : string) :
  dict_get d key = None -> ~ In key (map fst d).
Proof.
  induction d as [|[k v] d IH]; simpl; [tauto|].
  destruct (String.eqb k key) eqn:Hk; [discriminate|].
  intros Hg [Heq | Hin]; [|now apply IH].
  subst k. rewrite String.eqb_refl in Hk. discriminate.
Qed.

Lemma dict_set_new {V : Type} (d : list (string * V)) (key : string) (v : V) :
  dict_get d key = None -> dict_set d key v = (d ++ [(key, v)])%list.
Proof.
  induction d as [|[k v0] d IH]; simpl; [reflexivity|].
  destruct (String.eqb k key); [discriminate|].
  intros Hg. now rewrite IH.
Qed.

Lemma dict_has_false {V : Type} (d : list (string * V)) (key : string) :
  dict_has d key = false -> dict_get d key = None.
Proof. unfold dict_has. destruct (dict_get d key); [discriminate | reflexivity]. Qed.

Lemma dict_values_app {V : Type} (d1 d2 : list (string * V)) :
  dict_values (d1 ++ d2)%list = (dict_values d1 ++ dict_values d2)%list.
Proof. apply map_app. Qed.

Lemma insert_by_key_perm (b : Business) (l : list Business) :
  Permutation (insert_by_key b l) (b :: l).
Proof.
  induction l as [|c l IH]; simpl; [apply Permutation_refl|].
  destruct (key_le (sort_key b) (sort_key c)); [apply Permutation_refl|].
  eapply Permutation_trans; [apply perm_skip, IH | apply perm_swap].
Qed.

Lemma sort_by_key_perm (l : list Business) : Permutation (sort_by_key l) l.
Proof.
  induction l as [|b l IH]; simpl; [apply Permutation_refl|].
  eapply Permutation_trans; [apply insert_by_key_perm | now apply perm_skip].
Qed.

Lemma sorted_Forall (P : Business -> Prop) (e : Engine) :
  Forall P (dict_values (businesses e)) -> Forall P (_sorted e).
Proof.
  intros Hf. unfold _sorted.
  eapply Permutation_Forall; [|exact Hf].
  apply Permutation_sym, sort_by_key_perm.
Qed.

(* ===================================================================== *)
(** * Threshold and fake-email invariants                                 *)
(* ===================================================================== *)

Section Accepted.
Context `{Runtime}.
Variable net : Internet.

Lemma register_values (b : Business) (d : option string) (e : Engine) :
  dict_has (businesses e) (google_place_id b) = false ->
  businesses (register b d e) = (businesses e ++ [(google_place_id b, b)])%list.
Proof. intros Hn. simpl. now apply dict_set_new, dict_has_false. Qed.

(** A property of businesses that every accepted candidate has holds of
    every business in the store. *)
Lemma accepted_property_kept (P : Business -> Prop) :
  (forall place e b, accepted place e b -> P b) ->
  forall kw e place,
    Forall P (dict_values (businesses e)) ->
    Forall P (dict_values (businesses (process_result net kw e place))).
Proof.
  intros HP kw e place Hf.
  destruct (process_result_spec net kw e place) as [_ [[Hb _] | (b & e1 & [Hb _] & Hacc & _ & ->)]].
  - now rewrite Hb.
  - rewrite register_values by apply Hacc.
    rewrite dict_values_app, Hb. apply Forall_app. split; [exact Hf|].
    constructor; [|constructor]. simpl. eapply HP, Hacc.
Qed.

Lemma threshold_kept_result kw e place :
  threshold_kept e -> threshold_kept (process_result net kw e place).
Proof.
  apply accepted_property_kept. intros place' e' b Hacc.
  split; [apply Hacc | apply Hacc].
Qed.

Lemma no_fake_email_kept_result kw e place :
  no_fake_email_kept e -> no_fake_email_kept (process_result net kw e place).
Proof.
  intros [Hz Hf]. split.
  - destruct (process_result_spec net kw e place) as [Hfe _]. now rewrite Hfe.
  - revert Hf. apply accepted_property_kept. intros place' e' b Hacc. apply Hacc.
Qed.

Lemma process_place_below_threshold place kw e pid details e1 b e2 :
  place_id place = Some pid ->
  Py.truthy pid = true ->
  dict_has (businesses e) pid = false ->
  get_details net pid e = (details, e1) ->
  domain_seen (_get_domain (default "" (d_website details))) e1 = false ->
  assemble net place kw pid details e1 = (b, e2) ->
  (calc_completeness b < 2)%Z ->
  _process_place net place kw e = (None, with_stats inc_validation_failed e2).
Proof.
  intros Hp Ht Hn Hd Hs Ha Hlow. unfold _process_place.
  rewrite Hp. simpl default. rewrite Ht, Hn. simpl.
  rewrite Hd, Hs, Ha.
  apply Z.ltb_lt in Hlow. now rewrite Hlow.
Qed.

(** C2.  Whatever the configuration and the network, every business that
    [run] returns, and every business in the store when it returns, has
    a completeness score of at least 2, equal to the count over its
    contact fields; each search result keeps the store that way; a
    candidate that [_process_place] returns is above the threshold; and a
    candidate that passes both duplicate checks with a score below 2 is
    returned as [None] and counted as a validation failure. *)
Theorem threshold_invariant :
  (forall config script,
      Forall above_threshold (fst (run net config (start script)))
      /\ threshold_kept (engine (snd (run net config (start script)))))
  /\ (forall kw e place,
        threshold_kept e -> threshold_kept (process_result net kw e place))
  /\ (forall place kw e b e',
        _process_place net place kw e = (Some b, e') -> above_threshold b)
  /\ (forall place kw e pid details e1 b e2,
        place_id place = Some pid ->
        Py.truthy pid = true ->
        dict_has (businesses e) pid = false ->
        get_details net pid e = (details, e1) ->
        domain_seen (_get_domain (default "" (d_website details))) e1 = false ->
        assemble net place kw pid details e1 = (b, e2) ->
        (calc_completeness b < 2)%Z ->
        _process_place net place kw e = (None, with_stats inc_validation_failed e2)
        /\ validation_failed (stats (snd (_process_place net place kw e)))
           = S (validation_failed (stats e))).
Proof.
  split; [|split; [|split]].
  - intros config script.
    assert (Hk : threshold_kept (engine (snd (run net config (start script))))).
    { apply (run_preserves net threshold_kept); try (intros; assumption).
      - apply threshold_kept_result.
      - constructor. }
    split; [|exact Hk].
    destruct (run_result net config (start script)) as [-> | [-> _]];
      [now apply sorted_Forall | constructor].
  - apply threshold_kept_result.
  - intros place kw e b e' Hp.
    apply process_place_spec in Hp as (_ & _ & Hacc).
    split; apply Hacc.
  - intros place kw e pid details e1 b e2 Hp Ht Hn Hd Hs Ha Hlow.
    rewrite (process_place_below_threshold place kw e pid details e1 b e2) by assumption.
    split; [reflexivity|]. simpl.
    apply assemble_spec in Ha as (_ & _ & _ & _ & (_ & _ & Hv)).
    pose proof (get_details_frame net pid e) as [_ Hst]. rewrite Hd in Hst. simpl in Hst.
    now rewrite Hv, Hst.
Qed.

(** C10.  The email that reaches the fake-email test of [_process_place]
    is the one [enrich] hands on, and it is never fake; so in every run
    the counter of fake emails stays 0 and no business that is returned
    or stored has a fake email. *)
Theorem fake_email_branch_unreachable :
  (forall site e, is_fake_email (fst (fst (enrich net site e))) = false)
  /\ (forall config script,
        fake_emails (stats (engine (snd (run net config (start script))))) = 0%nat
        /\ Forall email_not_fake (fst (run net config (start script)))
        /\ Forall email_not_fake
             (dict_values (businesses (engine (snd (run net config (start script))))))).
Proof.
  split.
  - intros site e. destruct (enrich net site e) as [[mail source] e'] eqn:He.
    now apply enrich_spec in He as [Hnf _].
  - intros config script.
    assert (Hk : no_fake_email_kept (engine (snd (run net config (start script))))).
    { apply (run_preserves net no_fake_email_kept); try (intros ? ? Hi; exact Hi).
      - intros e Hi; exact Hi.
      - apply no_fake_email_kept_result.
      - split; [reflexivity | constructor]. }
    destruct Hk as [Hz Hf]. split; [exact Hz|]. split; [|exact Hf].
    destruct (run_result net config (start script)) as [-> | [-> _]];
      [now apply sorted_Forall | constructor].
Qed.

End Accepted.

(* ===================================================================== *)
(** * Dedup invariant                                                     *)
(* ===================================================================== *)

Section Dedup.
Context `{Runtime}.
Variable net : Internet.

Lemma domains_of_app (l1 l2 : list Business) :
  domains_of (l1 ++ l2)%list = (domains_of l1 ++ domains_of l2)%list.
Proof. apply flat_map_app. Qed.

Lemma filed_ids (d : list (string * Business)) :
  Forall (fun kv => google_place_id (snd kv) = fst kv) d ->
  map google_place_id (dict_values d) = map fst d.
Proof.
  induction 1 as [|[k b] d Hk _ IH]; simpl; [reflexivity|].
  simpl in Hk. now rewrite Hk, IH.
Qed.

Lemma dedup_kept_new : dedup_kept new_engine.
Proof.
  constructor; simpl; try constructor. intros d [].
Qed.

Lemma dedup_kept_same_store (e e' : Engine) :
  same_store e e' -> dedup_kept e -> dedup_kept e'.
Proof.
  intros [Hb Hs] [H1 H2 H3 H4].
  constructor; rewrite ?Hb, ?Hs; assumption.
Qed.

Lemma domain_not_seen (d : string) (e : Engine) :
  domain_seen (Some d) e = false -> Py.truthy d = true ->
  seen_domains e !! d = None.
Proof.
  unfold domain_seen. intros Hs Ht. rewrite Ht in Hs. simpl in Hs.
  apply bool_decide_eq_false in Hs.
  destruct (seen_domains e !! d) eqn:Hl; [|reflexivity].
  exfalso. apply Hs. now exists s.
Qed.

(** Registering an accepted business keeps the invariant. *)
Lemma dedup_kept_register (place : Place) (b : Business) (e : Engine) :
  dedup_kept e -> accepted place e b ->
  dedup_kept (register b (_get_domain (website b)) e).
Proof.
  intros [Hfiled Hids Hdoms Hidx] Hacc.
  pose proof (acc_pid_new _ _ _ Hacc) as Hnew.
  pose proof (acc_domain_new _ _ _ Hacc) as Hdn.
  assert (Hfresh : ~ In (google_place_id b) (map google_place_id (dict_values (businesses e)))).
  { rewrite (filed_ids _ Hfiled). now apply dict_get_none_not_key, dict_has_false. }
  constructor.
  - rewrite register_values by exact Hnew.
    apply Forall_app. split; [exact Hfiled|]. now constructor.
  - rewrite register_values by exact Hnew.
    rewrite dict_values_app, map_app. simpl.
    apply NoDup_app. split; [exact Hids|]. split.
    + intros x Hx Hx'. apply list_elem_of_In in Hx, Hx'.
      destruct Hx' as [<- | []]. now apply Hfresh.
    + apply NoDup_singleton.
  - rewrite register_values by exact Hnew.
    rewrite dict_values_app, domains_of_app. simpl.
    apply NoDup_app. split; [exact Hdoms|]. split.
    + intros x Hx Hx'. apply list_elem_of_In in Hx, Hx'.
      rewrite app_nil_r in Hx'. unfold domain_key in Hx'.
      destruct (_get_domain (website b)) as [dom|]; [|destruct Hx'].
      destruct (Py.truthy dom) eqn:Ht; [|destruct Hx'].
      destruct Hx' as [<- | []].
      apply Hidx in Hx. rewrite (domain_not_seen _ _ Hdn Ht) in Hx.
      now destruct Hx.
    + rewrite app_nil_r. destruct (domain_key b); [apply NoDup_singleton | constructor].
  - intros d. rewrite register_values by exact Hnew.
    rewrite dict_values_app, domains_of_app. simpl. rewrite app_nil_r.
    intros Hin. apply in_app_or in Hin. unfold domain_key in Hin.
    destruct (_get_domain (website b)) as [dom|].
    + destruct (Py.truthy dom).
      * destruct Hin as [Hin | [<- | []]].
        -- apply lookup_insert_is_Some'. right. now apply Hidx.
        -- apply lookup_insert_is_Some'. now left.
      * destruct Hin as [Hin | []]. now apply Hidx.
    + destruct Hin as [Hin | []]. now apply Hidx.
Qed.

Lemma dedup_kept_result kw e place :
  dedup_kept e -> dedup_kept (process_result net kw e place).
Proof.
  intros Hk.
  destruct (process_result_spec net kw e place)
    as [_ [Hs | (b & e1 & Hs & Hacc & _ & ->)]].
  - now apply (dedup_kept_same_store e).
  - apply (dedup_kept_register place); [|exact Hacc].
    now apply (dedup_kept_same_store e).
Qed.

Lemma process_place_known_id place kw e :
  dict_has (businesses e) (default "" (place_id place)) = true ->
  _process_place net place kw e = (None, with_stats inc_duplicates e).
Proof.
  intros Hh. unfold _process_place. rewrite Hh.
  now rewrite Bool.orb_true_r.
Qed.

Lemma process_place_known_domain place kw e pid details e1 :
  place_id place = Some pid ->
  Py.truthy pid = true ->
  dict_has (businesses e) pid = false ->
  get_details net pid e = (details, e1) ->
  domain_seen (_get_domain (default "" (d_website details))) e1 = true ->
  _process_place net place kw e = (None, with_stats inc_duplicates e1).
Proof.
  intros Hp Ht Hn Hd Hs. unfold _process_place.
  rewrite Hp. simpl default. rewrite Ht, Hn. simpl.
  now rewrite Hd, Hs.
Qed.

(** C1, as amended.  In every run, no place id and no dedup key occurs
    twice among the businesses that [run] returns, nor in the store when
    it returns; the store starts that way and every search result keeps
    it so.  A candidate whose place id is in the store is returned as
    [None] and counted as a duplicate before any lookup; so is one whose
    details give a key that is in the domain index; in both cases the
    store is left as it was.  The key of a website written with http://
    or https:// is its lower-cased network location (the host, with the
    user info and the port the URL may have), without its leading www.
    when it has one and no other www. follows.  (A business without a
    website, or whose website yields an empty key, has no key.) *)
Theorem dedup_invariant :
  (forall config script,
      NoDup (map google_place_id (fst (run net config (start script))))
      /\ NoDup (domains_of (fst (run net config (start script))))
      /\ dedup_kept (engine (snd (run net config (start script)))))
  /\ dedup_kept new_engine
  /\ (forall kw e place, dedup_kept e -> dedup_kept (process_result net kw e place))
  /\ (forall place kw e,
        dict_has (businesses e) (default "" (place_id place)) = true ->
        _process_place net place kw e = (None, with_stats inc_duplicates e)
        /\ duplicates (stats (snd (_process_place net place kw e)))
           = S (duplicates (stats e))
        /\ businesses (process_result net kw e place) = businesses e)
  /\ (forall place kw e pid details e1,
        place_id place = Some pid ->
        Py.truthy pid = true ->
        dict_has (businesses e) pid = false ->
        get_details net pid e = (details, e1) ->
        domain_seen (_get_domain (default "" (d_website details))) e1 = true ->
        _process_place net place kw e = (None, with_stats inc_duplicates e1)
        /\ duplicates (stats (snd (_process_place net place kw e)))
           = S (duplicates (stats e))
        /\ businesses (process_result net kw e place) = businesses e)
  /\ (forall w n t : string,
        Py.startswith w "http://" = true \/ Py.startswith w "https://" = true ->
        urlparse_netloc w = Some n ->
        Py.lower n = t \/ Py.lower n = "www." ++ t ->
        Py.contains "www." t = false ->
        _get_domain w = Some t).
Proof.
  split; [|split; [|split; [|split; [|split]]]].
  - intros config script.
    assert (Hk : dedup_kept (engine (snd (run net config (start script))))).
    { apply (run_preserves net dedup_kept).
      - intros ev e. apply dedup_kept_same_store, same_store_emit.
      - intros e. apply dedup_kept_same_store, same_store_quota.
      - apply dedup_kept_result.
      - apply dedup_kept_new. }
    split; [|split; [|exact Hk]].
    + destruct (run_result net config (start script)) as [-> | [-> _]]; [|constructor].
      unfold _sorted.
      eapply NoDup_Permutation_proper; [|apply (dk_ids _ Hk)].
      apply Permutation_map, sort_by_key_perm.
    + destruct (run_result net config (start script)) as [-> | [-> _]]; [|constructor].
      unfold _sorted.
      eapply NoDup_Permutation_proper; [|apply (dk_domains _ Hk)].
      apply Permutation_flat_map, sort_by_key_perm.
  - apply dedup_kept_new.
  - apply dedup_kept_result.
  - intros place kw e Hh. split; [now apply process_place_known_id|].
    split; [now rewrite process_place_known_id|].
    unfold process_result.
    rewrite (process_place_known_id place kw (with_stats inc_total_searched e)) by exact Hh.
    reflexivity.
  - intros place kw e pid details e1 Hp Ht Hn Hd Hs.
    split; [now apply (process_place_known_domain place kw e pid details e1)|].
    split.
    { rewrite (process_place_known_domain place kw e pid details e1) by assumption.
      pose proof (get_details_frame net pid e) as [_ Hst]. rewrite Hd in Hst.
      simpl in Hst |- *. now rewrite Hst. }
    unfold process_result.
    pose proof (process_place_spec net place kw (with_stats inc_total_searched e)) as Hspec.
    destruct (_process_place net place kw (with_stats inc_total_searched e))
      as [[b|] e2] eqn:Hpp.
    + exfalso.
      destruct (Hspec _ _ eq_refl) as (_ & _ & Hacc).
      unfold _process_place in Hpp. rewrite Hp in Hpp. simpl default in Hpp.
      simpl businesses in Hpp. rewrite Ht, Hn in Hpp. simpl in Hpp.
      pose proof (get_details_frame net pid (with_stats inc_total_searched e)) as [Hs1 _].
      pose proof (get_details_frame net pid e) as [Hs0 _].
      destruct (get_details net pid (with_stats inc_total_searched e)) as [details' e1'] eqn:Hd'.
      assert (Hsame : details' = details /\ seen_domains e1' = seen_domains e1).
      { unfold get_details in Hd, Hd'. simpl in Hd'.
        destruct (details_at net (List.length (trace e)) pid) as [| |[d|]];
          inversion Hd; inversion Hd'; subst; split; reflexivity. }
      destruct Hsame as [-> Hsd].
      assert (Hseen : domain_seen (_get_domain (default "" (d_website details))) e1' = true).
      { unfold domain_seen in *. now rewrite Hsd. }
      rewrite Hseen in Hpp. discriminate Hpp.
    + destruct (Hspec _ _ eq_refl) as ([Hb _] & _). exact Hb.
  - intros w n t Hscheme Hn Hlow Hwww.
    assert (Hw : Py.startswith w "http" = true /\ w <> "").
    { destruct Hscheme as [Hp | Hp]; destruct (prefix_split _ _ Hp) as [x ->];
        (split; [destruct x; reflexivity | discriminate]). }
    destruct Hw as [Hhttp Hne].
    rewrite (get_domain_of_netloc w n); [|now rewrite Hhttp | exact Hne].
    f_equal. destruct Hlow as [-> | ->].
    + now apply replace_absent.
    + rewrite replace_leading_www. now apply replace_absent.
Qed.

End Dedup.

Lemma dedup_invariant_witness :
  place_id acme_second = Some "id-2"
  /\ dict_has (businesses after_acme_first) "id-2" = false
  /\ _process_place acme_net acme_second "tools" after_acme_first
     = (None,
        with_stats inc_duplicates (snd (get_details acme_net "id-2" after_acme_first)))
  /\ duplicates (stats (snd (_process_place acme_net acme_second "tools" after_acme_first)))
     = S (duplicates (stats after_acme_first))
  /\ businesses (process_result acme_net "tools" after_acme_first acme_second)
     = businesses after_acme_first.
Proof.
  split; [reflexivity|]. split; [reflexivity|].
  apply (proj1 (proj2 (proj2 (proj2 (proj2 (dedup_invariant acme_net)))))
           acme_second "tools" after_acme_first "id-2" acme_details);
    reflexivity.
Defined.

(** C1 as stated fails.  Two listings give the website of one host, the
    second with the port of https written out.  The code keys a website
    by its network location, port included, so the two keys differ and
    both listings are stored and returned: the result holds two
    businesses with the one website domain acme.com. *)
Lemma website_domain_counterexample :
  ~ NoDup (omap (fun b => Spec.website_domain (website b))
             (fst (run port_net twins_config (start [NearbyJson acme_page])))).
Proof.
  assert (Hd : omap (fun b => Spec.website_domain (website b))
                 (fst (run port_net twins_config (start [NearbyJson acme_page])))
               = ["acme.com"; "acme.com"]) by (vm_compute; reflexivity).
  rewrite Hd. intros Hn. apply NoDup_cons in Hn as [Hin _].
  apply Hin. apply list_elem_of_here.
Qed.

(* ===================================================================== *)
(** * Order of the keys                                                   *)
(* ===================================================================== *)

Lemma ascii_compare_refl (c : ascii) : Ascii.compare c c = Eq.
Proof. unfold Ascii.compare. apply N.compare_refl. Qed.

Lemma string_compare_refl (s : string) : String.compare s s = Eq.
Proof.
  induction s as [|c s IH]; simpl; [reflexivity|].
  now rewrite ascii_compare_refl.
Qed.

Lemma ascii_compare_eq (a b : ascii) : Ascii.compare a b = Eq -> a = b.
Proof. apply Ascii.compare_eq_iff. Qed.

Lemma ascii_compare_lt_trans (a b c : ascii) :
  Ascii.compare a b = Lt -> Ascii.compare b c = Lt -> Ascii.compare a c = Lt.
Proof.
  unfold Ascii.compare. rewrite !N.compare_lt_iff. apply N.lt_trans.
Qed.

Lemma string_compare_lt_trans (s1 s2 s3 : string) :
  String.compare s1 s2 = Lt -> String.compare s2 s3 = Lt -> String.compare s1 s3 = Lt.
Proof.
  revert s2 s3. induction s1 as [|a s1 IH]; intros [|b s2] [|c s3]; simpl;
    try discriminate; try reflexivity.
  destruct (Ascii.compare a b) eqn:Hab; try discriminate;
    destruct (Ascii.compare b c) eqn:Hbc; try discriminate; intros H12 H23.
  - apply ascii_compare_eq in Hab, Hbc. subst. rewrite ascii_compare_refl.
    now apply (IH s2).
  - apply ascii_compare_eq in Hab. subst. now rewrite Hbc.
  - apply ascii_compare_eq in Hbc. subst. now rewrite Hab.
  - now rewrite (ascii_compare_lt_trans a b c).
Qed.

Lemma string_leb_refl (s : string) : String.leb s s = true.
Proof. unfold String.leb. now rewrite string_compare_refl. Qed.

Lemma string_leb_cases (s1 s2 : string) :
  String.leb s1 s2 = true <-> String.compare s1 s2 = Lt \/ s1 = s2.
Proof.
  unfold String.leb. split.
  - destruct (String.compare s1 s2) eqn:Hc; try discriminate; intros _.
    + right. now apply String.compare_eq_iff.
    + now left.
  - intros [-> | ->]; [reflexivity|]. now rewrite string_compare_refl.
Qed.

Lemma string_leb_trans (s1 s2 s3 : string) :
  String.leb s1 s2 = true -> String.leb s2 s3 = true -> String.leb s1 s3 = true.
Proof.
  rewrite !string_leb_cases. intros [H12 | ->] [H23 | ->]; auto.
  left. now apply (string_compare_lt_trans s1 s2 s3).
Qed.

Lemma key_le_refl (k : Z * string) : key_le k k = true.
Proof.
  unfold key_le. rewrite Z.eqb_refl, string_leb_refl. apply Bool.orb_true_r.
Qed.

Lemma key_le_spec (k1 k2 : Z * string) :
  key_le k1 k2 = true <->
  (fst k1 < fst k2)%Z \/ (fst k1 = fst k2 /\ String.leb (snd k1) (snd k2) = true).
Proof.
  unfold key_le.
  rewrite Bool.orb_true_iff, Bool.andb_true_iff, Z.ltb_lt, Z.eqb_eq. reflexivity.
Qed.

Lemma key_le_trans (k1 k2 k3 : Z * string) :
  key_le k1 k2 = true -> key_le k2 k3 = true -> key_le k1 k3 = true.
Proof.
  rewrite !key_le_spec. intros [H12 | [H12 L12]] [H23 | [H23 L23]].
  - left. lia.
  - left. lia.
  - left. lia.
  - right. split; [lia|]. now apply (string_leb_trans _ (snd k2)).
Qed.

Lemma key_le_total (k1 k2 : Z * string) :
  key_le k1 k2 = false -> key_le k2 k1 = true.
Proof.
  intros Hn. apply key_le_spec.
  destruct (Z.lt_trichotomy (fst k1) (fst k2)) as [Hlt | [Heq | Hgt]].
  - exfalso. enough (key_le k1 k2 = true) by congruence.
    apply key_le_spec. now left.
  - right. split; [now symmetry|].
    destruct (String.leb_total (snd k1) (snd k2)) as [Hl | Hl]; [|exact Hl].
    exfalso. enough (key_le k1 k2 = true) by congruence.
    apply key_le_spec. now right.
  - now left.
Qed.

(* ===================================================================== *)
(** * The sort                                                            *)
(* ===================================================================== *)

Lemma insert_by_key_sorted (b : Business) (l : list Business) :
  StronglySorted before_or_tied l -> StronglySorted before_or_tied (insert_by_key b l).
Proof.
  induction 1 as [|c l Hs IH Hc]; simpl.
  - constructor; constructor.
  - destruct (key_le (sort_key b) (sort_key c)) eqn:Hbc.
    + constructor; [now constructor|].
      constructor; [exact Hbc|].
      eapply List.Forall_impl; [|exact Hc].
      intros x Hx. unfold before_or_tied in *.
      now apply (key_le_trans _ (sort_key c)).
    + constructor; [exact IH|].
      eapply Permutation_Forall; [apply Permutation_sym, insert_by_key_perm|].
      constructor; [|exact Hc].
      now apply key_le_total.
Qed.

Lemma sort_by_key_sorted (l : list Business) :
  StronglySorted before_or_tied (sort_by_key l).
Proof.
  induction l as [|b l IH]; simpl; [constructor | now apply insert_by_key_sorted].
Qed.

(** In a sorted list an earlier entry may stand before a later one. *)
Lemma sorted_lookup (l : list Business) (i j : nat) (A B : Business) :
  StronglySorted before_or_tied l ->
  l !! i = Some A -> l !! j = Some B -> (i < j)%nat -> before_or_tied A B.
Proof.
  intros Hs. revert i j. induction Hs as [|c l Hs IH Hc]; intros i j Hi Hj Hlt.
  - discriminate Hi.
  - destruct j as [|j]; [lia|]. destruct i as [|i]; simpl in Hi, Hj.
    + injection Hi as <-. rewrite Forall_forall in Hc.
      apply Hc. now apply list_elem_of_lookup_2 with j.
    + apply (IH i j); [assumption | assumption | lia].
Qed.

(** The sort is stable: the businesses with a given key keep the order
    they had before the sort. *)
Lemma insert_by_key_with_key (k : Z * string) (b : Business) (l : list Business) :
  with_key k (insert_by_key b l) = with_key k (b :: l).
Proof.
  induction l as [|c l IH]; [reflexivity|].
  simpl insert_by_key.
  destruct (key_le (sort_key b) (sort_key c)) eqn:Hbc; [reflexivity|].
  unfold with_key in *. simpl in *. rewrite IH.
  destruct (key_le (sort_key b) k && key_le k (sort_key b)) eqn:Hb; [|reflexivity].
  destruct (key_le (sort_key c) k && key_le k (sort_key c)) eqn:Hc; [|reflexivity].
  exfalso. apply andb_prop in Hb as [Hb1 _]. apply andb_prop in Hc as [_ Hc2].
  rewrite (key_le_trans _ _ _ Hb1 Hc2) in Hbc. discriminate.
Qed.

Lemma sort_by_key_stable (k : Z * string) (l : list Business) :
  with_key k (sort_by_key l) = with_key k l.
Proof.
  induction l as [|b l IH]; [reflexivity|].
  simpl sort_by_key. rewrite insert_by_key_with_key.
  unfold with_key in *. simpl. now rewrite IH.
Qed.

Lemma run_result_sorted `{Runtime} (net : Internet) (config : Config) (r : Run) :
  StronglySorted before_or_tied (fst (run net config r)).
Proof.
  destruct (run_result net config r) as [-> | [-> _]]; [|constructor].
  apply sort_by_key_sorted.
Qed.

Lemma run_result_from_start `{Runtime} (net : Internet) (config : Config)
    (script : list nearby_reply) :
  fst (run net config (start script))
  = _sorted (engine (snd (run net config (start script)))).
Proof.
  destruct (run_result net config (start script)) as [Hr | [Hr Hc]]; [exact Hr|].
  rewrite Hr. unfold run. rewrite Hc. reflexivity.
Qed.

(** C3 as stated fails.  The provider lists "Acme" before "ACME"; both
    get the same score and the same lower-cased name, and the stable sort
    leaves them in the order of discovery.  The statement asks of each
    that it stand before the other. *)
Lemma ordering_ties_counterexample :
  map business_name (fst (run twins_net twins_config (start [NearbyJson twins_page])))
    = ["Acme"; "ACME"]
  /\ ~ ordered_as_specified
         (fst (run twins_net twins_config (start [NearbyJson twins_page]))).
Proof.
  split; [reflexivity|].
  intros Hord.
  destruct (Hord 1%nat 0%nat _ _ eq_refl eq_refl ltac:(discriminate)) as [_ Hties].
  destruct (Hties eq_refl) as [_ Hback].
  specialize (Hback eq_refl). lia.
Qed.

Section Ordering.
Context `{Runtime}.
Variable net : Internet.

(** C3, amended.  In the list that [run] returns a business with a
    greater score stands before one with a smaller score, and of two
    businesses with equal scores the one whose lower-cased name is
    strictly smaller stands first.  Businesses with the same score and
    the same lower-cased name are in the order in which they were
    discovered, which is the order of the store. *)
Theorem result_ordering (config : Config) (script : list nearby_reply) :
  (forall (i j : nat) (A B : Business),
      fst (run net config (start script)) !! i = Some A ->
      fst (run net config (start script)) !! j = Some B ->
      ((data_completeness_score B < data_completeness_score A)%Z -> (i < j)%nat)
      /\ (data_completeness_score A = data_completeness_score B ->
          String.ltb (Py.lower (business_name A)) (Py.lower (business_name B)) = true ->
          (i < j)%nat))
  /\ (forall k : Z * string,
        with_key k (fst (run net config (start script)))
        = with_key k (dict_values
                        (businesses (engine (snd (run net config (start script))))))).
Proof.
  split.
  - intros i j A B Hi Hj.
    pose proof (run_result_sorted net config (start script)) as Hs.
    assert (Hge : (j <= i)%nat -> key_le (sort_key B) (sort_key A) = true).
    { intros Hle. destruct (Nat.eq_dec j i) as [-> | Hne].
      - rewrite Hi in Hj. injection Hj as <-. apply key_le_refl.
      - apply (sorted_lookup _ j i B A Hs Hj Hi). lia. }
    split.
    + intros Hgt. destruct (Nat.lt_ge_cases i j) as [Hlt | Hle]; [exact Hlt|].
      apply Hge, key_le_spec in Hle. unfold sort_key in Hle. simpl in Hle.
      destruct Hle as [Hl | [Hl _]]; lia.
    + intros Heq Hlt. destruct (Nat.lt_ge_cases i j) as [Hij | Hle]; [exact Hij|].
      apply Hge, key_le_spec in Hle. unfold sort_key in Hle. simpl in Hle.
      destruct Hle as [Hl | [_ Hl]]; [lia|].
      unfold String.ltb in Hlt. unfold String.leb in Hl.
      rewrite String.compare_antisym in Hl.
      destruct (String.compare (Py.lower (business_name A)) (Py.lower (business_name B)));
        simpl in *; discriminate.
  - intros k. rewrite run_result_from_start. apply sort_by_key_stable.
Qed.

End Ordering.

Lemma result_ordering_witness :
  map business_name (fst (run mixed_net twins_config (start [NearbyJson mixed_page])))
    = ["acme"; "Zed Tools"]
  /\ (0 < 1)%nat.
Proof.
  split; [reflexivity|].
  pose proof (result_ordering mixed_net twins_config [NearbyJson mixed_page]) as [Hpair _].
  destruct (fst (run mixed_net twins_config (start [NearbyJson mixed_page])))
    as [|A [|B rest]] eqn:Hl; try discriminate Hl.
  destruct (Hpair 0%nat 1%nat A B eq_refl eq_refl) as [_ Hname].
  injection Hl as <- <- _.
  apply Hname; reflexivity.
Defined.

Lemma threshold_invariant_witness :
  (calc_completeness
     (fst (assemble hollow_net hollow_place "plumber" "h1" hollow_details
             (snd (get_details hollow_net "h1" new_engine)))) < 2)%Z
  /\ fst (_process_place hollow_net hollow_place "plumber" new_engine) = None
  /\ validation_failed
       (stats (snd (_process_place hollow_net hollow_place "plumber" new_engine))) = 1%nat.
Proof.
  split; [reflexivity|].
  destruct (proj2 (proj2 (proj2 (threshold_invariant hollow_net)))
              hollow_place "plumber" new_engine "h1" hollow_details
              (snd (get_details hollow_net "h1" new_engine))
              (fst (assemble hollow_net hollow_place "plumber" "h1" hollow_details
                      (snd (get_details hollow_net "h1" new_engine))))
              (snd (assemble hollow_net hollow_place "plumber" "h1" hollow_details
                      (snd (get_details hollow_net "h1" new_engine)))))
    as [Hnone Hcount]; try reflexivity.
  split; [now rewrite Hnone | exact Hcount].
Defined.

(* ===================================================================== *)
(** * Stop conditions                                                     *)
(* ===================================================================== *)

Section Stop.
Context `{Runtime}.
Variable net : Internet.







End Stop.


(* ===================================================================== *)
(** * The scenarios of the specification, run on the model                *)
(* ===================================================================== *)

(** One result with a real phone and an address, target 1. *)
Example scenario_target_reached :
  let out := run joe_net plumber_in_texas (start [NearbyJson page_with_joe]) in
  map google_place_id (fst out) = ["p1"]
  /\ stop_reason (job (snd out)) = "Target reached"
  /\ trace (engine (snd out))
     = [NearbySearch 297604 (-953698) "plumber" None; DetailsLookup "p1"; Sleep 100].
Proof. repeat split. Qed.

(** A placeholder phone and nothing else: rejected below the threshold. *)
Example scenario_below_threshold :
  let out := run hollow_net plumber_in_texas (start [NearbyJson hollow_page]) in
  fst out = []
  /\ validation_failed (stats (engine (snd out))) = 1%nat
  /\ fake_phones (stats (engine (snd out))) = 1%nat.
Proof. repeat split. Qed.

(** Two place ids, one website: the first is kept, the second counted as
    a duplicate. *)
Example scenario_same_website :
  let out := run acme_net plumber_in_texas (start [NearbyJson acme_page]) in
  map google_place_id (fst out) = ["id-1"]
  /\ duplicates (stats (engine (snd out))) = 1%nat
  /\ seen_domains (engine (snd out)) !! "acme.com" = Some "id-1".
Proof. repeat split. Qed.

(** Nothing found anywhere: all ten cities of the state are searched. *)
Example scenario_exhausted :
  let out := run joe_net plumber_in_texas
               (start (repeat (NearbyJson nothing_found) 10)) in
  fst out = []
  /\ stop_reason (job (snd out)) = "All locations exhausted"
  /\ List.length (trace (engine (snd out))) = 10%nat
  /\ replies (snd out) = [].
Proof. repeat split. Qed.

(* ===================================================================== *)
(** * Later states                                                        *)
(* ===================================================================== *)

Lemma later_refl (e : Engine) : later e e.
Proof. split; [exists []; now rewrite app_nil_r | auto]. Qed.

Lemma later_trans (e1 e2 e3 : Engine) : later e1 e2 -> later e2 e3 -> later e1 e3.
Proof.
  intros [[evs1 H1] Q1] [[evs2 H2] Q2]. split; [|auto].
  exists (evs1 ++ evs2)%list. now rewrite H2, H1, app_assoc.
Qed.

Lemma later_emit (ev : event) (e : Engine) : later e (emit ev e).
Proof. split; [now exists [ev] | auto]. Qed.

Lemma later_with_stats (f : Stats -> Stats) (e : Engine) : later e (with_stats f e).
Proof. split; [exists []; simpl; now rewrite app_nil_r | auto]. Qed.

Lemma later_quota (e : Engine) : later e (set_quota_exceeded e).
Proof. split; [exists []; simpl; now rewrite app_nil_r | auto]. Qed.

Lemma later_register (b : Business) (d : option string) (e : Engine) :
  later e (register b d e).
Proof. split; [exists []; simpl; now rewrite app_nil_r | auto]. Qed.

Section LaterFrames.
Context `{Runtime}.
Variable net : Internet.

Lemma scrape_pages_later (pages : list string) (e : Engine) :
  later e (snd (scrape_pages net pages e)).
Proof.
  revert e. induction pages as [|page rest IH]; intros e; simpl; [apply later_refl|].
  destruct (http_at net (List.length (trace e)) page) as [|code text].
  - eapply later_trans; [apply later_emit | apply IH].
  - destruct (Z.eqb code 200).
    + destruct (extract_emails text) as [|first others]; simpl.
      * eapply later_trans; [apply later_emit | apply IH].
      * apply later_emit.
    + eapply later_trans; [apply later_emit | apply IH].
Qed.

Lemma scrape_email_later (site : string) (e : Engine) :
  later e (snd (scrape_email net site e)).
Proof.
  unfold scrape_email. destruct (negb (Py.truthy site));
    [apply later_refl | apply scrape_pages_later].
Qed.

Lemma enrich_later (site : string) (e : Engine) :
  later e (snd (enrich net site e)).
Proof.
  unfold enrich. destruct (Py.truthy site); [|apply later_refl].
  pose proof (scrape_email_later site e) as Hl.
  destruct (scrape_email net site e) as [[found|] e1]; simpl in *; [|exact Hl].
  destruct (Py.truthy found); simpl; [|exact Hl].
  eapply later_trans; [exact Hl | apply later_with_stats].
Qed.

Lemma get_details_later (pid : string) (e : Engine) :
  later e (snd (get_details net pid e)).
Proof.
  unfold get_details.
  destruct (details_at net (List.length (trace e)) pid) as [| |[d|]]; simpl;
    try apply later_emit;
    (eapply later_trans; [apply later_emit | apply later_emit]).
Qed.

Lemma assemble_later place kw pid details e :
  later e (snd (assemble net place kw pid details e)).
Proof.
  unfold assemble.
  destruct (extract_city_state _) as [cty ste].
  destruct (is_fake_phone _).
  - pose proof (enrich_later (default "" (d_website details))
                  (with_stats inc_fake_phones e)) as Hl.
    destruct (enrich net _ (with_stats inc_fake_phones e)) as [[mail source] e1].
    simpl in Hl. destruct (is_fake_email mail); simpl;
      (eapply later_trans; [apply later_with_stats|]);
      [eapply later_trans; [exact Hl | apply later_with_stats] | exact Hl].
  - pose proof (enrich_later (default "" (d_website details)) e) as Hl.
    destruct (enrich net _ e) as [[mail source] e1].
    simpl in Hl. destruct (is_fake_email mail); simpl;
      [eapply later_trans; [exact Hl | apply later_with_stats] | exact Hl].
Qed.

Lemma process_place_later place kw e :
  later e (snd (_process_place net place kw e)).
Proof.
  unfold _process_place.
  destruct (negb (Py.truthy (default "" (place_id place)))
            || dict_has (businesses e) (default "" (place_id place)));
    [apply later_with_stats|].
  pose proof (get_details_later (default "" (place_id place)) e) as Hd.
  destruct (get_details net _ e) as [details e1]. simpl in Hd.
  destruct (domain_seen _ e1);
    [eapply later_trans; [exact Hd | apply later_with_stats]|].
  pose proof (assemble_later place kw (default "" (place_id place)) details e1) as Ha.
  destruct (assemble net place kw _ details e1) as [b e2]. simpl in Ha.
  destruct (calc_completeness b <? 2)%Z; simpl.
  - eapply later_trans; [exact Hd|].
    eapply later_trans; [exact Ha | apply later_with_stats].
  - eapply later_trans; [exact Hd | exact Ha].
Qed.

Lemma process_result_later kw e place : later e (process_result net kw e place).
Proof.
  unfold process_result.
  pose proof (process_place_later place kw (with_stats inc_total_searched e)) as Hp.
  destruct (_process_place net place kw (with_stats inc_total_searched e)) as [[b|] e1];
    simpl in Hp.
  - eapply later_trans; [apply later_with_stats|].
    eapply later_trans; [exact Hp | apply later_register].
  - eapply later_trans; [apply later_with_stats | exact Hp].
Qed.

End LaterFrames.

(* ===================================================================== *)
(** * Invariants that know the keyword                                    *)
(* ===================================================================== *)

Section PreservedFor.
Context `{Runtime}.
Variable net : Internet.
Variable Inv : Engine -> Prop.
Variable K : string -> Prop.
Hypothesis Inv_emit : forall ev e, Inv e -> Inv (emit ev e).
Hypothesis Inv_quota : forall e, Inv e -> Inv (set_quota_exceeded e).
Hypothesis Inv_result :
  forall kw e place, K kw -> Inv e -> Inv (process_result net kw e place).

Lemma fold_results_for kw places e :
  K kw -> Inv e -> Inv (fold_left (process_result net kw) places e).
Proof.
  intros Hk. revert e. induction places as [|p ps IH]; intros e Hi; simpl; [exact Hi|].
  apply IH. now apply Inv_result.
Qed.

Lemma search_turn_for city_data kw token reply e :
  K kw -> Inv e ->
  match search_turn net city_data kw token reply e with
  | Left e' => Inv e'
  | Again _ e' => Inv e'
  end.
Proof.
  intros Hk Hi. unfold search_turn.
  pose proof (nearby_search_preserves Inv Inv_emit Inv_quota
                (lat city_data) (lng city_data) kw token reply e Hi) as Hn.
  destruct (nearby_search _ _ kw token reply e) as [resp e1]. simpl in Hn.
  destruct (String.eqb (default "ERROR" (status resp)) "OVER_QUERY_LIMIT").
  - destruct (quota_exceeded (emit (Sleep QUOTA_COOLDOWN) e1)); now apply Inv_emit.
  - destruct (negb (status_ok (default "ERROR" (status resp)))); [exact Hn|].
    pose proof (fold_results_for kw (results resp) e1 Hk Hn) as Hf.
    destruct (next_page_token resp) as [tok|]; [|exact Hf].
    destruct (Py.truthy tok); [now apply Inv_emit | exact Hf].
Qed.

Lemma search_loop_for city_data kw token script e :
  K kw -> Inv e -> Inv (snd (search_loop net city_data kw token script e)).
Proof.
  intros Hk. revert token e.
  induction script as [|reply rest IH]; intros token e Hi; cbn [search_loop].
  - pose proof (search_turn_for city_data kw token NearbyFailed e Hk Hi) as Ht.
    destruct (search_turn net city_data kw token NearbyFailed e); exact Ht.
  - pose proof (search_turn_for city_data kw token reply e Hk Hi) as Ht.
    destruct (search_turn net city_data kw token reply e); [exact Ht|].
    now apply IH.
Qed.

Lemma visit_for min_results kw city_data r :
  K kw -> Inv (engine r) ->
  match visit net min_results kw city_data r with
  | Next r' => Inv (engine r')
  | Return r' => Inv (engine r')
  end.
Proof.
  intros Hk Hi. unfold visit, _search_location.
  pose proof (search_loop_for city_data kw None (replies r) (engine r) Hk Hi) as Hs.
  destruct (search_loop net city_data kw None (replies r) (engine r)) as [rest e].
  simpl in Hs. destruct (_ <=? _)%Z; exact Hs.
Qed.

Lemma cities_loop_for min_results kw cs r :
  K kw -> Inv (engine r) ->
  match cities_loop net min_results kw cs r with
  | Next r' => Inv (engine r')
  | Return r' => Inv (engine r')
  end.
Proof.
  intros Hk. revert r. induction cs as [|c cs IH]; intros r Hi; simpl; [exact Hi|].
  pose proof (visit_for min_results kw c r Hk Hi) as Hv.
  destruct (visit net min_results kw c r); [now apply IH | exact Hv].
Qed.

Lemma keywords_loop_for min_results ks cs r :
  (forall k, In k ks -> K k) -> Inv (engine r) ->
  match keywords_loop net min_results ks cs r with
  | Next r' => Inv (engine r')
  | Return r' => Inv (engine r')
  end.
Proof.
  revert r. induction ks as [|k ks IH]; intros r Hk Hi; simpl; [exact Hi|].
  pose proof (cities_loop_for min_results k cs
                {| replies := replies r; engine := engine r;
                   job := set_current_keyword k (job r) |}
                (Hk k (or_introl eq_refl)) Hi) as Hc.
  destruct (cities_loop net min_results k cs _); [|exact Hc].
  apply IH; [|exact Hc]. intros k' Hin. apply Hk. now right.
Qed.

(** An invariant that the elementary updates keep, for the keywords of
    the configuration, holds when [run] returns. *)
Lemma run_for config r :
  (forall k, In k (keywords config) -> K k) ->
  Inv (engine r) -> Inv (engine (snd (run net config r))).
Proof.
  intros Hk Hi. unfold run.
  destruct (resolve_cities config) as [|c cs]; [exact Hi|].
  pose proof (keywords_loop_for
                (default DEFAULT_MIN_BUSINESSES (minResults config))
                (keywords config) (c :: cs) r Hk Hi) as Hl.
  destruct (keywords_loop net _ (keywords config) (c :: cs) r); exact Hl.
Qed.

End PreservedFor.

(* ===================================================================== *)
(** * Trace and quota flag                                                *)
(* ===================================================================== *)

Section Later.
Context `{Runtime}.
Variable net : Internet.

Lemma nearby_search_first la ln kw token reply e :
  exists evs,
    trace (snd (nearby_search la ln kw token reply e))
    = (trace e ++ NearbySearch la ln kw token :: evs)%list.
Proof.
  exists []. unfold nearby_search.
  destruct reply as [|data]; simpl; [reflexivity|].
  destruct (status data) as [st|]; [|reflexivity].
  destruct (String.eqb st "OVER_QUERY_LIMIT"); reflexivity.
Qed.

Lemma fold_results_later kw places e :
  later e (fold_left (process_result net kw) places e).
Proof.
  revert e. induction places as [|p ps IH]; intros e; simpl; [apply later_refl|].
  eapply later_trans; [apply process_result_later | apply IH].
Qed.

Lemma nearby_search_later la ln kw token reply e :
  later e (snd (nearby_search la ln kw token reply e)).
Proof.
  unfold nearby_search.
  destruct reply as [|data]; simpl; [apply later_emit|].
  destruct (status data) as [st|]; [|apply later_emit].
  destruct (String.eqb st "OVER_QUERY_LIMIT"); simpl; [|apply later_emit].
  eapply later_trans; [apply later_emit | apply later_quota].
Qed.

(** One turn of the search loop starts with its request, whatever the
    quota flag says, and then only appends to the trace. *)
Lemma search_turn_first city_data kw token reply e :
  exists evs,
    trace (match search_turn net city_data kw token reply e with
           | Left e' => e'
           | Again _ e' => e'
           end)
    = (trace e ++ NearbySearch (lat city_data) (lng city_data) kw token :: evs)%list.
Proof.
  unfold search_turn.
  destruct (nearby_search_first (lat city_data) (lng city_data) kw token reply e)
    as [evs0 Hn].
  destruct (nearby_search _ _ kw token reply e) as [resp e1]. simpl in Hn.
  assert (Hgrow : forall e2, later e1 e2 ->
            exists evs, trace e2
              = (trace e ++ NearbySearch (lat city_data) (lng city_data) kw token :: evs)%list).
  { intros e2 [[evs Ht] _]. exists (evs0 ++ evs)%list.
    rewrite Ht, Hn, <- app_assoc. reflexivity. }
  destruct (String.eqb (default "ERROR" (status resp)) "OVER_QUERY_LIMIT").
  - destruct (quota_exceeded (emit (Sleep QUOTA_COOLDOWN) e1));
      apply Hgrow, later_emit.
  - destruct (negb (status_ok (default "ERROR" (status resp))));
      [apply Hgrow, later_refl|].
    destruct (next_page_token resp) as [tok|];
      [|apply Hgrow, fold_results_later].
    destruct (Py.truthy tok); [|apply Hgrow, fold_results_later].
    apply Hgrow. eapply later_trans; [apply fold_results_later | apply later_emit].
Qed.

Lemma search_turn_later city_data kw token reply e :
  later e (match search_turn net city_data kw token reply e with
           | Left e' => e'
           | Again _ e' => e'
           end).
Proof.
  pose proof (search_turn_for net (later e) (fun _ => True)
                (fun ev e' Hl => later_trans _ _ _ Hl (later_emit ev e'))
                (fun e' Hl => later_trans _ _ _ Hl (later_quota e'))
                (fun kw' e' place _ Hl =>
                   later_trans _ _ _ Hl (process_result_later net kw' e' place))
                city_data kw token reply e I (later_refl e)) as Ht.
  destruct (search_turn net city_data kw token reply e); exact Ht.
Qed.

Lemma search_loop_later city_data kw token script e :
  later e (snd (search_loop net city_data kw token script e)).
Proof.
  apply (search_loop_for net (later e) (fun _ => True)); try exact I.
  - intros ev e' Hl. eapply later_trans; [exact Hl | apply later_emit].
  - intros e' Hl. eapply later_trans; [exact Hl | apply later_quota].
  - intros kw' e' place _ Hl.
    eapply later_trans; [exact Hl | apply process_result_later].
  - apply later_refl.
Qed.

(** X1.  Every call of [_search_location] sends a nearby-search request
    for its city and keyword before anything else, also when the quota
    flag is already set: the flag keeps no request from being sent. *)
Theorem search_location_always_requests (city_data : Location) (kw : string)
    (script : list nearby_reply) (e : Engine) :
  exists evs,
    trace (snd (_search_location net city_data kw script e))
    = (trace e ++ NearbySearch (lat city_data) (lng city_data) kw None :: evs)%list.
Proof.
  unfold _search_location.
  destruct script as [|reply rest]; cbn [search_loop].
  - pose proof (search_turn_first city_data kw None NearbyFailed e) as Hf.
    destruct (search_turn net city_data kw None NearbyFailed e); exact Hf.
  - destruct (search_turn_first city_data kw None reply e) as [evs Hf].
    destruct (search_turn net city_data kw None reply e) as [e1|tok e1]; [now exists evs|].
    destruct (search_loop_later city_data kw tok rest e1) as [[evs' Hl] _].
    exists (evs ++ evs')%list. simpl. rewrite Hl, Hf, <- app_assoc. reflexivity.
Qed.

(** X2.  A run only appends to the trace, and once the quota flag is
    set nothing in a run clears it. *)
Theorem run_only_appends (config : Config) (r : Run) :
  (exists evs,
      trace (engine (snd (run net config r))) = (trace (engine r) ++ evs)%list)
  /\ (quota_exceeded (engine r) = true ->
      quota_exceeded (engine (snd (run net config r))) = true).
Proof.
  apply (run_for net (later (engine r)) (fun _ => True)); try (intros; exact I).
  - intros ev e' Hl. eapply later_trans; [exact Hl | apply later_emit].
  - intros e' Hl. eapply later_trans; [exact Hl | apply later_quota].
  - intros kw' e' place _ Hl.
    eapply later_trans; [exact Hl | apply process_result_later].
  - apply later_refl.
Qed.

End Later.

Lemma run_only_appends_witness :
  quota_exceeded (engine flagged_start) = true
  /\ quota_exceeded (engine (snd (run joe_net plumber_in_texas flagged_start))) = true
  /\ map google_place_id (fst (run joe_net plumber_in_texas flagged_start)) = ["p1"].
Proof.
  split; [reflexivity|]. split; [|reflexivity].
  apply (proj2 (run_only_appends joe_net plumber_in_texas flagged_start)).
  reflexivity.
Defined.

(* ===================================================================== *)
(** * Counters and records                                                *)
(* ===================================================================== *)

Lemma assembled_refl (s : Stats) : assembled s s.
Proof. constructor; lia. Qed.

Lemma assembled_trans (s1 s2 s3 : Stats) :
  assembled s1 s2 -> assembled s2 s3 ->
  (fake_phones s3 <= S (fake_phones s1))%nat ->
  (emails_scraped s3 <= S (emails_scraped s1))%nat ->
  assembled s1 s3.
Proof.
  intros [A1 A2 A3 A4 A5 A6] [B1 B2 B3 B4 B5 B6] Hp Hs. constructor; lia.
Qed.

Section Counters.
Context `{Runtime}.
Variable net : Internet.

(** The email of [enrich] and its tag go together, and an email is
    counted as scraped exactly when there is one. *)
Lemma enrich_fields (site : string) (e : Engine) (mail source : string) (e' : Engine) :
  enrich net site e = (mail, source, e') ->
  ((mail = "" /\ source = "" /\ stats e' = stats e)
   \/ (Py.truthy mail = true /\ source = "website_scrape"
       /\ Py.truthy site = true
       /\ stats e' = inc_emails_scraped (stats e))).
Proof.
  unfold enrich. destruct (Py.truthy site) eqn:Hsite.
  - pose proof (scrape_email_frame net site e) as [_ Hst].
    destruct (scrape_email net site e) as [[found|] e1]; simpl in Hst.
    + destruct (Py.truthy found) eqn:Hf.
      * intros [= <- <- <-]. right. simpl. now rewrite Hst.
      * intros [= <- <- <-]. left. now rewrite Hst.
    + intros [= <- <- <-]. left. now rewrite Hst.
  - intros [= <- <- <-]. left. auto.
Qed.

(** The fields and the counters after [assemble]. *)
Lemma assemble_fields (place : Place) (kw pid : string) (details : Details)
    (e : Engine) (b : Business) (e' : Engine) :
  assemble net place kw pid details e = (b, e') ->
  search_keyword b = kw
  /\ is_fake_phone (phone_number b) = false
  /\ (city b, state b) = extract_city_state (address b)
  /\ ((email b = "" /\ email_source b = "")
      \/ (Py.truthy (email b) = true /\ email_source b = "website_scrape"
          /\ Py.truthy (website b) = true))
  /\ assembled (stats e) (stats e')
  /\ (Py.truthy (email b) = true -> emails_scraped (stats e') = S (emails_scraped (stats e))).
Proof.
  unfold assemble.
  destruct (extract_city_state _) as [cty ste] eqn:Hcs.
  destruct (is_fake_phone (default "" (d_formatted_phone_number details))) eqn:Hph.
  - destruct (enrich net _ (with_stats inc_fake_phones e)) as [[mail source] e1] eqn:He.
    pose proof (enrich_spec net _ _ _ _ _ He) as (Hnf & _ & _).
    apply enrich_fields in He. rewrite Hnf.
    intros [= <- <-]. simpl. rewrite Hcs.
    split; [reflexivity|]. split; [reflexivity|]. split; [reflexivity|].
    destruct He as [(-> & -> & Hst) | (Hm & -> & Hw & Hst)]; rewrite Hst.
    + split; [now left|]. split; [constructor; simpl; lia | discriminate].
    + split; [right; auto|]. split; [constructor; simpl; lia | reflexivity].
  - destruct (enrich net _ e) as [[mail source] e1] eqn:He.
    pose proof (enrich_spec net _ _ _ _ _ He) as (Hnf & _ & _).
    apply enrich_fields in He. rewrite Hnf.
    intros [= <- <-]. simpl. rewrite Hcs, Hph.
    split; [reflexivity|]. split; [reflexivity|]. split; [reflexivity|].
    destruct He as [(-> & -> & Hst) | (Hm & -> & Hw & Hst)]; rewrite Hst.
    + split; [now left|]. split; [constructor; simpl; lia | discriminate].
    + split; [right; auto|]. split; [constructor; simpl; lia | reflexivity].
Qed.

Lemma process_place_outcome (place : Place) (kw : string) (e : Engine) :
  outcome_of kw e (fst (_process_place net place kw e))
    (snd (_process_place net place kw e)).
Proof.
  unfold _process_place.
  destruct (negb (Py.truthy (default "" (place_id place)))
            || dict_has (businesses e) (default "" (place_id place))) eqn:Hdup.
  { simpl. now constructor. }
  apply Bool.orb_false_iff in Hdup as [Hpid _].
  apply Bool.negb_false_iff in Hpid.
  pose proof (get_details_frame net (default "" (place_id place)) e) as [_ Hst1].
  destruct (get_details net _ e) as [details e1]. simpl in Hst1.
  destruct (domain_seen _ e1).
  { simpl. constructor. simpl. now rewrite Hst1. }
  destruct (assemble net place kw _ details e1) as [b e2] eqn:Ha.
  pose proof (assemble_spec net _ _ _ _ _ _ _ Ha) as (Hid & _).
  apply assemble_fields in Ha as (Hkw & Hph & Hcs & Hmail & Hasm & Hscr).
  rewrite Hst1 in Hasm, Hscr.
  destruct (calc_completeness b <? 2)%Z; simpl.
  - now apply (Rejected kw e (stats e2)).
  - apply Accepted; [exact Hasm | | exact Hscr].
    constructor; simpl; try assumption. now rewrite Hid.
Qed.

End Counters.

Section Outcomes.
Context `{Runtime}.
Variable net : Internet.

(** What one search result does to the engine. *)
Lemma process_result_cases (kw : string) (e : Engine) (place : Place) :
  (same_store e (process_result net kw e place)
   /\ (stats (process_result net kw e place)
         = inc_duplicates (inc_total_searched (stats e))
       \/ exists s, assembled (inc_total_searched (stats e)) s
                    /\ stats (process_result net kw e place) = inc_validation_failed s))
  \/ (exists b e1,
        same_store e e1 /\ accepted place e1 b /\ well_formed kw b
        /\ process_result net kw e place = register b (_get_domain (website b)) e1
        /\ assembled (inc_total_searched (stats e)) (stats e1)
        /\ (Py.truthy (email b) = true ->
            emails_scraped (stats e1) = S (emails_scraped (stats e)))).
Proof.
  unfold process_result.
  pose proof (process_place_outcome net place kw (with_stats inc_total_searched e)) as Ho.
  pose proof (process_place_spec net place kw (with_stats inc_total_searched e)) as Hs.
  destruct (_process_place net place kw (with_stats inc_total_searched e)) as [[b|] e1].
  - right. destruct (Hs _ _ eq_refl) as (Hst & _ & Hacc).
    simpl in Ho. inversion Ho as [| |b' e' Hasm Hwf Hscr]; subst.
    exists b, e1. split; [exact Hst|].
    split; [eapply accepted_same_store; [exact Hst | exact Hacc]|].
    split; [exact Hwf|]. split; [reflexivity|]. split; [exact Hasm | exact Hscr].
  - left. destruct (Hs _ _ eq_refl) as (Hst & _ & _).
    split; [exact Hst|]. simpl in Ho.
    inversion Ho as [e' Hd | s e' Hasm Hv |]; subst.
    + now left.
    + right. now exists s.
Qed.

Lemma with_email_app (l1 l2 : list Business) :
  with_email (l1 ++ l2)%list = (with_email l1 + with_email l2)%nat.
Proof. unfold with_email. now rewrite List.filter_app, length_app. Qed.

Lemma accounted_result kw e place :
  accounted e -> accounted (process_result net kw e place).
Proof.
  intros [Ht Hp Hs He].
  destruct (process_result_cases kw e place)
    as [[[Hb _] [Hst | (s & [A1 A2 A3 A4 A5 A6] & Hst)]]
       | (b & e1 & [Hb _] & Hacc & _ & -> & [A1 A2 A3 A4 A5 A6] & Hscr)].
  - constructor; rewrite Hb, Hst; simpl; lia.
  - constructor; rewrite Hb, Hst; simpl in *; lia.
  - pose proof (register_values b (_get_domain (website b)) e1 (acc_pid_new _ _ _ Hacc))
      as Hv.
    constructor; rewrite Hv; rewrite ?dict_values_app, ?with_email_app, ?length_app, ?Hb;
      simpl in *; try lia.
    replace (with_email [b]) with (if Py.truthy (email b) then 1 else 0)%nat
      by (unfold with_email; simpl; destruct (Py.truthy (email b)); reflexivity).
    destruct (Py.truthy (email b)); [rewrite (Hscr eq_refl)|]; lia.
Qed.

(** X3.  In every run the counters add up: the candidates searched are
    the duplicates, the validation failures and the stored businesses
    together; fake phones and scraped emails never exceed the candidates
    that got past the duplicate checks; and no more stored businesses
    carry an email than emails were counted as scraped. *)
Theorem counters_add_up (config : Config) (script : list nearby_reply) :
  accounted (engine (snd (run net config (start script))))
  /\ List.length (fst (run net config (start script)))
     = List.length (businesses (engine (snd (run net config (start script))))).
Proof.
  split.
  - apply (run_preserves net accounted); try (intros; assumption).
    + intros ev e [Ht Hp Hs He]. now constructor.
    + intros e [Ht Hp Hs He]. now constructor.
    + apply accounted_result.
    + constructor; try reflexivity; unfold with_email; simpl; lia.
  - rewrite run_result_from_start. unfold _sorted, dict_values.
    rewrite (Permutation_length (sort_by_key_perm _)). apply length_map.
Qed.

Lemma well_formed_result kws kw e place :
  In kw kws ->
  Forall (fun b => exists k, In k kws /\ well_formed k b) (dict_values (businesses e)) ->
  Forall (fun b => exists k, In k kws /\ well_formed k b)
    (dict_values (businesses (process_result net kw e place))).
Proof.
  intros Hin Hf.
  destruct (process_result_cases kw e place)
    as [[[Hb _] _] | (b & e1 & [Hb _] & Hacc & Hwf & -> & _)].
  - now rewrite Hb.
  - rewrite register_values by apply Hacc.
    rewrite dict_values_app, Hb. apply Forall_app. split; [exact Hf|].
    constructor; [|constructor]. simpl. now exists kw.
Qed.

(** X4.  Every business that [run] returns was found under one of the
    keywords of the configuration and has a place id; its phone is not
    fake; its city and state are those that [extract_city_state] reads
    from its address; and it either has no email and no email source, or
    an email tagged "website_scrape" together with a website. *)
Theorem returned_records_well_formed (config : Config) (script : list nearby_reply) :
  Forall (fun b => exists k, In k (keywords config) /\ well_formed k b)
    (fst (run net config (start script))).
Proof.
  rewrite run_result_from_start. apply sorted_Forall.
  apply (run_for net
           (fun e => Forall (fun b => exists k, In k (keywords config) /\ well_formed k b)
                       (dict_values (businesses e)))
           (fun k => In k (keywords config))); try (intros; assumption).
  - intros kw e place Hin Hf. now apply well_formed_result.
  - constructor.
Qed.

End Outcomes.

(* ===================================================================== *)
(** * The domain index                                                    *)
(* ===================================================================== *)

Section Index.
Context `{Runtime}.
Variable net : Internet.

Lemma domains_of_length (l : list Business) :
  (List.length (domains_of l) <= List.length l)%nat.
Proof.
  induction l as [|b l IH]; simpl; [lia|].
  rewrite length_app. destruct (domain_key b); simpl; lia.
Qed.

Lemma index_exact_same_store (e e' : Engine) :
  same_store e e' -> index_exact e -> index_exact e'.
Proof.
  intros [Hb Hs] [H1 H2]. constructor; rewrite ?Hb, ?Hs; assumption.
Qed.

Lemma index_exact_register (place : Place) (b : Business) (e : Engine) :
  index_exact e -> accepted place e b ->
  index_exact (register b (_get_domain (website b)) e).
Proof.
  intros [Hsound Hsize] Hacc.
  pose proof (acc_pid_new _ _ _ Hacc) as Hnew.
  pose proof (acc_domain_new _ _ _ Hacc) as Hdn.
  pose proof (register_values b (_get_domain (website b)) e Hnew) as Hv.
  assert (Hold : forall d pid,
             seen_domains e !! d = Some pid ->
             exists b', In (pid, b') (businesses (register b (_get_domain (website b)) e))
                        /\ domain_key b' = Some d).
  { intros d pid Hl. destruct (Hsound d pid Hl) as (b' & Hin & Hk).
    exists b'. split; [|exact Hk]. rewrite Hv. apply in_or_app. now left. }
  constructor.
  - intros d pid. simpl seen_domains. unfold domain_key in *.
    destruct (_get_domain (website b)) as [dom|] eqn:Hg; [|apply Hold].
    destruct (Py.truthy dom) eqn:Ht; [|apply Hold].
    destruct (decide (dom = d)) as [<- | Hne].
    + rewrite lookup_insert_eq. intros [= <-].
      exists b. split; [rewrite Hv; apply in_or_app; right; now left|].
      now rewrite Hg, Ht.
    + rewrite lookup_insert_ne by exact Hne. apply Hold.
  - rewrite Hv, dict_values_app, domains_of_app, length_app. simpl seen_domains.
    simpl domains_of. rewrite app_nil_r. unfold domain_key.
    destruct (_get_domain (website b)) as [dom|]; [|simpl; lia].
    destruct (Py.truthy dom) eqn:Ht; [|simpl; lia].
    rewrite map_size_insert_None by (now apply domain_not_seen).
    simpl. lia.
Qed.

Lemma index_exact_result kw e place :
  index_exact e -> index_exact (process_result net kw e place).
Proof.
  intros Hi.
  destruct (process_result_spec net kw e place)
    as [_ [Hs | (b & e1 & Hs & Hacc & _ & ->)]].
  - now apply (index_exact_same_store e).
  - apply (index_exact_register place); [|exact Hacc].
    now apply (index_exact_same_store e).
Qed.

(** X5.  When [run] returns, the domain index holds exactly the domains
    of the stored businesses: every entry names a stored business with
    that domain, under its place id, and there are as many entries as
    stored businesses with a domain, so never more than businesses. *)
Theorem domain_index_exact (config : Config) (script : list nearby_reply) :
  index_exact (engine (snd (run net config (start script))))
  /\ (size (seen_domains (engine (snd (run net config (start script)))))
      <= List.length (businesses (engine (snd (run net config (start script))))))%nat.
Proof.
  assert (Hi : index_exact (engine (snd (run net config (start script))))).
  { apply (run_preserves net index_exact).
    - intros ev e. apply index_exact_same_store, same_store_emit.
    - intros e. apply index_exact_same_store, same_store_quota.
    - apply index_exact_result.
    - constructor; [|reflexivity].
      intros d pid Hl. simpl in Hl. rewrite lookup_empty in Hl. discriminate Hl. }
  split; [exact Hi|].
  rewrite (ix_size _ Hi).
  etransitivity; [apply domains_of_length|].
  unfold dict_values. now rewrite length_map.
Qed.

End Index.

(* ===================================================================== *)
(** * Stop reason and target                                              *)
(* ===================================================================== *)

Section Reason.
Context `{Runtime}.
Variable net : Internet.






End Reason.


(* ===================================================================== *)
(** * The enrichment fetcher                                              *)
(* ===================================================================== *)

Section Fetcher.
Context `{Runtime}.
Variable net : Internet.

Lemma scrape_pages_requests (pages : list string) (e : Engine) :
  exists n : nat,
    (n <= List.length pages)%nat
    /\ trace (snd (scrape_pages net pages e))
       = (trace e ++ map HttpGet (take n pages))%list
    /\ match fst (scrape_pages net pages e) with
       | Some found =>
           exists m page text others,
             n = S m
             /\ pages !! m = Some page
             /\ http_at net (List.length (trace e) + m) page = HttpResponse 200 text
             /\ extract_emails text = found :: others
       | None => n = List.length pages
       end.
Proof.
  revert e. induction pages as [|page rest IH]; intros e; simpl.
  - exists 0%nat. split; [lia|]. split; [now rewrite app_nil_r | reflexivity].
  - assert (Hnext :
      exists n : nat,
        (n <= S (List.length rest))%nat
        /\ trace (snd (scrape_pages net rest (emit (HttpGet page) e)))
           = (trace e ++ map HttpGet (take n (page :: rest)))%list
        /\ match fst (scrape_pages net rest (emit (HttpGet page) e)) with
           | Some found =>
               exists m page' text others,
                 n = S m
                 /\ (page :: rest) !! m = Some page'
                 /\ http_at net (List.length (trace e) + m) page' = HttpResponse 200 text
                 /\ extract_emails text = found :: others
           | None => n = S (List.length rest)
           end).
    { destruct (IH (emit (HttpGet page) e)) as (n & Hn & Ht & Hr).
      exists (S n). split; [lia|]. split.
      - rewrite Ht. simpl. now rewrite <- app_assoc.
      - destruct (fst (scrape_pages net rest (emit (HttpGet page) e))) as [found|];
          [|now rewrite Hr].
        destruct Hr as (m & page' & text & others & -> & Hp & Hh & Hx).
        exists (S m), page', text, others. split; [reflexivity|].
        split; [exact Hp|]. split; [|exact Hx].
        simpl in Hh. rewrite length_app in Hh. simpl in Hh.
        now replace (List.length (trace e) + S m)%nat
          with (List.length (trace e) + 1 + m)%nat by lia. }
    destruct (http_at net (List.length (trace e)) page) as [|code text] eqn:Hget;
      [exact Hnext|].
    destruct (Z.eqb code 200) eqn:Hcode; [|exact Hnext].
    destruct (extract_emails text) as [|first others] eqn:Hx; [exact Hnext|].
    simpl. exists 1%nat. split; [lia|]. split; [reflexivity|].
    exists 0%nat, page, text, others. apply Z.eqb_eq in Hcode. subst code.
    split; [reflexivity|]. split; [reflexivity|].
    split; [now rewrite Nat.add_0_r | exact Hx].
Qed.

(** X7.  [scrape_email] sends nothing for an empty website.  Otherwise
    it fetches the root page, then /contact, then /about of the site
    (with https:// put in front of a bare domain), at least one and at
    most three pages and nothing else, and stops at the first page that
    answers 200 with an extractable address: that address is what it
    returns; when it returns nothing it has tried all three. *)
Theorem scrape_email_requests (website : string) (e : Engine) :
  (website = "" -> scrape_email net website e = (None, e))
  /\ (website <> "" ->
      exists n : nat,
        (1 <= n <= 3)%nat
        /\ trace (snd (scrape_email net website e))
           = (trace e ++ map HttpGet (take n (pages_of website)))%list
        /\ match fst (scrape_email net website e) with
           | Some found =>
               exists m page text others,
                 n = S m
                 /\ pages_of website !! m = Some page
                 /\ http_at net (List.length (trace e) + m) page = HttpResponse 200 text
                 /\ extract_emails text = found :: others
           | None => n = 3%nat
           end).
Proof.
  split; [intros ->; reflexivity|].
  intros Hne. unfold scrape_email.
  destruct website as [|c w]; [contradiction|]. cbn [Py.truthy negb].
  cbv iota.
  destruct (scrape_pages_requests (pages_of (String c w)) e) as (n & Hn & Ht & Hr).
  exists n. unfold pages_of in *.
  split; [|split; [exact Ht | exact Hr]].
  split; [|exact Hn].
  destruct n as [|n]; [|lia].
  destruct (fst (scrape_pages net _ e)) as [found|].
  - destruct Hr as (m & _ & _ & _ & Hm & _). discriminate Hm.
  - discriminate Hr.
Qed.

End Fetcher.

Lemma scrape_email_requests_witness :
  "acme.com" <> ""
  /\ exists n : nat,
       (1 <= n <= 3)%nat
       /\ trace (snd (scrape_email acme_site "acme.com" new_engine))
          = map HttpGet (take n (pages_of "acme.com")).
Proof.
  split; [discriminate|].
  destruct (proj2 (scrape_email_requests acme_site "acme.com" new_engine))
    as (n & Hn & Ht & _); [discriminate|].
  exists n. split; [exact Hn | exact Ht].
Defined.

Example scrape_email_contact_page :
  scrape_email acme_site "acme.com" new_engine
  = (Some "info@acme.com",
     emit (HttpGet "https://acme.com/contact")
       (emit (HttpGet "https://acme.com") new_engine)).
Proof. reflexivity. Qed.

(* ===================================================================== *)
(** * A provider that answers no search                                   *)
(* ===================================================================== *)

Lemma nearby_requests_app (t1 t2 : list event) :
  nearby_requests (t1 ++ t2)%list = (nearby_requests t1 + nearby_requests t2)%nat.
Proof. unfold nearby_requests. now rewrite List.filter_app, length_app. Qed.

Section Refused.
Context `{Runtime}.
Variable net : Internet.

Lemma unusable_turn city_data kw token reply e :
  unusable reply ->
  exists e',
    search_turn net city_data kw token reply e = Left e'
    /\ businesses e' = businesses e /\ stats e' = stats e
    /\ nearby_requests (trace e') = S (nearby_requests (trace e)).
Proof.
  intros Hu. unfold search_turn, nearby_search.
  destruct reply as [|body]; simpl in Hu.
  - simpl. eexists. split; [reflexivity|]. simpl.
    rewrite nearby_requests_app. simpl. repeat split. unfold nearby_requests at 2.
    simpl. lia.
  - destruct (status body) as [st|] eqn:Hst; simpl in Hu.
    + destruct (String.eqb st "OVER_QUERY_LIMIT") eqn:Hov.
      * simpl. rewrite Hst. simpl. rewrite Hov. simpl.
        eexists. split; [reflexivity|]. simpl.
        rewrite !nearby_requests_app. unfold nearby_requests at 2 3. simpl.
        repeat split. lia.
      * simpl. rewrite Hst. simpl. rewrite Hov, Hu. simpl.
        eexists. split; [reflexivity|]. simpl.
        rewrite nearby_requests_app. unfold nearby_requests at 2. simpl.
        repeat split. lia.
    + simpl. rewrite Hst. simpl.
      eexists. split; [reflexivity|]. simpl.
      rewrite nearby_requests_app. unfold nearby_requests at 2. simpl.
      repeat split. lia.
Qed.

Lemma unusable_search city_data kw script e :
  Forall unusable script ->
  exists e',
    _search_location net city_data kw script e = (tail script, e')
    /\ businesses e' = businesses e /\ stats e' = stats e
    /\ nearby_requests (trace e') = S (nearby_requests (trace e)).
Proof.
  intros Hf. unfold _search_location.
  destruct script as [|reply rest]; cbn [search_loop].
  - destruct (unusable_turn city_data kw None NearbyFailed e I) as (e' & -> & Hrest).
    now exists e'.
  - inversion Hf as [|? ? Hu _]; subst.
    destruct (unusable_turn city_data kw None reply e Hu) as (e' & -> & Hrest).
    now exists e'.
Qed.

Lemma unusable_tail (script : list nearby_reply) :
  Forall unusable script -> Forall unusable (tail script).
Proof. intros Hf. destruct script; [constructor | now inversion Hf]. Qed.

Lemma unusable_cities min_results kw cs r :
  (1 <= min_results)%Z -> Forall unusable (replies r) -> untouched (engine r) ->
  exists r',
    cities_loop net min_results kw cs r = Next r'
    /\ Forall unusable (replies r') /\ untouched (engine r')
    /\ stop_reason (job r') = stop_reason (job r)
    /\ nearby_requests (trace (engine r'))
       = (nearby_requests (trace (engine r)) + List.length cs)%nat.
Proof.
  intros Hmin. revert r. induction cs as [|c cs IH]; intros r Hf [Hb Hs]; cbn [cities_loop].
  - exists r. repeat split; try assumption. simpl. lia.
  - unfold visit.
    destruct (unusable_search c kw (replies r) (engine r) Hf) as (e' & -> & Hb' & Hs' & Hn).
    assert (Hv : List.length (businesses e') = 0%nat) by (now rewrite Hb', Hb).
    rewrite Hv. change (Z.of_nat 0) with 0%Z.
    destruct (min_results <=? 0)%Z eqn:Hle; [apply Z.leb_le in Hle; lia|].
    match goal with
    | |- context [cities_loop _ _ _ _ ?r0] =>
        destruct (IH r0) as (r' & Hloop & Hf' & Hu' & Hr' & Hn')
    end.
    + now apply unusable_tail.
    + split; simpl; congruence.
    + exists r'. split; [exact Hloop|]. split; [exact Hf'|]. split; [exact Hu'|].
      split; [exact Hr'|].
      simpl in Hn'. rewrite Hn', Hn. simpl. lia.
Qed.

Lemma unusable_keywords min_results ks cs r :
  (1 <= min_results)%Z -> Forall unusable (replies r) -> untouched (engine r) ->
  exists r',
    keywords_loop net min_results ks cs r = Next r'
    /\ untouched (engine r')
    /\ nearby_requests (trace (engine r'))
       = (nearby_requests (trace (engine r)) + List.length (pairs_of ks cs))%nat.
Proof.
  intros Hmin. revert r. induction ks as [|k ks IH]; intros r Hf Hu; cbn [keywords_loop].
  - exists r. repeat split; try apply Hu. simpl. lia.
  - destruct (unusable_cities min_results k cs
                {| replies := replies r; engine := engine r;
                   job := set_current_keyword k (job r) |} Hmin Hf Hu)
      as (r1 & -> & Hf1 & Hu1 & _ & Hn1).
    destruct (IH r1 Hf1 Hu1) as (r' & Hloop & Hu' & Hn').
    exists r'. split; [exact Hloop|]. split; [exact Hu'|].
    rewrite Hn', Hn1. simpl. unfold pairs_of. simpl.
    rewrite length_app, length_map. fold (pairs_of ks cs). lia.
Qed.

(** X8.  If the provider answers no search with a usable page (every
    reply is a transport failure or has a status other than OK and
    ZERO_RESULTS, as with a refused key), a job with cities and a target
    of at least 1 still runs to the end: [run] sends one request per
    (keyword, city) pair, processes no result even where a reply carried
    some, returns the empty list and reports "All locations exhausted"
    rather than an error. *)
Theorem refused_searches_exhaust (config : Config) (script : list nearby_reply) :
  Forall unusable script ->
  resolve_cities config <> [] ->
  (1 <= default DEFAULT_MIN_BUSINESSES (minResults config))%Z ->
  let out := run net config (start script) in
  fst out = []
  /\ stop_reason (job (snd out)) = "All locations exhausted"
  /\ stats (engine (snd out)) = no_stats
  /\ nearby_requests (trace (engine (snd out)))
     = List.length (pairs_of (keywords config) (resolve_cities config)).
Proof.
  intros Hf Hcs Hmin. simpl. unfold run.
  destruct (resolve_cities config) as [|c cs]; [contradiction|].
  destruct (unusable_keywords _ (keywords config) (c :: cs) (start script) Hmin Hf)
    as (r' & -> & [Hb Hs] & Hn); [split; reflexivity|].
  simpl. unfold _sorted. rewrite Hb. repeat split; assumption.
Qed.

End Refused.

Lemma refused_searches_exhaust_witness :
  Forall unusable (repeat (NearbyJson request_denied) 10)
  /\ stop_reason (job (snd (run joe_net plumber_in_texas
                              (start (repeat (NearbyJson request_denied) 10)))))
     = "All locations exhausted"
  /\ nearby_requests
       (trace (engine (snd (run joe_net plumber_in_texas
                              (start (repeat (NearbyJson request_denied) 10))))))
     = 10%nat.
Proof.
  assert (Hf : Forall unusable (repeat (NearbyJson request_denied) 10)).
  { repeat constructor. }
  split; [exact Hf|].
  destruct (refused_searches_exhaust joe_net plumber_in_texas
              (repeat (NearbyJson request_denied) 10) Hf)
    as (_ & Hr & _ & Hn); [discriminate | reflexivity |].
  split; [exact Hr | exact Hn].
Defined.

(* ===================================================================== *)
(** * Candidates without a website                                        *)
(* ===================================================================== *)

Section NoWebsite.
Context `{Runtime}.
Variable net : Internet.

Lemma process_place_no_website (place : Place) (kw : string) (e : Engine)
    (pid : string) (details : Details) (e1 : Engine) :
  place_id place = Some pid ->
  Py.truthy pid = true ->
  dict_has (businesses e) pid = false ->
  get_details net pid e = (details, e1) ->
  default "" (d_website details) = "" ->
  exists r e',
    _process_place net place kw e = (r, e')
    /\ trace e' = trace e1
    /\ (r = None
        <-> is_fake_phone (default "" (d_formatted_phone_number details)) = true
            \/ present (default "" (d_formatted_phone_number details)) = false
            \/ present (default (default "" (vicinity place))
                          (d_formatted_address details)) = false).
Proof.
  intros Hp Ht Hn Hd Hw. unfold _process_place.
  rewrite Hp. simpl default. rewrite Ht, Hn. cbn [negb orb].
  rewrite Hd, Hw.
  change (domain_seen (_get_domain "") e1) with false. cbv iota.
  unfold assemble. rewrite Hw.
  destruct (extract_city_state _) as [cty ste].
  set (phone := default "" (d_formatted_phone_number details)).
  set (addr := default (default "" (vicinity place)) (d_formatted_address details)).
  destruct (is_fake_phone phone) eqn:Hfp.
  - change (enrich net "" ?x) with ("", "", x). cbv beta iota zeta.
    change (is_fake_email "") with false. cbv iota.
    rewrite calc_completeness_cases. cbn [phone_number email website address].
    change (present "") with false. cbv iota.
    destruct (present addr); simpl; eexists; eexists;
      (split; [reflexivity|]); (split; [reflexivity|]); split; auto.
  - change (enrich net "" ?x) with ("", "", x). cbv beta iota zeta.
    change (is_fake_email "") with false. cbv iota.
    rewrite calc_completeness_cases. cbn [phone_number email website address].
    change (present "") with false. cbv iota.
    destruct (present phone) eqn:Hpp, (present addr) eqn:Hpa; simpl;
      eexists; eexists; (split; [reflexivity|]); (split; [reflexivity|]);
      split; auto; try discriminate.
    intros [Hx | [Hx | Hx]]; discriminate Hx.
Qed.

(** X9.  A new candidate whose details name no website is never
    enriched (no page is fetched) and can only reach the threshold with
    its phone and its address: it is rejected exactly when the phone is
    fake or blank or the address is blank.  In particular a candidate
    whose details lookup failed is always rejected, having no phone. *)
Theorem no_website_acceptance (place : Place) (kw : string) (e : Engine)
    (pid : string) (details : Details) (e1 : Engine) :
  place_id place = Some pid ->
  Py.truthy pid = true ->
  dict_has (businesses e) pid = false ->
  get_details net pid e = (details, e1) ->
  default "" (d_website details) = "" ->
  (fst (_process_place net place kw e) = None
   <-> is_fake_phone (default "" (d_formatted_phone_number details)) = true
       \/ present (default "" (d_formatted_phone_number details)) = false
       \/ present (default (default "" (vicinity place)) (d_formatted_address details))
          = false)
  /\ trace (snd (_process_place net place kw e)) = trace e1.
Proof.
  intros Hp Ht Hn Hd Hw.
  destruct (process_place_no_website place kw e pid details e1 Hp Ht Hn Hd Hw)
    as (r & e' & -> & Htr & Hiff).
  split; [exact Hiff | exact Htr].
Qed.

End NoWebsite.

Lemma no_website_acceptance_witness :
  place_id joe_place = Some "p1"
  /\ fst (_process_place no_details_net joe_place "plumber" new_engine) = None.
Proof.
  split; [reflexivity|].
  apply (proj1 (no_website_acceptance no_details_net joe_place "plumber" new_engine
                  "p1" no_details (snd (get_details no_details_net "p1" new_engine))
                  eq_refl eq_refl eq_refl eq_refl eq_refl)).
  right. left. reflexivity.
Defined.

(* ===================================================================== *)
(** * Letter case                                                         *)
(* ===================================================================== *)

Lemma lower_char_idempotent (c : ascii) :
  Py.lower_char (Py.lower_char c) = Py.lower_char c.
Proof. destruct c as [[] [] [] [] [] [] [] []]; reflexivity. Qed.

Lemma lower_idempotent (s : string) : Py.lower (Py.lower s) = Py.lower s.
Proof.
  unfold Py.lower. induction s as [|c s IH]; cbn [Py.map_chars]; [reflexivity|].
  now rewrite lower_char_idempotent, IH.
Qed.

Lemma truthy_lower (s : string) : Py.truthy (Py.lower s) = Py.truthy s.
Proof. destruct s; reflexivity. Qed.

(** X10.  The verdict of [is_fake_email] depends on the address only up
    to letter case: two addresses with the same lower-cased form are
    both fake or both not. *)
Theorem is_fake_email_ignores_case (s t : string) :
  Py.lower s = Py.lower t -> is_fake_email s = is_fake_email t.
Proof.
  assert (Hl : forall u, is_fake_email u = is_fake_email (Py.lower u)).
  { intros u. unfold is_fake_email. now rewrite truthy_lower, lower_idempotent. }
  intros Heq. now rewrite (Hl s), (Hl t), Heq.
Qed.

Lemma is_fake_email_ignores_case_witness :
  is_fake_email "NoReply@Shop.io" = is_fake_email "noreply@shop.io".
Proof. apply is_fake_email_ignores_case. reflexivity. Defined.

(* ===================================================================== *)
(** * Substrings                                                          *)
(* ===================================================================== *)

Lemma prefix_app (p t : string) : String.prefix p (p ++ t) = true.
Proof.
  induction p as [|c p IH]; simpl; [now destruct t|].
  destruct (ascii_dec c c); [exact IH | contradiction].
Qed.

Lemma contains_split (p s : string) :
  Py.contains p s = true -> exists a t, s = a ++ p ++ t.
Proof.
  induction s as [|c s IH]; cbn [Py.contains].
  - rewrite Bool.orb_false_r. intros Hp.
    destruct (prefix_split _ _ Hp) as [t Ht]. now exists "", t.
  - intros Hc. apply Bool.orb_true_iff in Hc as [Hp | Hc].
    + destruct (prefix_split _ _ Hp) as [t Ht]. now exists "", t.
    + destruct (IH Hc) as (a & t & ->). now exists (String c a), t.
Qed.

Lemma contains_app (p a t : string) : Py.contains p (a ++ p ++ t) = true.
Proof.
  induction a as [|c a IH].
  - change ("" ++ p ++ t) with (p ++ t).
    destruct (p ++ t) eqn:Hpt; cbn [Py.contains]; rewrite <- Hpt, prefix_app; reflexivity.
  - change (String c a ++ p ++ t) with (String c (a ++ p ++ t)).
    cbn [Py.contains]. rewrite IH. apply Bool.orb_true_r.
Qed.

Lemma filter_chars_app (P : ascii -> bool) (a b : string) :
  Py.filter_chars P (a ++ b) = Py.filter_chars P a ++ Py.filter_chars P b.
Proof.
  induction a as [|c a IH]; simpl; [reflexivity|].
  destruct (P c); simpl; now rewrite IH.
Qed.

Lemma string_length_app (a b : string) :
  String.length (a ++ b) = (String.length a + String.length b)%nat.
Proof. induction a as [|c a IH]; simpl; [reflexivity | now rewrite IH]. Qed.

(** A substring brings its digits along. *)
Lemma contains_digits (p s : string) :
  Py.contains p s = true ->
  exists a t, digits_of s = a ++ digits_of p ++ t.
Proof.
  intros Hc. destruct (contains_split _ _ Hc) as (a & t & ->).
  exists (digits_of a), (digits_of t). unfold digits_of.
  now rewrite !filter_chars_app.
Qed.

(* ===================================================================== *)
(** * Fake phones                                                         *)
(* ===================================================================== *)

Lemma is_fake_phone_unfold (phone : string) :
  is_fake_phone phone
  = Py.truthy phone
    && (Py.contains "555" (digits_of phone)
        || ((7 <=? String.length (digits_of phone))%nat
            && Py.one_distinct_char (digits_of phone))
        || Py.contains "555" phone
        || Py.contains "123-456" phone
        || Py.contains "000-000" phone
        || Py.contains "111-111" phone).
Proof.
  unfold is_fake_phone, digits_of. destruct phone as [|c phone]; [reflexivity|].
  cbn [Py.truthy negb andb]. cbv iota.
  destruct (Py.contains "555" _); [reflexivity|].
  destruct (_ && _); [reflexivity|].
  cbn [existsb FAKE_PHONE_PATTERNS orb].
  rewrite Bool.orb_false_r, !Bool.orb_assoc. reflexivity.
Qed.

(** X11.  [is_fake_phone] flags a phone exactly when its digits contain
    555, or it has seven or more digits that are all the same, or the
    text contains 123-456, 000-000 or 111-111: the test for a literal
    555 in the text and the test for an empty phone add nothing to
    these.  So a phone with fewer than three digits is never flagged. *)
Theorem is_fake_phone_characterized (phone : string) :
  (is_fake_phone phone = true <->
   Py.contains "555" (digits_of phone) = true
   \/ ((7 <= String.length (digits_of phone))%nat
       /\ Py.one_distinct_char (digits_of phone) = true)
   \/ Py.contains "123-456" phone = true
   \/ Py.contains "000-000" phone = true
   \/ Py.contains "111-111" phone = true)
  /\ (is_fake_phone phone = true -> (3 <= String.length (digits_of phone))%nat).
Proof.
  assert (Hlen : forall p, Py.contains p phone = true ->
                   (String.length (digits_of p) <= String.length (digits_of phone))%nat).
  { intros p Hc. destruct (contains_digits _ _ Hc) as (a & t & ->).
    rewrite !string_length_app. lia. }
  assert (Hraw : Py.contains "555" phone = true ->
                 Py.contains "555" (digits_of phone) = true).
  { intros Hc. destruct (contains_digits _ _ Hc) as (a & t & ->). apply contains_app. }
  assert (Hiff : is_fake_phone phone = true <->
   Py.contains "555" (digits_of phone) = true
   \/ ((7 <= String.length (digits_of phone))%nat
       /\ Py.one_distinct_char (digits_of phone) = true)
   \/ Py.contains "123-456" phone = true
   \/ Py.contains "000-000" phone = true
   \/ Py.contains "111-111" phone = true).
  { assert (Hne : phone = "" ->
              ~ (Py.contains "555" (digits_of phone) = true
                 \/ ((7 <= String.length (digits_of phone))%nat
                     /\ Py.one_distinct_char (digits_of phone) = true)
                 \/ Py.contains "123-456" phone = true
                 \/ Py.contains "000-000" phone = true
                 \/ Py.contains "111-111" phone = true)).
    { intros -> [Hd | [[Hd _] | [Hd | [Hd | Hd]]]]; try discriminate Hd.
      simpl in Hd. lia. }
    rewrite is_fake_phone_unfold.
    rewrite Bool.andb_true_iff, !Bool.orb_true_iff, Bool.andb_true_iff, Nat.leb_le.
    destruct phone as [|c phone].
    - split; [intros [Ht _]; discriminate Ht | intros Hd; now destruct (Hne eq_refl)].
    - cbn [Py.truthy]. clear Hne Hlen. tauto. }
  split; [exact Hiff|].
  intros Hf. apply Hiff in Hf.
  destruct Hf as [Hd | [[Hl _] | [Hd | [Hd | Hd]]]].
  - destruct (contains_split _ _ Hd) as (a & t & ->).
    rewrite !string_length_app. simpl. lia.
  - lia.
  - apply Hlen in Hd. simpl in Hd. lia.
  - apply Hlen in Hd. simpl in Hd. lia.
  - apply Hlen in Hd. simpl in Hd. lia.
Qed.

Lemma is_fake_phone_characterized_witness :
  is_fake_phone "(415) 255-5123" = true
  /\ (3 <= String.length (digits_of "(415) 255-5123"))%nat.
Proof.
  split; [reflexivity|].
  apply (proj2 (is_fake_phone_characterized "(415) 255-5123")). reflexivity.
Defined.

(* ===================================================================== *)
(** * Slugs                                                               *)
(* ===================================================================== *)

Lemma slug_char_not_dash (c : ascii) : slug_char c = true -> is_dash c = false.
Proof.
  destruct c as [[] [] [] [] [] [] [] []]; vm_compute; intros Hs;
    first [reflexivity | discriminate Hs].
Qed.

Lemma forall_chars_take (P : ascii -> bool) (k : nat) (s : string) :
  Py.forall_chars P s = true -> Py.forall_chars P (take_chars k s) = true.
Proof.
  revert s. induction k as [|k IH]; intros [|c s]; simpl; try reflexivity.
  intros Hf. apply andb_prop in Hf as [Hc Hs]. now rewrite Hc, IH.
Qed.

Lemma forall_chars_lstrip (P q : ascii -> bool) (s : string) :
  Py.forall_chars P s = true -> Py.forall_chars P (Py.lstrip_by q s) = true.
Proof.
  induction s as [|c s IH]; simpl; [reflexivity|].
  intros Hf. destruct (q c); [|exact Hf].
  apply andb_prop in Hf as [_ Hs]. now apply IH.
Qed.

Lemma rstrip_by_take (q : ascii -> bool) (s : string) :
  exists k, Py.rstrip_by q s = take_chars k s.
Proof.
  induction s as [|c s [k IH]]; [now exists 0%nat|].
  cbn [Py.rstrip_by]. destruct (Py.rstrip_by q s) as [|d r] eqn:Hr.
  - destruct (q c); [now exists 0%nat | exists 1%nat; simpl; now destruct s].
  - exists (S k). simpl. now rewrite <- IH.
Qed.

Lemma slice_to_take (n : Z) (s : string) :
  exists k, slice_to n s = take_chars k s /\ ((0 <= n)%Z -> k = Z.to_nat n).
Proof.
  unfold slice_to. destruct (0 <=? n)%Z eqn:Hn.
  - now exists (Z.to_nat n).
  - apply Z.leb_gt in Hn. eexists. split; [reflexivity | lia].
Qed.

Lemma take_chars_length (k : nat) (s : string) :
  (String.length (take_chars k s) <= k)%nat.
Proof.
  revert s. induction k as [|k IH]; intros [|c s]; simpl; try lia.
  specialize (IH s). lia.
Qed.

Lemma dash_runs_chars (b : bool) (s : string) :
  Py.forall_chars slug_or_dash (dash_runs b s) = true.
Proof.
  revert b. induction s as [|c s IH]; intros b; simpl; [reflexivity|].
  destruct (slug_char c) eqn:Hc.
  - simpl. unfold slug_or_dash at 1. now rewrite Hc, IH.
  - destruct b; [apply IH|]. simpl. now rewrite IH.
Qed.

Lemma dash_runs_in_run (s : string) : no_leading_dash (dash_runs true s) = true.
Proof.
  induction s as [|c s IH]; simpl; [reflexivity|].
  destruct (slug_char c) eqn:Hc; [|exact IH].
  simpl. now rewrite (slug_char_not_dash c Hc).
Qed.

Lemma single_dashes_cons (c : ascii) (s : string) :
  single_dashes (String c s)
  = (negb (is_dash c) || no_leading_dash s) && single_dashes s.
Proof.
  destruct s as [|d s]; cbn [single_dashes no_leading_dash].
  - now rewrite Bool.orb_true_r.
  - now rewrite Bool.negb_andb.
Qed.

Lemma dash_runs_single (b : bool) (s : string) : single_dashes (dash_runs b s) = true.
Proof.
  revert b. induction s as [|c s IH]; intros b; cbn [dash_runs]; [reflexivity|].
  destruct (slug_char c) eqn:Hc.
  - rewrite single_dashes_cons, (slug_char_not_dash c Hc), IH. reflexivity.
  - destruct b; [apply IH|].
    rewrite single_dashes_cons, dash_runs_in_run, IH. reflexivity.
Qed.

Lemma single_dashes_lstrip (q : ascii -> bool) (s : string) :
  single_dashes s = true -> single_dashes (Py.lstrip_by q s) = true.
Proof.
  induction s as [|c s IH]; cbn [Py.lstrip_by]; [reflexivity|].
  intros Hs. destruct (q c); [|exact Hs].
  rewrite single_dashes_cons in Hs. apply andb_prop in Hs as [_ Hs]. now apply IH.
Qed.

Lemma no_leading_dash_take (k : nat) (s : string) :
  no_leading_dash s = true -> no_leading_dash (take_chars k s) = true.
Proof. destruct k, s; simpl; auto. Qed.

Lemma single_dashes_take (k : nat) (s : string) :
  single_dashes s = true -> single_dashes (take_chars k s) = true.
Proof.
  revert s. induction k as [|k IH]; intros [|c s]; try reflexivity.
  cbn [take_chars]. rewrite !single_dashes_cons.
  intros Hs. apply andb_prop in Hs as [Hh Hs]. rewrite (IH s Hs), Bool.andb_true_r.
  apply Bool.orb_true_iff in Hh as [-> | Hh]; [reflexivity|].
  rewrite (no_leading_dash_take k s Hh). apply Bool.orb_true_r.
Qed.

Lemma lstrip_no_leading_dash (s : string) :
  no_leading_dash (Py.lstrip_by is_dash s) = true.
Proof.
  induction s as [|c s IH]; simpl; [reflexivity|].
  destruct (is_dash c) eqn:Hc; [exact IH|]. simpl. now rewrite Hc.
Qed.

(** X12.  Whatever the text and the length limit, [slugify] returns a
    name that is not empty, is made of the characters a-z, 0-9 and the
    dash only, does not begin with a dash and has no two dashes in a
    row; with a limit of 0 or more it is at most as long as the limit,
    or is the six letters of "search". *)
Theorem slugify_is_safe (text : string) (max_len : Z) :
  slugify text max_len <> ""
  /\ Py.forall_chars slug_or_dash (slugify text max_len) = true
  /\ no_leading_dash (slugify text max_len) = true
  /\ single_dashes (slugify text max_len) = true
  /\ ((0 <= max_len)%Z ->
      (Z.of_nat (String.length (slugify text max_len)) <= Z.max max_len 6)%Z).
Proof.
  unfold slugify. destruct (negb (Py.truthy text)).
  { repeat split; try reflexivity; [discriminate | simpl; lia]. }
  set (body := dash_runs false (Py.lower text)).
  destruct (slice_to_take max_len (strip_dashes body)) as (k & Hk & Hkn).
  destruct (rstrip_by_take is_dash (Py.lstrip_by is_dash body)) as (j & Hj).
  assert (Hslug : slice_to max_len (strip_dashes body)
                  = take_chars k (take_chars j (Py.lstrip_by is_dash body))).
  { rewrite Hk. unfold strip_dashes. now rewrite Hj. }
  rewrite Hslug.
  destruct (take_chars k (take_chars j (Py.lstrip_by is_dash body))) as [|c slug] eqn:Hs.
  { repeat split; try reflexivity; [discriminate | simpl; lia]. }
  cbn [Py.truthy]. rewrite <- Hs.
  split; [rewrite Hs; discriminate|].
  split; [apply forall_chars_take, forall_chars_take, forall_chars_lstrip, dash_runs_chars|].
  split; [apply no_leading_dash_take, no_leading_dash_take, lstrip_no_leading_dash|].
  split; [apply single_dashes_take, single_dashes_take, single_dashes_lstrip,
            dash_runs_single|].
  intros Hpos. rewrite (Hkn Hpos).
  pose proof (take_chars_length (Z.to_nat max_len)
                (take_chars j (Py.lstrip_by is_dash body))). lia.
Qed.

Lemma slugify_is_safe_witness :
  (0 <= 30)%Z
  /\ slugify "  Plumbers & HVAC -- Austin, TX!! " 30 = "plumbers-hvac-austin-tx"
  /\ (Z.of_nat (String.length (slugify "  Plumbers & HVAC -- Austin, TX!! " 30))
      <= Z.max 30 6)%Z.
Proof.
  split; [lia|]. split; [reflexivity|].
  apply (slugify_is_safe "  Plumbers & HVAC -- Austin, TX!! " 30). lia.
Defined.

(* ===================================================================== *)
(** * The key of an ordinary URL                                          *)
(* ===================================================================== *)

Lemma filter_chars_id (f : ascii -> bool) (s : string) :
  Py.forall_chars f s = true -> Py.filter_chars f s = s.
Proof.
  induction s as [|c s IH]; simpl; [reflexivity|].
  intros Hf. apply andb_prop in Hf as [Hc Hs]. now rewrite Hc, IH.
Qed.

Lemma forall_chars_weaken (f g : ascii -> bool) (s : string) :
  (forall c, f c = true -> g c = true) ->
  Py.forall_chars f s = true -> Py.forall_chars g s = true.
Proof.
  intros Hfg. induction s as [|c s IH]; simpl; [reflexivity|].
  intros Hf. apply andb_prop in Hf as [Hc Hs]. now rewrite (Hfg c Hc), IH.
Qed.

Lemma take_while_stop (f : ascii -> bool) (h p : string) :
  Py.forall_chars f h = true ->
  match p with EmptyString => true | String c _ => negb (f c) end = true ->
  Re.take_while f (h ++ p) = h.
Proof.
  intros Hh Hp. induction h as [|c h IH]; simpl.
  - destruct p as [|d p]; [reflexivity|]. simpl.
    apply Bool.negb_true_iff in Hp. now rewrite Hp.
  - simpl in Hh. apply andb_prop in Hh as [Hc Hh]. now rewrite Hc, IH.
Qed.

Lemma contains_char_absent (x : ascii) (s : string) :
  Py.forall_chars (fun c => negb (Ascii.eqb c x)) s = true ->
  Py.contains (String x EmptyString) s = false.
Proof.
  induction s as [|c s IH]; [reflexivity|].
  cbn [Py.forall_chars Py.contains String.prefix].
  intros Hf. apply andb_prop in Hf as [Hc Hs]. rewrite (IH Hs), Bool.orb_false_r.
  apply Bool.negb_true_iff, Ascii.eqb_neq in Hc.
  destruct (ascii_dec x c) as [-> | _]; [contradiction | reflexivity].
Qed.

Lemma plain_host_facts (h : string) :
  Py.forall_chars plain_host_char h = true ->
  Py.forall_chars (fun c => negb (Url.tab_cr_lf c)) h = true
  /\ Py.forall_chars Url.not_delim h = true
  /\ Py.contains "[" h = false
  /\ Py.contains "]" h = false.
Proof.
  intros Hh. repeat split.
  - revert Hh. apply forall_chars_weaken. intros c Hc.
    unfold plain_host_char in Hc. now apply andb_prop in Hc as [_ Hc].
  - revert Hh. apply forall_chars_weaken. intros c.
    destruct c as [[] [] [] [] [] [] [] []]; vm_compute; congruence.
  - apply contains_char_absent. revert Hh. apply forall_chars_weaken. intros c.
    destruct c as [[] [] [] [] [] [] [] []]; vm_compute; congruence.
  - apply contains_char_absent. revert Hh. apply forall_chars_weaken. intros c.
    destruct c as [[] [] [] [] [] [] [] []]; vm_compute; congruence.
Qed.

Lemma path_like_filter (p : string) :
  path_like p = true ->
  match Py.filter_chars (fun c => negb (Url.tab_cr_lf c)) p with
  | EmptyString => true
  | String c _ => negb (Url.not_delim c)
  end = true.
Proof.
  destruct p as [|c p]; [reflexivity|]. cbn [path_like Py.filter_chars].
  destruct c as [[] [] [] [] [] [] [] []]; vm_compute; congruence.
Qed.

Section OrdinaryUrl.
Context `{Flavour}.

Lemma netloc_after_scheme (secure : bool) (x : string) :
  Url.netloc brackets_ok ((if secure then "https://" else "http://") ++ x)
  = let n := Re.take_while Url.not_delim
               (Py.filter_chars (fun c => negb (Url.tab_cr_lf c)) x) in
    match Py.contains "[" n, Py.contains "]" n with
    | false, false => Some n
    | true, true => if brackets_ok n then Some n else None
    | _, _ => None
    end.
Proof. destruct secure; reflexivity. Qed.

(** The netloc of [scheme://host] followed by a path, for the two
    schemes of the web. *)
Lemma netloc_of_url (secure : bool) (h p : string) :
  Py.forall_chars plain_host_char h = true ->
  path_like p = true ->
  Url.netloc brackets_ok ((if secure then "https://" else "http://") ++ h ++ p) = Some h.
Proof.
  intros Hh Hp.
  destruct (plain_host_facts h Hh) as (Htab & Hdel & Hob & Hcb).
  pose proof (path_like_filter p Hp) as Hp'.
  rewrite netloc_after_scheme. cbv zeta.
  rewrite filter_chars_app, (filter_chars_id _ h Htab).
  rewrite (take_while_stop Url.not_delim h _ Hdel Hp'), Hob, Hcb. reflexivity.
Qed.

Lemma startswith_http (secure : bool) (x : string) :
  Py.startswith ((if secure then "https://" else "http://") ++ x) "http" = true.
Proof. destruct secure, x; reflexivity. Qed.

(** X13.  For an ordinary website (a host without brackets or control
    characters, followed by nothing or by a path, query or fragment)
    the dedup key is the lower-cased host with [www.] removed, whether
    the website is written with http://, with https:// or, unless it
    begins with the letters http, with no scheme at all; a leading
    [www.] in any letter case makes no difference to the key. *)
Theorem get_domain_of_ordinary_url (h p : string) :
  Py.forall_chars plain_host_char h = true ->
  path_like p = true ->
  h <> "" ->
  _get_domain ("http://" ++ h ++ p) = Some (key_of_host h)
  /\ _get_domain ("https://" ++ h ++ p) = Some (key_of_host h)
  /\ (Py.startswith (h ++ p) "http" = false ->
      _get_domain (h ++ p) = Some (key_of_host h))
  /\ key_of_host ("www." ++ h) = key_of_host h
  /\ key_of_host ("WWW." ++ h) = key_of_host h.
Proof.
  intros Hh Hp Hne.
  assert (Hs : forall secure : bool,
             _get_domain ((if secure then "https://" else "http://") ++ h ++ p)
             = Some (key_of_host h)).
  { intros secure. unfold _get_domain.
    rewrite (startswith_http secure (h ++ p)).
    replace (negb (Py.truthy ((if secure then "https://" else "http://") ++ h ++ p)))
      with false by (now destruct secure).
    cbv iota. change urlparse_netloc with (Url.netloc brackets_ok).
    now rewrite (netloc_of_url secure h p Hh Hp). }
  split; [exact (Hs false)|]. split; [exact (Hs true)|]. split; [|split].
  - intros Hbare. unfold _get_domain. rewrite Hbare.
    destruct h as [|c h]; [contradiction|]. cbn [append Py.truthy negb]. cbv iota.
    change urlparse_netloc with (Url.netloc brackets_ok).
    change ("https://" ++ String c (h ++ p)) with ("https://" ++ String c h ++ p).
    now rewrite (netloc_of_url true (String c h) p Hh Hp).
  - unfold key_of_host. change (Py.lower ("www." ++ h)) with ("www." ++ Py.lower h).
    apply replace_leading_www.
  - unfold key_of_host. change (Py.lower ("WWW." ++ h)) with ("www." ++ Py.lower h).
    apply replace_leading_www.
Qed.

End OrdinaryUrl.

Lemma get_domain_of_ordinary_url_witness :
  "Acme.com:8080" <> ""
  /\ _get_domain "http://Acme.com:8080/shop?x=1" = Some "acme.com:8080"
  /\ _get_domain "Acme.com:8080" = Some "acme.com:8080".
Proof.
  split; [discriminate|].
  destruct (get_domain_of_ordinary_url "Acme.com:8080" "/shop?x=1")
    as (Hhttp & _); [reflexivity | reflexivity | discriminate |].
  destruct (get_domain_of_ordinary_url "Acme.com:8080" "")
    as (_ & _ & Hbare & _); [reflexivity | reflexivity | discriminate |].
  split; [exact Hhttp | exact (Hbare eq_refl)].
Defined.

Lemma lstrip_by_suffix (f : ascii -> bool) (s : string) :
  exists a, s = a ++ Py.lstrip_by f s.
Proof.
  induction s as [|c s [a Ha]]; [now exists ""|]. cbn [Py.lstrip_by].
  destruct (f c); [|now exists ""].
  exists (String c a).
  change (String c s = String c (a ++ Py.lstrip_by f s)). now rewrite <- Ha.
Qed.

Lemma append_assoc3 (a b c : string) : a ++ b ++ c = (a ++ b) ++ c.
Proof.
  induction a as [|x a IH]; [reflexivity|].
  change (String x (a ++ b ++ c) = String x ((a ++ b) ++ c)). now rewrite IH.
Qed.

(** What [drop_scheme] leaves is the text itself or what follows one of
    its colons. *)
Lemma drop_scheme_suffix (url : string) :
  Url.drop_scheme url = url \/ exists a, url = a ++ ":" ++ Url.drop_scheme url.
Proof.
  unfold Url.drop_scheme. destruct url as [|c0 u]; [now left|].
  destruct (lstrip_by_suffix Url.not_colon (String c0 u)) as [a Ha].
  destruct (Py.lstrip_by Url.not_colon (String c0 u)) as [|c rest]; [now left|].
  destruct (ascii_dec c ":") as [-> | Hc].
  - destruct (_ && _ && _); [|now left]. right. now exists a.
  - left. destruct c as [[] [] [] [] [] [] [] []]; try reflexivity. now contradict Hc.
Qed.

Section BareHost.
Context `{Flavour}.

Lemma netloc_without_slashes (url : string) :
  (forall x,
     Url.drop_scheme
       (Py.filter_chars (fun c => negb (Url.tab_cr_lf c))
          (Py.lstrip_by Url.c0_or_space url)) <> "//" ++ x) ->
  Url.netloc brackets_ok url = Some "".
Proof.
  intros Hn. unfold Url.netloc. cbv zeta.
  destruct (Url.drop_scheme _) as [|c1 [|c2 x]]; [reflexivity | |].
  - destruct c1 as [[] [] [] [] [] [] [] []]; reflexivity.
  - destruct (ascii_dec c1 "/") as [-> | H1].
    + destruct (ascii_dec c2 "/") as [-> | H2]; [exfalso; now apply (Hn x)|].
      destruct c2 as [[] [] [] [] [] [] [] []]; try reflexivity. now contradict H2.
    + destruct c1 as [[] [] [] [] [] [] [] []]; try reflexivity. now contradict H1.
Qed.

(** X14.  A website written without a scheme whose text begins with the
    letters http (such as httpbin.org/get) is handed to [urlparse] as it
    is and has no network location: its dedup key is the empty string,
    so the domain check never takes it for a duplicate, whatever has
    been registered. *)
Theorem get_domain_of_bare_http_host (url : string) (e : Engine) :
  Py.startswith url "http" = true ->
  Py.contains "//" url = false ->
  Py.forall_chars (fun c => negb (Url.tab_cr_lf c)) url = true ->
  _get_domain url = Some "" /\ domain_seen (_get_domain url) e = false.
Proof.
  intros Hhttp Hslashes Hplain.
  assert (Hkey : _get_domain url = Some "").
  { destruct (prefix_split _ _ Hhttp) as [t Ht].
    assert (Hl : Py.lstrip_by Url.c0_or_space url = url) by (rewrite Ht; reflexivity).
    assert (Htr : Py.truthy url = true) by (rewrite Ht; reflexivity).
    unfold _get_domain. rewrite Hhttp, Htr. cbn [negb]. cbv iota.
    change urlparse_netloc with (Url.netloc brackets_ok).
    rewrite netloc_without_slashes; [reflexivity|].
    intros x Hx. rewrite Hl, (filter_chars_id _ _ Hplain) in Hx.
    destruct (drop_scheme_suffix url) as [Hsame | [a Ha]].
    - rewrite Hsame in Hx. rewrite Hx in Hhttp. vm_compute in Hhttp. discriminate Hhttp.
    - rewrite Hx in Ha. rewrite Ha, append_assoc3 in Hslashes.
      now rewrite contains_app in Hslashes. }
  split; [exact Hkey|]. now rewrite Hkey.
Qed.

End BareHost.

Lemma get_domain_of_bare_http_host_witness :
  _get_domain "httpbin.org/get" = Some ""
  /\ domain_seen (_get_domain "httpbin.org/get") after_acme_first = false.
Proof.
  apply (get_domain_of_bare_http_host "httpbin.org/get" after_acme_first); reflexivity.
Defined.

(* ===================================================================== *)
(** * Addresses read from a page                                          *)
(* ===================================================================== *)

Lemma NoDup_list_filter {A : Type} (f : A -> bool) (l : list A) :
  NoDup l -> NoDup (List.filter f l).
Proof.
  induction 1 as [|x l Hx Hl IH]; simpl; [constructor|].
  destruct (f x); [|exact IH]. constructor; [|exact IH].
  intros Hin. apply Hx. apply list_elem_of_In in Hin. apply list_elem_of_In.
  now apply filter_In in Hin as [Hin _].
Qed.

Lemma email_at_has_at (s m : string) :
  Re.email_at s = Some m -> Py.contains "@" m = true.
Proof.
  unfold Re.email_at.
  destruct (Re.take_while Re.local_char s) as [|a0 a]; [discriminate|].
  destruct (Py.lstrip_by Re.local_char s) as [|c r]; [discriminate|].
  destruct (ascii_dec c "@") as [-> | Hc].
  - destruct (Re.domain_match false _) as [d|]; [|discriminate].
    intros Hm. injection Hm as <-.
    change (String a0 a ++ String "@" d) with (String a0 a ++ "@" ++ d).
    apply contains_app.
  - destruct c as [[] [] [] [] [] [] [] []]; try discriminate. now contradict Hc.
Qed.

Lemma findall_email_has_at (s : string) :
  forall (skip : nat) (m : string),
    In m (Re.findall_email_from skip s) -> Py.contains "@" m = true.
Proof.
  induction s as [|c s IH]; intros skip m; cbn [Re.findall_email_from]; [intros []|].
  destruct skip as [|k]; [|apply IH].
  destruct (Re.email_at (String c s)) as [m0|] eqn:Hat; [|apply IH].
  intros [<- | Hin]; [now apply (email_at_has_at (String c s)) | now apply (IH (String.length m0 - 1)%nat)].
Qed.

Section Addresses.
Context `{Flavour}.

(** X15.  The addresses that [extract_emails] reads from a text are
    distinct, none of them is a placeholder address, and each contains
    an at sign. *)
Theorem extract_emails_distinct_real (text : string) :
  NoDup (extract_emails text)
  /\ Forall (fun e => is_fake_email e = false /\ Py.contains "@" e = true)
       (extract_emails text).
Proof.
  unfold extract_emails. destruct (negb (Py.truthy text)); [split; constructor|].
  split.
  - apply NoDup_list_filter. cbn [set_iter cpython].
    eapply NoDup_Permutation_proper; [apply set_order_perm | apply NoDup_remove_dups].
  - apply Forall_forall. intros e He. apply list_elem_of_In, filter_In in He as [He Hreal].
    split; [now apply Bool.negb_true_iff in Hreal|].
    cbn [set_iter re_findall cpython] in He.
    apply (Permutation_in _ (set_order_perm _)) in He.
    apply list_elem_of_In in He. apply (proj1 (elem_of_remove_dups _ _)) in He.
    apply list_elem_of_In in He.
    now apply (findall_email_has_at (Py.lower text) O).
Qed.

End Addresses.

(* ===================================================================== *)
(** * Reference tables                                                    *)
(* ===================================================================== *)

Lemma dict_get_some_key {V : Type} (d : list (string * V)) (key : string) (v : V) :
  dict_get d key = Some v -> In key (map fst d).
Proof.
  induction d as [|[k v0] d IH]; simpl; [discriminate|].
  destruct (String.eqb k key) eqn:Hk; [|intros Hg; right; now apply IH].
  intros _. left. now apply String.eqb_eq.
Qed.

Lemma in_codes_dec (st : string) (l : list string) :
  In st l <-> existsb (String.eqb st) l = true.
Proof.
  rewrite existsb_exists. split.
  - intros Hin. exists st. split; [exact Hin | apply String.eqb_refl].
  - intros (x & Hin & Hx). apply String.eqb_eq in Hx. now subst.
Qed.

Lemma upper_char_idempotent (c : ascii) :
  Py.upper (Py.upper_char c) = Py.upper_char c.
Proof. destruct c as [[] [] [] [] [] [] [] []]; reflexivity. Qed.

Lemma upper_app (a b : string) : Py.upper (a ++ b) = Py.upper a ++ Py.upper b.
Proof.
  induction a as [|c a IH]; [reflexivity|].
  change (Py.upper (String c a ++ b)) with (Py.upper_char c ++ Py.upper (a ++ b)).
  change (Py.upper (String c a)) with (Py.upper_char c ++ Py.upper a).
  now rewrite IH, append_assoc3.
Qed.

Lemma upper_idempotent (s : string) : Py.upper (Py.upper s) = Py.upper s.
Proof.
  induction s as [|c s IH]; [reflexivity|].
  change (Py.upper (String c s)) with (Py.upper_char c ++ Py.upper s).
  now rewrite upper_app, upper_char_idempotent, IH.
Qed.

(** X16.  The two city tables together cover exactly the codes of
    [US_STATES]: a state code has at least one city if and only if it is
    one of the 51 codes, written in capitals.  So [get_cities] answers
    with an empty list, and a job by state ends with "No cities
    configured", exactly for the requests whose upper-cased state is no
    such code. *)
Theorem cities_cover_states (st : string) :
  (cities_of_state st <> [] <-> In st (map fst US_STATES))
  /\ (snd (get_cities st) <> [] <-> In (Py.upper st) (map fst US_STATES))
  /\ (forall q : SearchRequest,
        req_geographyMode q = STATE -> req_state q = st ->
        (resolve_cities (config_of q) = [] <-> ~ In (Py.upper st) (map fst US_STATES))).
Proof.
  assert (Hcover : forall s, cities_of_state s <> [] <-> In s (map fst US_STATES)).
  { intros s. split.
    - intros Hne.
      assert (Hk : In s (map fst STATE_CITIES ++ map fst DEFAULT_CITIES)%list).
      { unfold cities_of_state in Hne. apply in_or_app.
        destruct (dict_get STATE_CITIES s) as [cs|] eqn:H1;
          [left; now apply dict_get_some_key in H1|].
        destruct (dict_get DEFAULT_CITIES s) as [cs|] eqn:H2;
          [right; now apply dict_get_some_key in H2 | contradiction]. }
      assert (Hincl : forallb (fun k => existsb (String.eqb k) (map fst US_STATES))
                        (map fst STATE_CITIES ++ map fst DEFAULT_CITIES)%list = true)
        by (vm_compute; reflexivity).
      rewrite forallb_forall in Hincl. apply in_codes_dec. now apply Hincl.
    - intros Hin.
      assert (Hall : forallb (fun k => match cities_of_state k with
                                       | [] => false
                                       | _ :: _ => true
                                       end) (map fst US_STATES) = true)
        by (vm_compute; reflexivity).
      rewrite forallb_forall in Hall. specialize (Hall s Hin).
      destruct (cities_of_state s); [discriminate Hall | discriminate]. }
  assert (Hup : forall s, In s (map fst US_STATES) -> Py.upper s = s).
  { intros s Hin.
    assert (Hall : forallb (fun k => String.eqb (Py.upper k) k) (map fst US_STATES) = true)
      by (vm_compute; reflexivity).
    rewrite forallb_forall in Hall. now apply String.eqb_eq, Hall. }
  split; [apply Hcover|]. split.
  - unfold get_cities. cbn [snd]. rewrite <- Hcover.
    destruct (cities_of_state (Py.upper st)); simpl; split; congruence.
  - intros q Hmode Hst.
    assert (Hres : resolve_cities (config_of q) = cities_of_state (Py.upper st)).
    { unfold resolve_cities, config_of. cbn. rewrite Hmode, Hst. cbn.
      now rewrite upper_idempotent. }
    rewrite Hres, <- Hcover.
    destruct (cities_of_state (Py.upper st)); split; try congruence.
    intros Hnot. exfalso. apply Hnot. discriminate.
Qed.

Lemma cities_cover_states_witness :
  req_geographyMode texas_request = STATE
  /\ resolve_cities (config_of texas_request) <> [].
Proof.
  split; [reflexivity|]. intros Hnone.
  apply (proj2 (proj2 (cities_cover_states "tx")) texas_request eq_refl eq_refl) in Hnone.
  apply Hnone. apply in_codes_dec. reflexivity.
Defined.

(* ===================================================================== *)
(** * The results handler                                                 *)
(* ===================================================================== *)

Lemma count_if_le (f : Business -> bool) (l : list Business) :
  (count_if f l <= List.length l)%nat.
Proof. apply filter_length_le. Qed.

Lemma remove_dups_length_le (l : list string) :
  (List.length (remove_dups l) <= List.length l)%nat.
Proof.
  induction l as [|x l IH]; simpl; [lia|].
  destruct (decide_rel elem_of x l); simpl; lia.
Qed.

(** X17.  [get_results] answers 404 for an id that is not in the
    registry.  For a job that is, the preview is the first
    min(preview, total) businesses of the job, in their order, and
    [previewCount] is its length; none of the counts of businesses with
    a phone, an email or a website, nor the number of states covered,
    exceeds [totalValid]; and the low-result warning is there exactly
    when the job is completed with fewer than 10 businesses. *)
Theorem get_results_view (id : string) (preview_arg : nat) (jobs : gmap string JobData) :
  (jobs !! id = None ->
   get_results id preview_arg jobs = HTTPException 404 "Job not found")
  /\ (forall jd, jobs !! id = Some jd ->
      exists v,
        get_results id preview_arg jobs = Ok v
        /\ totalValid v = List.length (jd_businesses jd)
        /\ previewCount v = Nat.min preview_arg (totalValid v)
        /\ List.length (preview v) = previewCount v
        /\ (exists rest, jd_businesses jd = (preview v ++ rest)%list)
        /\ (withPhone (counts v) <= totalValid v)%nat
        /\ (withEmail (counts v) <= totalValid v)%nat
        /\ (withWebsite (counts v) <= totalValid v)%nat
        /\ (statesCovered (counts v) <= totalValid v)%nat
        /\ (lowResultWarning v = true
            <-> job_status jd = COMPLETED /\ (totalValid v < 10)%nat)).
Proof.
  unfold get_results. split; [intros ->; reflexivity|].
  intros jd ->. eexists. split; [reflexivity|].
  cbn [totalValid previewCount preview counts withPhone withEmail withWebsite
       statesCovered lowResultWarning].
  split; [reflexivity|]. split; [reflexivity|].
  split; [rewrite length_take; lia|].
  split; [exists (drop (Nat.min preview_arg (List.length (jd_businesses jd)))
                    (jd_businesses jd)); now rewrite take_drop|].
  split; [apply count_if_le|]. split; [apply count_if_le|]. split; [apply count_if_le|].
  split.
  - etransitivity; [apply remove_dups_length_le|].
    etransitivity; [apply filter_length_le|]. now rewrite length_map.
  - rewrite Bool.andb_true_iff, Nat.ltb_lt.
    destruct (job_status jd); simpl; intuition congruence.
Qed.

Lemma get_results_view_witness :
  served !! "ab12cd34" <> None
  /\ exists v, get_results "ab12cd34" PREVIEW_LIMIT served = Ok v
               /\ previewCount v = 1%nat /\ lowResultWarning v = true.
Proof.
  split; [vm_compute; discriminate|].
  destruct (served !! "ab12cd34") as [jd|] eqn:Hjd; [|vm_compute in Hjd; discriminate Hjd].
  destruct (proj2 (get_results_view "ab12cd34" PREVIEW_LIMIT served) jd Hjd)
    as (v & Hv & Htot & Hcount & _ & _ & _ & _ & _ & _ & Hlow).
  exists v. split; [exact Hv|].
  assert (Hjd' : served !! "ab12cd34" = Some jd) by exact Hjd.
  vm_compute in Hjd'. injection Hjd' as <-.
  split.
  - rewrite Hcount, Htot. reflexivity.
  - apply Hlow. split; [reflexivity|]. rewrite Htot. simpl. lia.
Defined.

(* ===================================================================== *)
(** * The export handler                                                  *)
(* ===================================================================== *)

Lemma csv_cells_of_row (b : Business) :
  csv_cells (to_csv_row b)
  = [business_name b; phone_number b; email b; website b; address b; city b;
     state b; search_keyword b; google_place_id b; email_source b;
     pretty (data_completeness_score b)].
Proof. reflexivity. Qed.

(** X18.  [download_csv] answers 404 for an unknown id and 400, naming
    the status, for a job that is not completed.  For a completed job
    whose config has a first keyword it hands the writer the eleven
    headers and one row per business of the job, in their order, each
    with eleven cells in the order of the headers and the score in
    decimal, and announces that number of rows. *)
Theorem download_csv_gate (ts id : string) (jobs : gmap string JobData) :
  (jobs !! id = None -> download_csv ts id jobs = Refused 404 "Job not found")
  /\ (forall jd, jobs !! id = Some jd -> job_status jd <> COMPLETED ->
      download_csv ts id jobs
      = Refused 400 ("Job not completed (" ++ status_value (job_status jd) ++ ")"))
  /\ (forall jd config, jobs !! id = Some jd -> job_status jd = COMPLETED ->
      jd_config jd = Some config -> keywords config <> [] ->
      exists x,
        download_csv ts id jobs = Exported x
        /\ header x = CSV_HEADERS
        /\ rows x = map (fun b => csv_cells (to_csv_row b)) (jd_businesses jd)
        /\ List.length (rows x) = List.length (jd_businesses jd)
        /\ Forall (fun row => List.length row = List.length CSV_HEADERS) (rows x)
        /\ total_rows x = pretty (List.length (jd_businesses jd))).
Proof.
  unfold download_csv. split; [intros ->; reflexivity|]. split.
  - intros jd -> Hst. destruct (job_status jd); try reflexivity. contradiction.
  - intros jd config -> Hst Hcfg Hkw. rewrite Hst. cbn [is_completed negb].
    unfold generate_csv_filename. rewrite Hcfg.
    destruct (keywords config) as [|first others]; [contradiction|].
    eexists. split; [reflexivity|]. cbn [header rows total_rows].
    split; [reflexivity|]. split; [reflexivity|]. split; [apply length_map|].
    split; [|reflexivity].
    apply Forall_forall. intros row Hin. apply list_elem_of_In in Hin.
    apply in_map_iff in Hin as (b & <- & _). reflexivity.
Qed.

Lemma download_csv_gate_witness :
  served !! "ab12cd34" <> None
  /\ exists x, download_csv "2026-01-01_09-30" "ab12cd34" served = Exported x
               /\ List.length (rows x) = 1%nat
               /\ filename x = "business_discovery_2026-01-01_09-30_plumber_TX_1rows.csv".
Proof.
  split; [vm_compute; discriminate|].
  destruct (served !! "ab12cd34") as [jd|] eqn:Hjd; [|vm_compute in Hjd; discriminate Hjd].
  assert (Hjd' : served !! "ab12cd34" = Some jd) by exact Hjd.
  vm_compute in Hjd'. injection Hjd' as Hval. subst jd.
  destruct (proj2 (proj2 (download_csv_gate "2026-01-01_09-30" "ab12cd34" served))
              _ (config_of texas_request) Hjd)
    as (x & Hx & _ & _ & Hlen & _); [reflexivity | reflexivity | discriminate |].
  exists x. split; [exact Hx|]. split; [rewrite Hlen; reflexivity|].
  assert (Hx' : download_csv "2026-01-01_09-30" "ab12cd34" served = Exported x) by exact Hx.
  vm_compute in Hx'. injection Hx' as <-. reflexivity.
Defined.

(* ===================================================================== *)
(** * Searches and replies                                                *)
(* ===================================================================== *)










Section Answered.
Context `{Runtime}.
Variable net : Internet.














End Answered.

(* ===================================================================== *)
(** * A job from submission to results                                    *)
(* ===================================================================== *)



Section Lifecycle.
Context `{Runtime}.
Variable net : Internet.




(** X20.  Without an API key (the variable unset or empty) [run_job]
    sends no request and touches no other job; the results of the job
    then read "failed" with reason "API key not configured", its progress
    and businesses as they were and no low-result warning, and the export
    is refused with status 400. *)
Theorem run_job_without_key (api_key : option string) (script : list nearby_reply)
    (id ts : string) (config : Config) (preview_arg : nat)
    (jobs : gmap string JobData) (jd : JobData) :
  jobs !! id = Some jd ->
  Py.truthy (default "" api_key) = false ->
  let done := run_job api_key net script id config jobs in
  trace (snd done) = []
  /\ (forall other, other <> id -> fst done !! other = jobs !! other)
  /\ (exists v,
        get_results id preview_arg (fst done) = Ok v
        /\ res_status v = "failed"
        /\ stopReason v = "API key not configured"
        /\ stopReasonDetail v = "Set GOOGLE_PLACES_API_KEY environment variable."
        /\ res_progress v = progress jd
        /\ totalValid v = List.length (jd_businesses jd)
        /\ preview v = take preview_arg (jd_businesses jd)
        /\ lowResultWarning v = false)
  /\ download_csv ts id (fst done) = Refused 400 "Job not completed (failed)".
Proof.
  intros Hjd Hkey done. subst done. unfold run_job. rewrite Hjd, Hkey. cbn [fst snd].
  split; [reflexivity|]. split.
  { intros other Hne. now rewrite lookup_insert_ne by congruence. }
  split.
  - unfold get_results. rewrite lookup_insert_eq. eexists. split; [reflexivity|].
    cbn [res_status stopReason stopReasonDetail res_progress totalValid preview
         lowResultWarning fail_job job_status jd_stop_reason jd_stop_reason_detail
         progress jd_businesses status_value is_completed andb].
    repeat (split; [reflexivity|]). split; [|reflexivity].
    rewrite <- take_take.
    now rewrite firstn_all.
  - unfold download_csv. rewrite lookup_insert_eq. reflexivity.
Qed.

Lemma sorted_scores (l : list Business) (i j : nat) (A B : Business) :
  StronglySorted before_or_tied l ->
  l !! i = Some A -> l !! j = Some B -> (i < j)%nat ->
  (data_completeness_score B <= data_completeness_score A)%Z.
Proof.
  intros Hs Hi Hj Hlt. pose proof (sorted_lookup l i j A B Hs Hi Hj Hlt) as Hb.
  unfold before_or_tied, key_le, sort_key in Hb. cbn [fst snd] in Hb.
  apply Bool.orb_true_iff in Hb as [Hb | Hb].
  - apply Z.ltb_lt in Hb. lia.
  - apply andb_prop in Hb as [Hb _]. apply Z.eqb_eq in Hb. lia.
Qed.

(** X21.  When a job has been run with an API key, its businesses stand
    in the registry by falling completeness score.  So the preview of
    [get_results] shows the best records (no business left out of the
    preview has a higher score than one in it), and the export starts
    with the rows of the previewed businesses, in the same order. *)
Theorem preview_shows_best (api_key : option string) (script : list nearby_reply)
    (id : string) (q : SearchRequest) (preview_arg : nat) (jobs : gmap string JobData) :
  Py.truthy (default "" api_key) = true ->
  let done :=
    run_job api_key net script id (config_of q) (fst (fst (start_search id q jobs))) in
  exists v jd,
    get_results id preview_arg (fst done) = Ok v
    /\ fst done !! id = Some jd
    /\ (forall i j A B,
          jd_businesses jd !! i = Some A -> jd_businesses jd !! j = Some B ->
          (i < j)%nat ->
          (data_completeness_score B <= data_completeness_score A)%Z)
    /\ (forall A B,
          In A (preview v) -> In B (drop (previewCount v) (jd_businesses jd)) ->
          (data_completeness_score B <= data_completeness_score A)%Z)
    /\ (forall ts x,
          download_csv ts id (fst done) = Exported x ->
          take (previewCount v) (rows x)
          = map (fun b => csv_cells (to_csv_row b)) (preview v)).
Proof.
  intros Hkey done. subst done. unfold start_search, run_job. cbn [fst snd].
  rewrite lookup_insert_eq, Hkey.
  set (r0 := {| replies := script; engine := new_engine;
                job := job_of (new_job_data id (config_of q)) |}).
  pose proof (run_result_sorted net (config_of q) r0) as Hs.
  destruct (run net (config_of q) r0) as [found r1]. cbn [fst snd] in *.
  eexists. eexists.
  split; [unfold get_results; rewrite lookup_insert_eq; reflexivity|].
  split; [apply lookup_insert_eq|].
  cbn [preview previewCount complete_job jd_businesses].
  assert (Hord : forall i j A B,
             found !! i = Some A -> found !! j = Some B -> (i < j)%nat ->
             (data_completeness_score B <= data_completeness_score A)%Z).
  { intros i j A B. now apply sorted_scores. }
  split; [exact Hord|]. split.
  - intros A B HA HB.
    apply list_elem_of_In, list_elem_of_lookup_1 in HA as [i Hi].
    apply list_elem_of_In, list_elem_of_lookup_1 in HB as [j Hj].
    apply lookup_take_Some in Hi as [Hi Hlt]. rewrite lookup_drop in Hj.
    apply (Hord i (Nat.min preview_arg (List.length found) + j)%nat); [assumption..|lia].
  - intros ts x. unfold download_csv. rewrite lookup_insert_eq.
    cbn [job_status is_completed negb jd_businesses].
    destruct (generate_csv_filename ts _); [|discriminate].
    intros Hx. injection Hx as <-. cbn [rows]. apply firstn_map.
Qed.

End Lifecycle.



Lemma run_job_without_key_witness :
  download_csv "2026-01-01_09-30" "ab12cd34"
    (fst (run_job None joe_net [NearbyJson page_with_joe] "ab12cd34"
            (config_of texas_request)
            (fst (fst (start_search "ab12cd34" texas_request ∅)))))
  = Refused 400 "Job not completed (failed)".
Proof.
  apply (run_job_without_key joe_net None [NearbyJson page_with_joe]
           "ab12cd34" "2026-01-01_09-30" (config_of texas_request) 10
           (fst (fst (start_search "ab12cd34" texas_request ∅)))
           (new_job_data "ab12cd34" (config_of texas_request)));
    reflexivity.
Defined.

Lemma preview_shows_best_witness :
  exists v,
    get_results "ab12cd34" 10 served = Ok v
    /\ (forall ts x,
          download_csv ts "ab12cd34" served = Exported x ->
          take (previewCount v) (rows x)
          = map (fun b => csv_cells (to_csv_row b)) (preview v)).
Proof.
  destruct (preview_shows_best joe_net (Some "key") [NearbyJson page_with_joe]
              "ab12cd34" texas_request 10 ∅ eq_refl)
    as (v & jd & Hv & _ & _ & _ & Hx).
  exists v. split; [exact Hv | exact Hx].
Defined.
